(** * piku: manifest parsing, environment layers and the unit lifecycle

    A shallow embedding of [piku.py].  Strings are Rocq strings, Python
    dictionaries are finite maps, the file system under [PIKU_ROOT] is a
    finite map from paths to nodes, and the commands run in a small
    state-and-exception monad that also records what they print, which
    external programs they start and which files they touch. *)

From Stdlib Require Import Ascii String.
From stdpp Require Import gmap strings list fin_maps pretty.

Open Scope string_scope.

(** ** Python string primitives *)

Module Py.

(** [c.isalnum()] on a byte string in the C locale. *)
Definition isalnum (c : ascii) : bool :=
  let n := nat_of_ascii c in
  ((48 <=? n) && (n <=? 57) || (65 <=? n) && (n <=? 90)
   || (97 <=? n) && (n <=? 122))%nat.

(** The characters removed by [strip()], [lstrip()] and [rstrip()] when
    called without argument: space, tab, newline, vertical tab, form feed
    and carriage return. *)
Definition isspace (c : ascii) : bool :=
  let n := nat_of_ascii c in
  ((n =? 32) || (9 <=? n) && (n <=? 13))%nat.

Fixpoint keep (f : ascii → bool) (s : string) : string :=
  match s with
  | EmptyString => EmptyString
  | String c r => if f c then String c (keep f r) else keep f r
  end.

Fixpoint all_chars (f : ascii → bool) (s : string) : bool :=
  match s with
  | EmptyString => true
  | String c r => f c && all_chars f r
  end.

Fixpoint lstrip (s : string) : string :=
  match s with
  | EmptyString => EmptyString
  | String c r => if isspace c then lstrip r else s
  end.

Fixpoint rstrip (s : string) : string :=
  match s with
  | EmptyString => EmptyString
  | String c r =>
      match rstrip r with
      | EmptyString => if isspace c then EmptyString else String c EmptyString
      | r' => String c r'
      end
  end.

Definition strip (s : string) : string := lstrip (rstrip s).

(** [s.split(sep, 1)]: the text before the first [sep], and the text
    after it when there is one. *)
Fixpoint split1 (sep : ascii) (s : string) : string * option string :=
  match s with
  | EmptyString => (EmptyString, None)
  | String c r =>
      if Ascii.eqb c sep then (EmptyString, Some r)
      else let '(a, b) := split1 sep r in (String c a, b)
  end.

Fixpoint startswith (p s : string) : bool :=
  match p, s with
  | EmptyString, _ => true
  | String a p', String b s' => Ascii.eqb a b && startswith p' s'
  | String _ _, EmptyString => false
  end.

Fixpoint drop (n : nat) (s : string) : string :=
  match n, s with
  | O, _ => s
  | S n', String _ r => drop n' r
  | S _, EmptyString => EmptyString
  end.

Definition endswith (q s : string) : bool :=
  String.eqb (drop (String.length s - String.length q) s) q
  && (String.length q <=? String.length s)%nat.

(** [str(n)] and [%d] for a natural number. *)
Definition str (n : nat) : string := pretty n.

End Py.

(** ** Utility functions *)

(** [sanitize_app_name]: keep the alphanumeric characters, [.] and [_],
    then strip trailing white space. *)
Definition sanitize_char (c : ascii) : bool :=
  Py.isalnum c || Ascii.eqb c "." || Ascii.eqb c "_".

Definition sanitize_app_name (app : string) : string :=
  Py.rstrip (Py.keep sanitize_char app).

(** ** The file system under [PIKU_ROOT]

    A path is the list of its components below [PIKU_ROOT], spelled as the
    program spells it: [join] appends components and nothing else, so
    [join APP_ROOT ""] is the spelling [apps/] and [join APP_ROOT ".."] is
    [apps/..].  The operating system resolves a spelling when a call
    reaches it; [norm] is that resolution (there are no symbolic links in
    the model).  The file system maps resolved paths to nodes; the empty
    path is [PIKU_ROOT] itself.  A file is the list of chunks written to
    it, which for the files read here is the list of its lines. *)

Inductive node :=
| File (lines : list string)
| Dir.

#[global] Instance node_eq_dec : EqDecision node.
Proof. solve_decision. Defined.

Abbreviation path := (list string).
Abbreviation fs := (gmap (list string) node).

Definition join (p : path) (parts : list string) : path := p ++ parts.

Definition norm_step (acc : path) (c : string) : path :=
  if decide (c = "" ∨ c = ".") then acc
  else if decide (c = "..") then removelast acc
  else acc ++ [c].

Definition norm (p : path) : path := foldl norm_step [] p.

Definition basename (p : path) : string := List.last p "".

Definition APP_ROOT : path := ["apps"].
Definition ENV_ROOT : path := ["envs"].
Definition GIT_ROOT : path := ["repos"].
Definition LOG_ROOT : path := ["logs"].
Definition UWSGI_AVAILABLE : path := ["uwsgi-available"].
Definition UWSGI_ENABLED : path := ["uwsgi-enabled"].
Definition UWSGI_ROOT : path := ["uwsgi"].

Definition is_dir (f : fs) (p : path) : bool :=
  bool_decide (f !! norm p = Some Dir).

Definition path_exists (f : fs) (p : path) : bool :=
  bool_decide (is_Some (f !! norm p)).

Definition is_file (f : fs) (q : path) : bool :=
  match f !! q with
  | Some (File _) => true
  | _ => false
  end.

(** The name a key has as a direct child of the resolved directory [q]. *)
Fixpoint child_name (q k : path) : option string :=
  match q, k with
  | [], [n] => Some n
  | a :: q', b :: k' => if decide (a = b) then child_name q' k' else None
  | _, _ => None
  end.

(** [os.listdir]: the entries of a directory, in the order the file
    system lists them (here the order of the finite map). *)
Definition listdir (f : fs) (d : path) : list string :=
  omap (λ kv, child_name (norm d) kv.1) (map_to_list f).

(** [fnmatch] against the pattern ['%s*.ini' % app]; [app] is a sanitized
    name and holds no pattern character. *)
Definition fnmatch_ini (app name : string) : bool :=
  Py.startswith app name
  && Py.endswith ".ini" (Py.drop (String.length app) name).

(** [glob1]: files beginning with a dot can only be matched by patterns
    that also start with a dot; when the pattern does not, the names that
    begin with a dot are dropped before matching. *)
Definition hidden (name : string) : bool := Py.startswith "." name.

Definition glob1_ini (app : string) (names : list string) : list string :=
  let names :=
    if Py.startswith "." (app ++ "*.ini") then names
    else filter (λ n, negb (hidden n)) names in
  filter (λ n, fnmatch_ini app n) names.

(** [glob(join(d, '%s*.ini' % app))]. *)
Definition glob_ini (f : fs) (d : path) (app : string) : list path :=
  (λ n, join d [n]) <$> glob1_ini app (listdir f d).

(** Everything at or below the resolved path [q] is dropped. *)
Definition prune (q : path) (f : fs) : fs :=
  filter (λ kv, ¬ q `prefix_of` kv.1) f.

(** ** Effects: printed lines, external programs, file operations *)

Inductive event :=
| Echo (msg fg : string)
| Call (cmd : string) (cwd : path)
| Execfile (script : path)
| Sleep (seconds : nat)
| Bound (port : nat)
| Removed (p : path)
| Copied (src dst : path)
| Rmtree (p : path)
| Wrote (p : path)
| Makedirs (p : path).

Inductive exn :=
  OSError | IOError | TypeError | ValueError | KeyError | ShutilError
| NameError.

Inductive result (A : Type) :=
| Ok (a : A)
| Raise (e : exn).
Arguments Ok {A} a.
Arguments Raise {A} e.

Record world := World {
  files : fs;
  trace : list event;   (* oldest first *)
  sockets : nat         (* ephemeral ports handed out so far *)
}.

Definition M (A : Type) : Type := world → result A * world.

#[global] Instance M_ret : MRet M := λ A a w, (Ok a, w).

#[global] Instance M_bind : MBind M := λ A B k m w,
  match m w with
  | (Ok a, w') => k a w'
  | (Raise e, w') => (Raise e, w')
  end.

Definition raise {A} (e : exn) : M A := λ w, (Raise e, w).

Definition emit (e : event) : M unit :=
  λ w, (Ok tt, World (files w) (trace w ++ [e]) (sockets w)).

Definition get_files : M fs := λ w, (Ok (files w), w).

Definition put_files (f : fs) : M unit :=
  λ w, (Ok tt, World f (trace w) (sockets w)).

Definition echo (msg fg : string) : M unit := emit (Echo msg fg).

Definition sleep (n : nat) : M unit := emit (Sleep n).

(** [for x in l: body(x)], left at the first exception. *)
Fixpoint for_each {A} (l : list A) (body : A → M unit) : M unit :=
  match l with
  | [] => mret tt
  | x :: r => body x ;; for_each r body
  end.

Definition exists_ (p : path) : M bool :=
  f ← get_files; mret (path_exists f p).

Definition glob (d : path) (app : string) : M (list path) :=
  f ← get_files; mret (glob_ini f d app).

(** [os.remove] and [os.unlink]: only a file can go. *)
Definition os_remove (p : path) : M unit :=
  f ← get_files;
  match f !! norm p with
  | Some (File _) => put_files (delete (norm p) f) ;; emit (Removed p)
  | _ => raise OSError
  end.

Definition os_unlink := os_remove.

(** [open(p, 'r')] read to the end. *)
Definition read_lines (p : path) : M (list string) :=
  f ← get_files;
  match f !! norm p with
  | Some (File ls) => mret ls
  | _ => raise IOError
  end.

(** [open(p, 'w')] followed by the writes [ls]: the directory must be
    there and [p] must not name a directory. *)
Definition write_lines (p : path) (ls : list string) : M unit :=
  f ← get_files;
  match norm p with
  | [] => raise IOError
  | q =>
      if bool_decide (f !! removelast q = Some Dir)
         && negb (bool_decide (f !! q = Some Dir))
      then put_files (<[q := File ls]> f) ;; emit (Wrote p)
      else raise IOError
  end.

(** [shutil.copyfile]. *)
Definition shutil_copyfile (src dst : path) : M unit :=
  f ← get_files;
  if bool_decide (is_Some (f !! norm src)) && bool_decide (norm src = norm dst)
  then raise ShutilError
  else
    ls ← read_lines src;
    f ← get_files;
    match norm dst with
    | [] => raise IOError
    | q =>
        if bool_decide (f !! removelast q = Some Dir)
           && negb (bool_decide (f !! q = Some Dir))
        then put_files (<[q := File ls]> f) ;; emit (Copied src dst)
        else raise IOError
    end.

(** [shutil.copy]: into the directory when [dst] names one. *)
Definition shutil_copy (src dst : path) : M unit :=
  f ← get_files;
  if is_dir f dst then shutil_copyfile src (join dst [basename src])
  else shutil_copyfile src dst.

(** The listing up to the entry [via], that entry included. *)
Fixpoint upto (via : string) (names : list string) : list string :=
  match names with
  | [] => []
  | n :: r => if decide (n = via) then [n] else n :: upto via r
  end.

(** [shutil.rmtree] without [ignore_errors]: the whole tree goes.  The
    last step is [os.rmdir] on the spelling it was given: that fails for a
    spelling that ends in [.] after the entries are gone, and for one that
    ends in [..] the walk deletes the directory it came through and fails
    on the next entry. *)
Definition shutil_rmtree (p : path) : M unit :=
  f ← get_files;
  let q := norm p in
  match f !! q with
  | Some Dir =>
      if decide (basename p = ".") then
        put_files (<[q := Dir]> (prune q f)) ;; emit (Rmtree p) ;; raise OSError
      else if decide (basename p = "..") then
        let via := basename (norm (removelast p)) in
        let names := listdir f p in
        let doomed := upto via names in
        put_files (foldr (λ n g, prune (q ++ [n]) g) f doomed) ;;
        emit (Rmtree p) ;; raise OSError
      else put_files (prune q f) ;; emit (Rmtree p)
  | _ => raise OSError
  end.

(** The path and the paths above it. *)
Fixpoint inits (q : path) : list path :=
  [] :: match q with
        | [] => []
        | c :: r => (λ d, c :: d) <$> inits r
        end.

Definition mkdir_all (q : path) (f : fs) : fs :=
  foldr (λ d g, <[d := Dir]> g) f (inits q).

(** [os.makedirs]: every missing directory on the way is made; it is an
    error when the path is there already or a file is in the way. *)
Definition os_makedirs (p : path) : M unit :=
  f ← get_files;
  let q := norm p in
  if path_exists f p || existsb (is_file f) (inits q)
  then raise OSError
  else put_files (mkdir_all q f) ;; emit (Makedirs p).

(** A path as it is printed, below [PIKU_ROOT]. *)
Definition path_str (p : path) : string := String.concat "/" p.

(** [if len(x):] *)
Definition truthy {A} (l : list A) : bool :=
  match l with
  | [] => false
  | _ :: _ => true
  end.

(** ** Manifest and settings parsers *)

(** [a, b = map(lambda x: x.strip(), line.split(sep, 1))]: there is no
    result when the split has one part only and the unpacking fails. *)
Definition split_pair (sep : ascii) (line : string) : option (string * string) :=
  match Py.split1 sep line with
  | (a, Some b) => Some (Py.strip a, Py.strip b)
  | (_, None) => None
  end.

Definition worker_kinds : list string := ["web"; "worker"; "wsgi"].

(** The loop of [parse_procfile]: on a line without colon the unpacking
    fails and the bare [except] prints the warning; a line with a colon
    either sets its kind or does nothing. *)
Fixpoint scan_procfile (lines : list string) (workers : gmap string string)
    : M (gmap string string) :=
  match lines with
  | [] => mret workers
  | line :: rest =>
      match split_pair ":" line with
      | Some (kind, command) =>
          if bool_decide (kind ∈ worker_kinds)
          then scan_procfile rest (<[kind := command]> workers)
          else scan_procfile rest workers
      | None =>
          echo ("Warning: unrecognized Procfile declaration '" ++ line ++ "'")
               "yellow" ;;
          scan_procfile rest workers
      end
  end.

Definition parse_procfile (filename : path) : M (option (gmap string string)) :=
  b ← exists_ filename;
  if negb b then mret None
  else
    lines ← read_lines filename;
    workers ← scan_procfile lines ∅;
    if bool_decide (size workers = 0) then mret None
    else if bool_decide (is_Some (workers !! "wsgi"))
    then if bool_decide (is_Some (workers !! "web"))
         then mret (Some (delete "web" workers))
         else mret (Some workers)
    else mret (Some workers).

Fixpoint scan_settings (lines : list string) (env : gmap string string)
    : M (gmap string string) :=
  match lines with
  | [] => mret env
  | line :: rest =>
      match split_pair "=" line with
      | Some (k, v) => scan_settings rest (<[k := v]> env)
      | None =>
          echo ("Warning: malformed setting '" ++ line ++ "'") "yellow" ;;
          scan_settings rest env
      end
  end.

Definition parse_settings (filename : path) : M (option (gmap string string)) :=
  b ← exists_ filename;
  if negb b then mret None
  else
    lines ← read_lines filename;
    env ← scan_settings lines ∅;
    mret (Some env).

(** [d.update(e)]: updating with [None] is a [TypeError]. *)
Definition dict_update (d : gmap string string) (e : option (gmap string string))
    : M (gmap string string) :=
  match e with
  | Some e => mret (e ∪ d)
  | None => raise TypeError
  end.

(** ** Worker configuration units *)

(** ['%s_%s_%d' % (app, kind, ordinal)] *)
Definition unit_stem (app kind : string) (ordinal : nat) : string :=
  app ++ "_" ++ kind ++ "_" ++ Py.str ordinal.

Definition unit_name (app kind : string) (ordinal : nat) : string :=
  unit_stem app kind ordinal ++ ".ini".

(** Calling a tuple: ['tuple' object is not callable]. *)
Definition call_tuple {A} (callee args : string * string) : M A :=
  raise TypeError.

(** ['%s=%v' % (k, v)]: there is no conversion [%v]. *)
Definition format_s_v (k v : string) : M string := raise ValueError.

(** The list literal opening [single_worker].  The source has no comma
    between the entries for [procname-prefix] and [enable-threads], so the
    first is applied to the second. *)
Definition settings_literal (app kind : string) (ordinal : nat)
    : M (list (string * string)) :=
  entry ← call_tuple ("procname-prefix", unit_stem app kind ordinal)
                     ("enable-threads", "true");
  mret [ ("virtualenv", path_str (join ENV_ROOT [app]));
         ("chdir", path_str (join APP_ROOT [app]));
         ("master", "true");
         ("project", app);
         ("max-requests", "1000");
         ("processes", "1");
         entry;
         ("threads", "4");
         ("log-maxsize", "1048576");
         ("logto", path_str (join LOG_ROOT [app; kind]) ++ "_"
                   ++ Py.str ordinal ++ ".log");
         ("log-backupname", path_str (join LOG_ROOT [app; kind]) ++ "_"
                   ++ Py.str ordinal ++ ".log.old") ].

Fixpoint env_directives (items : list (string * string))
    (settings : list (string * string)) : M (list (string * string)) :=
  match items with
  | [] => mret settings
  | (k, v) :: rest =>
      s ← format_s_v k v;
      env_directives rest (settings ++ [("env", s)])%list
  end.

(** The directive of the kind; the call to [extend] is read with the
    closing bracket the source leaves out. *)
Definition kind_directives (kind command : string) (env : gmap string string)
    (settings : list (string * string)) : M (list (string * string)) :=
  if decide (kind = "wsgi") then
    match env !! "PORT" with
    | Some port => mret (settings ++ [("module", command); ("http", (":" ++ port)%string)])%list
    | None => raise KeyError
    end
  else mret (settings ++ [("attach-daemon", command)])%list.

Definition unit_text (settings : list (string * string)) : list string :=
  "[uwsgi]
" :: ((λ kv, kv.1 ++ " = " ++ kv.2 ++ "
") <$> settings).

(** The end of [single_worker]: write the available unit, remove the
    enabled one, wait, copy the available unit over. *)
Definition write_and_enable (app kind : string) (ordinal : nat)
    (available enabled : path) (settings : list (string * string)) : M unit :=
  write_lines available (unit_text settings) ;;
  echo ("-----> Enabling '" ++ app ++ ":" ++ kind ++ "_" ++ Py.str ordinal ++ "'")
       "green" ;;
  os_unlink enabled ;;
  sleep 5 ;;
  shutil_copyfile available enabled.

Definition single_worker (app kind command : string) (env : gmap string string)
    (ordinal : nat) : M unit :=
  let available := join UWSGI_AVAILABLE [unit_name app kind ordinal] in
  let enabled := join UWSGI_ENABLED [unit_name app kind ordinal] in
  settings ← settings_literal app kind ordinal;
  settings ← env_directives (map_to_list env) settings;
  settings ← kind_directives kind command env settings;
  write_and_enable app kind ordinal available enabled settings.

(** ** Deployment *)

Section Deploy.

(** What an external program does to the files when it is run with a given
    command line in a given directory. *)
Variable subprocess : string → path → fs → fs.

(** [os.environ['PATH']]. *)
Variable environ_PATH : string.

(** The port the operating system hands to the n-th socket bound to
    port 0. *)
Variable ephemeral : nat → nat.

(** [deploy_python] and [create_workers] read a name [env_path] that
    neither binds and that is no global of the file ([single_worker] has a
    local of that name): the read raises [NameError]. *)
Definition env_path : M path := raise NameError.

(** [create_workers] calls [create_worker], which the file does not
    define. *)
Variable create_worker :
  string → string → string → gmap string string → nat → M unit.

(** [subprocess.call(cmd, cwd=cwd, shell=True)]: the exit status is not
    looked at. *)
Definition call (cmd : string) (cwd : path) : M unit :=
  f ← get_files;
  if is_dir f cwd
  then put_files (subprocess cmd cwd f) ;; emit (Call cmd cwd)
  else raise OSError.

(** [execfile] of the activation script: it changes the interpreter, not
    the files. *)
Definition execfile (script : path) : M unit :=
  f ← get_files;
  if is_file f (norm script) then emit (Execfile script) else raise IOError.

Definition get_free_port : M nat :=
  λ w, let port := ephemeral (sockets w) in
       (Ok port, World (files w) (trace w ++ [Bound port]) (S (sockets w))).

(** [if exists(file): env.update(parse_settings(file))] *)
Definition update_from (file : path) (env : gmap string string)
    : M (gmap string string) :=
  b ← exists_ file;
  if (b : bool) then e ← parse_settings file; dict_update env e else mret env.

(** The environment of [create_workers], up to the loop.  The entries
    of the literal are evaluated in the order they are written: [PATH],
    then [VIRTUAL_ENV], then [PORT]. *)
Definition resolve_env (app : string) : M (gmap string string) :=
  let env_file := join APP_ROOT ["ENV"] in
  let settings := join ENV_ROOT [app] in
  virtual_env ← env_path;
  port ← get_free_port;
  let env : gmap string string :=
    <["PORT" := Py.str port]>
      (<["VIRTUAL_ENV" := path_str virtual_env]>
         (<["PATH" := environ_PATH]> ∅)) in
  env ← update_from env_file env;
  env ← update_from settings env;
  mret env.

Fixpoint create_each (app : string) (env : gmap string string)
    (items : list (string * string)) (ordinal : nat) : M unit :=
  match items with
  | [] => mret tt
  | (k, v) :: rest =>
      create_worker app k v env ordinal ;;
      create_each app env rest (S ordinal)
  end.

Definition create_workers (app : string) (workers : gmap string string)
    : M unit :=
  env ← resolve_env app;
  create_each app env (map_to_list workers) 1.

Definition deploy_python (app : string) (workers : gmap string string)
    : M unit :=
  p ← env_path;
  b ← exists_ p;
  (if negb b then
     echo ("-----> Creating virtualenv for '" ++ app ++ "'") "green" ;;
     p ← env_path;
     os_makedirs p ;;
     call ("virtualenv " ++ app) ENV_ROOT
   else mret tt) ;;
  echo ("-----> Running pip for '" ++ app ++ "'") "green" ;;
  p ← env_path;
  let activation_script := join p ["bin"; "activate_this.py"] in
  execfile activation_script ;;
  cwd ← env_path;
  call ("pip install -r " ++ path_str (join APP_ROOT [app; "requirements.txt"]))
       cwd ;;
  create_workers app workers.

Definition do_deploy (app : string) : M unit :=
  let app_path := join APP_ROOT [app] in
  let procfile := join app_path ["Procfile"] in
  b ← exists_ app_path;
  if (b : bool) then
    echo ("-----> Deploying app '" ++ app ++ "'") "green" ;;
    call "git pull --quiet" app_path ;;
    call "git checkout -f" app_path ;;
    workers ← parse_procfile procfile;
    match workers with
    | Some workers =>
        if bool_decide (size workers = 0)
        then echo ("Error: Procfile not found for app '" ++ app ++ "'.") "red"
        else
          r ← exists_ (join app_path ["requirements.txt"]);
          if (r : bool) then
            echo "-----> Python app detected." "green" ;;
            deploy_python app workers
          else echo "-----> Could not detect runtime!" "red"
    | None => echo ("Error: Procfile not found for app '" ++ app ++ "'.") "red"
    end
  else echo ("Error: app '" ++ app ++ "' not found.") "red".

Definition deploy_app (app : string) : M unit :=
  let app := sanitize_app_name app in
  do_deploy app.

End Deploy.

(** ** Lifecycle commands *)

(** The group callback, run before every command. *)
Definition piku : M unit :=
  for_each
    [APP_ROOT; GIT_ROOT; ENV_ROOT; UWSGI_ROOT; UWSGI_AVAILABLE; UWSGI_ENABLED;
     LOG_ROOT]
    (λ p, b ← exists_ p; if negb b then os_makedirs p else mret tt).

Definition destroy_app (app : string) : M unit :=
  let app := sanitize_app_name app in
  for_each ((λ x, join x [app]) <$> [APP_ROOT; GIT_ROOT; ENV_ROOT; LOG_ROOT])
    (λ p, b ← exists_ p;
          if (b : bool) then
            echo ("Removing folder '" ++ path_str p ++ "'") "yellow" ;;
            shutil_rmtree p
          else mret tt) ;;
  for_each [UWSGI_AVAILABLE; UWSGI_ENABLED]
    (λ x, g ← glob x app;
          if truthy g then
            for_each g
              (λ f, echo ("Removing file '" ++ path_str f ++ "'") "yellow" ;;
                    os_remove f)
          else mret tt).

Definition disable_app (app : string) : M unit :=
  let app := sanitize_app_name app in
  config ← glob UWSGI_ENABLED app;
  if truthy config then
    echo ("Disabling app '" ++ app ++ "'...") "yellow" ;;
    for_each config os_remove
  else echo ("Error: app '" ++ app ++ "' not deployed!") "red".

(** The last three messages are printed without their argument, as the
    source has them. *)
Definition enable_app (app : string) : M unit :=
  let app := sanitize_app_name app in
  enabled ← glob UWSGI_ENABLED app;
  available ← glob UWSGI_AVAILABLE app;
  b ← exists_ (join APP_ROOT [app]);
  if (b : bool) then
    if truthy enabled then
      if truthy available then
        echo ("Enabling app '" ++ app ++ "'...") "yellow" ;;
        for_each available (λ a, shutil_copy a (join UWSGI_ENABLED [app]))
      else echo "Error: app '%s' is not configured." "red"
    else echo "Warning: app '%s' is already enabled, skipping." "yellow"
  else echo "Error: app '%s' does not exist." "red".

Definition restart_app (app : string) : M unit :=
  let app := sanitize_app_name app in
  enabled ← glob UWSGI_ENABLED app;
  available ← glob UWSGI_AVAILABLE app;
  if truthy enabled then
    echo ("Restarting app '" ++ app ++ "'...") "yellow" ;;
    for_each enabled os_unlink ;;
    sleep 5 ;;
    if truthy available then
      for_each available (λ a, shutil_copy a (join UWSGI_ENABLED [app]))
    else mret tt
  else echo ("Error: app '" ++ app ++ "' not enabled!") "red".

(** ** Units of an application, as the commands pick them *)

Definition units (f : fs) (d : path) (app : string) : list string :=
  glob1_ini app (listdir f d).

(** ** Reading the parsers' results *)

(** The command of the last line of the manifest that declares [kind]. *)
Fixpoint last_command (kind : string) (lines : list string) : option string :=
  match lines with
  | [] => None
  | line :: rest =>
      match last_command kind rest with
      | Some c => Some c
      | None =>
          match split_pair ":" line with
          | Some (k, c) => if decide (k = kind) then Some c else None
          | None => None
          end
      end
  end.

(** The value of the last line of a settings file that sets [key]. *)
Fixpoint last_value (key : string) (lines : list string) : option string :=
  match lines with
  | [] => None
  | line :: rest =>
      match last_value key rest with
      | Some v => Some v
      | None =>
          match split_pair "=" line with
          | Some (k, v) => if decide (k = key) then Some v else None
          | None => None
          end
      end
  end.

(** The warning printed for a line. *)
Definition procfile_warning (line : string) : event :=
  Echo ("Warning: unrecognized Procfile declaration '" ++ line ++ "'") "yellow".

(** The warnings of a manifest: one for each line without a colon. *)
Definition procfile_warnings (lines : list string) : list event :=
  omap (λ line,
          match split_pair ":" line with
          | Some _ => None
          | None => Some (procfile_warning line)
          end) lines.

Definition settings_warnings (lines : list string) : list event :=
  omap (λ line,
          match split_pair "=" line with
          | Some _ => None
          | None => Some (Echo ("Warning: malformed setting '" ++ line ++ "'")
                               "yellow")
          end) lines.

(** A line that sets a worker: it has a colon and a kind of the list. *)
(** A line that declares [kind]: the text before its first colon,
    stripped, is [kind]. *)
Definition declares (kind line : string) : Prop :=
  ∃ command, split_pair ":" line = Some (kind, command).

Definition recognised (line : string) : bool :=
  match split_pair ":" line with
  | Some (kind, _) => bool_decide (kind ∈ worker_kinds)
  | None => false
  end.

(** The world after some more events and with other files. *)
Definition after (w : world) (f : fs) (evs : list event) : world :=
  World f (trace w ++ evs) (sockets w).

(** What [parse_procfile] returns for a manifest with the given lines. *)
Definition resolved (lines : list string) (kind : string) : option string :=
  if bool_decide (kind ∈ worker_kinds) then
    if bool_decide (kind = "web" ∧ is_Some (last_command "wsgi" lines))
    then None
    else last_command kind lines
  else None.

(** The value a settings file gives a key; a missing file gives none. *)
Definition setting (content : option (list string)) (key : string)
    : option string :=
  content ≫= last_value key.

Definition settings_trace (content : option (list string)) : list event :=
  match content with
  | Some lines => settings_warnings lines
  | None => []
  end.

Definition manifest_trace (content : option (list string)) : list event :=
  match content with
  | Some lines => procfile_warnings lines
  | None => []
  end.

(** The names the pattern of [app] picks in a listing. *)
Definition selects (app name : string) : bool :=
  fnmatch_ini app name
  && (Py.startswith "." (app ++ "*.ini") || negb (hidden name)).

(** A directory that holds files only. *)
Definition flat (f : fs) (d : path) : Prop :=
  ∀ n x, f !! join d [n] = Some x → ∃ ls, x = File ls.

(** The invariant of the two unit directories: what an application has
    enabled it has available. *)
Definition enabled_within_available (f : fs) : Prop :=
  ∀ app n, n ∈ units f UWSGI_ENABLED app → n ∈ units f UWSGI_AVAILABLE app.

(** The files after the removals of a loop. *)
Definition remove_all (l : list path) (f : fs) : fs :=
  foldl (λ g p, delete (norm p) g) f l.

(** A name that is a component of its own: not empty, [.] or [..]. *)
Definition plain (n : string) : Prop := n ≠ "" ∧ n ≠ "." ∧ n ≠ "..".

(** What a command has printed and done stays in the trace. *)
Definition grows {A} (m : M A) : Prop :=
  ∀ w, ∃ evs, trace (m w).2 = (trace w ++ evs)%list.

(** Where [shutil.copy] puts the unit [n] when it is given
    [join(UWSGI_ENABLED, app)]: into the directory for the empty name,
    onto the one file of that name otherwise. *)
Definition copy_target (app n : string) : path :=
  if decide (app = "") then join UWSGI_ENABLED [""; n]
  else join UWSGI_ENABLED [app].

(** What [destroy] does to one of its four directories, and what it does
    in one of the two unit directories. *)
Definition clear_dir (p : path) (f : fs) : fs :=
  if bool_decide (f !! norm p = Some Dir) then prune (norm p) f else f.

Definition clear_dir_trace (p : path) (f : fs) : list event :=
  if bool_decide (f !! norm p = Some Dir)
  then [Echo ("Removing folder '" ++ path_str p ++ "'") "yellow"; Rmtree p]
  else [].

Definition unit_paths (f : fs) (d : path) (app : string) : list path :=
  (λ n, join d [n]) <$> units f d app.

Definition remove_trace (l : list path) : list event :=
  l ≫= λ p, [Echo ("Removing file '" ++ path_str p ++ "'") "yellow";
              Removed p].

Definition app_dirs : list path := [APP_ROOT; GIT_ROOT; ENV_ROOT; LOG_ROOT].

Definition unit_dirs : list path := [UWSGI_AVAILABLE; UWSGI_ENABLED].

(** The files after [destroy]. *)
Definition destroyed (name : string) (f : fs) : fs :=
  let g := foldl (λ g x, clear_dir (join x [name]) g) f app_dirs in
  foldl (λ g x, remove_all (unit_paths g x name) g) g unit_dirs.

(** The two conditions on a state, as checks that run. *)
Definition flatb (f : fs) (d : path) : bool :=
  forallb (λ n, is_file f (join d [n])) (listdir f d).

Definition withinb (f : fs) : bool :=
  forallb (λ n, bool_decide (n ∈ listdir f UWSGI_AVAILABLE))
          (listdir f UWSGI_ENABLED).

(** ** Sample states *)

Module Sample.

Definition roots : list (path * node) :=
  [([], Dir); (APP_ROOT, Dir); (GIT_ROOT, Dir); (ENV_ROOT, Dir);
   (UWSGI_ROOT, Dir); (UWSGI_AVAILABLE, Dir); (UWSGI_ENABLED, Dir);
   (LOG_ROOT, Dir)].

Definition world_of (entries : list (path * node)) : world :=
  World (list_to_map (roots ++ entries)) [] 0.

Definition manifest (lines : list string) : world :=
  world_of [(["apps"; "foo"], Dir); (["apps"; "foo"; "Procfile"], File lines)].

Definition web_and_wsgi : list string :=
  ["web: gunicorn app:app
"; "wsgi: old:app
"; "wsgi: app:app
"].

Definition unit_a : list string := ["[uwsgi]
"; "attach-daemon = a
"].

Definition unit_b : list string := ["[uwsgi]
"; "attach-daemon = b
"].

(** An application with one available unit and none enabled. *)
Definition configured_disabled : world :=
  world_of [(["apps"; "foo"], Dir);
            (["uwsgi-available"; "foo_web_1.ini"], File unit_a)].

(** An application with two workers, both enabled. *)
Definition two_workers : world :=
  world_of [(["apps"; "foo"], Dir);
            (["uwsgi-available"; "foo_web_1.ini"], File unit_a);
            (["uwsgi-available"; "foo_worker_2.ini"], File unit_b);
            (["uwsgi-enabled"; "foo_web_1.ini"], File unit_a);
            (["uwsgi-enabled"; "foo_worker_2.ini"], File unit_b)].

(** A checkout that was never deployed. *)
Definition first_deploy : world :=
  world_of [(["apps"; "foo"], Dir);
            (["apps"; "foo"; "Procfile"], File ["web: gunicorn app:app
"]);
            (["apps"; "foo"; "requirements.txt"], File [])].

(** An application whose name ends in [.ini], enabled. *)
Definition dotted : world :=
  world_of [(["apps"; "b.ini"], Dir);
            (["uwsgi-available"; "b.ini_web_1.ini"], File unit_a);
            (["uwsgi-enabled"; "b.ini_web_1.ini"], File unit_a)].

(** An application whose name begins with a dot, enabled. *)
Definition hidden_app : world :=
  world_of [(["apps"; ".x"], Dir);
            (["uwsgi-available"; ".x_web_1.ini"], File unit_a);
            (["uwsgi-enabled"; ".x_web_1.ini"], File unit_a)].

(** Two applications, the name of one a prefix of the other's. *)
Definition foo_and_foobar : world :=
  world_of [(["apps"; "foo"], Dir); (["apps"; "foobar"], Dir);
            (["uwsgi-available"; "foo_web_1.ini"], File unit_a);
            (["uwsgi-available"; "foobar_web_1.ini"], File unit_b);
            (["uwsgi-enabled"; "foo_web_1.ini"], File unit_a);
            (["uwsgi-enabled"; "foobar_web_1.ini"], File unit_b)].

End Sample.

(** ** The other commands *)

(** [s.split(sep)]: cut at every [sep]; two in a row give an empty
    part. *)
Fixpoint str_split (sep : ascii) (s : string) : list string :=
  match s with
  | EmptyString => [EmptyString]
  | String c r =>
      if Ascii.eqb c sep then EmptyString :: str_split sep r
      else match str_split sep r with
           | h :: t => String c h :: t
           | [] => [String c EmptyString]
           end
  end.

Definition dirname (p : path) : path := removelast p.

(** The double quote. *)
Definition dquote : string := String (ascii_of_nat 34) EmptyString.

(** [os.listdir] as a call: the path has to be a directory. *)
Definition os_listdir (p : path) : M (list string) :=
  f ← get_files;
  if is_dir f p then mret (listdir f p) else raise OSError.

(** [os.chmod(p, os.stat(p).st_mode | stat.S_IXUSR)]: modes are not part
    of the model, the file has to be there. *)
Definition os_chmod_exec (p : path) : M unit :=
  b ← exists_ p;
  if (b : bool) then mret tt else raise OSError.

Definition list_apps : M unit :=
  names ← os_listdir APP_ROOT;
  for_each names (λ a, echo a "green").

(** [oldrev, newrev, refname = line.strip().split(" ")]: no result unless
    there are three parts. *)
Definition ref_update (line : string) : option (string * string * string) :=
  match str_split " " (Py.strip line) with
  | [oldrev; newrev; refname] => Some (oldrev, newrev, refname)
  | _ => None
  end.

(** What [git-hook] prints for a push to another branch; [echo] is called
    without colour there. *)
Definition receive_branch (app newrev refname : string) : event :=
  Echo ("receive-branch '" ++ app ++ "': " ++ newrev ++ ", " ++ refname) "".

Section Hooks.

Variable subprocess : string → path → fs → fs.
Variable environ_PATH : string.
Variable ephemeral : nat → nat.
Variable create_worker :
  string → string → string → gmap string string → nat → M unit.

(** [PIKU_ROOT] as text and [sys.argv]. *)
Variable piku_root : string.
Variable argv : list string.

(** The loop of [git_hook] over the lines of standard input. *)
Fixpoint git_hook_lines (app : string) (lines : list string) : M unit :=
  let repo_path := join GIT_ROOT [app] in
  let app_path := join APP_ROOT [app] in
  match lines with
  | [] => mret tt
  | line :: rest =>
      match ref_update line with
      | Some (oldrev, newrev, refname) =>
          (if decide (refname = "refs/heads/master") then
             b ← exists_ app_path;
             (if negb b then
                echo ("-----> Creating app '" ++ app ++ "'") "green" ;;
                os_makedirs app_path ;;
                call subprocess
                  ("git clone --quiet " ++ path_str repo_path ++ " " ++ app)
                  APP_ROOT
              else mret tt) ;;
             do_deploy subprocess environ_PATH ephemeral create_worker app
           else emit (receive_branch app newrev refname)) ;;
          git_hook_lines app rest
      | None => raise ValueError
      end
  end.

Definition git_hook (app : string) (stdin : list string) : M unit :=
  let app := sanitize_app_name app in
  git_hook_lines app stdin.

Definition hook_text (app : string) : list string :=
  ["#!/usr/bin/env bash
set -e; set -o pipefail;
cat | PIKU_ROOT=" ++ dquote ++ piku_root ++ dquote
   ++ " $HOME/piku.py git-hook " ++ app].

Definition receive (app : string) : M unit :=
  let app := sanitize_app_name app in
  let hook_path := join GIT_ROOT [app; "hooks"; "post-receive"] in
  b ← exists_ hook_path;
  (if negb b then
     os_makedirs (dirname hook_path) ;;
     call subprocess ("git init --quiet --bare " ++ app) GIT_ROOT ;;
     write_lines hook_path (hook_text app) ;;
     os_chmod_exec hook_path
   else mret tt) ;;
  call subprocess
    ("git-shell -c " ++ dquote ++ String.concat " " (tail argv) ++ dquote)
    GIT_ROOT.

End Hooks.

(** ** What a command may touch *)

(** A command that changes no path outside [P], whatever it returns. *)
Definition touches_only {A} (P : path → Prop) (m : M A) : Prop :=
  ∀ w q, ¬ P q → files (m w).2 !! q = files w !! q.

(** The directories of the group callback, and what it does for one. *)
Definition piku_dirs : list path :=
  [APP_ROOT; GIT_ROOT; ENV_ROOT; UWSGI_ROOT; UWSGI_AVAILABLE; UWSGI_ENABLED;
   LOG_ROOT].

Definition ensured (f : fs) (p : path) : fs :=
  if path_exists f p then f else mkdir_all (norm p) f.

Definition ensured_trace (f : fs) (p : path) : list event :=
  if path_exists f p then [] else [Makedirs p].

(** What [git-hook] prints for the lines of pushes to other branches. *)
Definition branch_events (app : string) (lines : list string) : list event :=
  omap (λ line, match ref_update line with
                | Some (_, newrev, refname) =>
                    Some (receive_branch app newrev refname)
                | None => None
                end) lines.

(** A line of standard input for a branch other than master. *)
Definition other_branch (line : string) : Prop :=
  ∃ oldrev newrev refname,
    ref_update line = Some (oldrev, newrev, refname)
    ∧ refname ≠ "refs/heads/master".

(** Further sample states. *)
Module Sample2.

(** A checkout with a manifest and no [requirements.txt]. *)
Definition no_runtime : world :=
  Sample.manifest ["web: gunicorn app:app
"; "junk
"].

(** Only [PIKU_ROOT] is there. *)
Definition bare : world := World (list_to_map [([], Dir)]) [] 0.

(** A repository of [foo] with its hook in place. *)
Definition hooked : world :=
  Sample.world_of [(["repos"; "foo"], Dir); (["repos"; "foo"; "hooks"], Dir);
                   (["repos"; "foo"; "hooks"; "post-receive"], File ["hook"])].

(** A repository of [foo] whose hook was removed. *)
Definition unhooked : world :=
  Sample.world_of [(["repos"; "foo"], Dir); (["repos"; "foo"; "hooks"], Dir)].

End Sample2.

(** * Properties *)

(** Membership in one of the fixed lists. *)
Ltac in_list := unfold worker_kinds, app_dirs, unit_dirs; repeat constructor.

Lemma bind_ok {A B} (m : M A) (k : A → M B) w a w' :
  m w = (Ok a, w') → (m ≫= k) w = k a w'.
Proof. intros H. unfold mbind, M_bind. by rewrite H. Qed.

Lemma bind_raise {A B} (m : M A) (k : A → M B) w e w' :
  m w = (Raise e, w') → (m ≫= k) w = (Raise e, w').
Proof. intros H. unfold mbind, M_bind. by rewrite H. Qed.

Lemma after_nil w : after w (files w) [] = w.
Proof. destruct w. unfold after. simpl. by rewrite app_nil_r. Qed.

Lemma after_after w f evs g evs' :
  after (after w f evs) g evs' = after w g (evs ++ evs').
Proof. unfold after. simpl. by rewrite app_assoc. Qed.

Lemma files_after w f evs : files (after w f evs) = f.
Proof. reflexivity. Qed.

Lemma emit_run e w : emit e w = (Ok tt, after w (files w) [e]).
Proof. reflexivity. Qed.

Lemma echo_run msg fg w : echo msg fg w = (Ok tt, after w (files w) [Echo msg fg]).
Proof. reflexivity. Qed.

(** *** The manifest parser *)

Lemma scan_procfile_run lines : ∀ workers w,
  ∃ m, scan_procfile lines workers w
         = (Ok m, after w (files w) (procfile_warnings lines))
     ∧ ∀ kind, m !! kind =
         if bool_decide (kind ∈ worker_kinds)
         then match last_command kind lines with
              | Some c => Some c
              | None => workers !! kind
              end
         else workers !! kind.
Proof.
  induction lines as [|line rest IH]; intros workers w.
  - exists workers. split.
    + by rewrite after_nil.
    + intros kind. by case_bool_decide.
  - simpl. unfold procfile_warnings. simpl.
    destruct (split_pair ":" line) as [[k c]|] eqn:E.
    + case_bool_decide as Hk.
      * destruct (IH (<[k:=c]> workers) w) as (m & Hrun & Hm).
        exists m. split; [done|]. intros kind. rewrite Hm.
        case_bool_decide; [|destruct (decide (k = kind)); [by subst|by rewrite lookup_insert_ne]].
        destruct (last_command kind rest); [done|].
        destruct (decide (k = kind)); [subst; by rewrite lookup_insert_eq|by rewrite lookup_insert_ne].
      * destruct (IH workers w) as (m & Hrun & Hm).
        exists m. split; [done|]. intros kind. rewrite Hm.
        case_bool_decide; [|done].
        destruct (last_command kind rest); [done|].
        destruct (decide (k = kind)); [by subst|done].
    + destruct (IH workers (after w (files w) [Echo ("Warning: unrecognized Procfile declaration '" ++ line ++ "'") "yellow"])) as (m & Hrun & Hm).
      exists m. split.
      * erewrite bind_ok; [|apply emit_run]. rewrite Hrun. by rewrite after_after.
      * intros kind. rewrite Hm. case_bool_decide; [|done].
        by destruct (last_command kind rest).
Qed.

Lemma exists_run p w : exists_ p w = (Ok (path_exists (files w) p), w).
Proof. reflexivity. Qed.

Lemma read_lines_run p w ls :
  files w !! norm p = Some (File ls) → read_lines p w = (Ok ls, w).
Proof.
  intros H. unfold read_lines, mbind, M_bind, get_files. simpl. by rewrite H.
Qed.

Lemma path_exists_file f p ls :
  f !! norm p = Some (File ls) → path_exists f p = true.
Proof. intros H. unfold path_exists. apply bool_decide_eq_true. by rewrite H. Qed.

Lemma path_exists_none f p : f !! norm p = None → path_exists f p = false.
Proof.
  intros H. unfold path_exists. apply bool_decide_eq_false. rewrite H.
  by intros [? ?].
Qed.

Lemma parse_procfile_missing filename w :
  path_exists (files w) filename = false →
  parse_procfile filename w = (Ok None, w).
Proof.
  intros H. unfold parse_procfile.
  erewrite bind_ok; [|apply exists_run]. by rewrite H.
Qed.

Lemma parse_procfile_run filename w lines :
  files w !! norm filename = Some (File lines) →
  ∃ r, parse_procfile filename w
         = (Ok r, after w (files w) (procfile_warnings lines))
     ∧ (r = None ↔ ∀ kind, resolved lines kind = None)
     ∧ (r = None ↔ ∀ kind, kind ∈ worker_kinds → last_command kind lines = None)
     ∧ ∀ m, r = Some m → ∀ kind, m !! kind = resolved lines kind.
Proof.
  intros Hf. unfold parse_procfile.
  erewrite bind_ok; [|apply exists_run].
  rewrite (path_exists_file _ _ _ Hf). simpl.
  erewrite bind_ok; [|by apply read_lines_run].
  destruct (scan_procfile_run lines ∅ w) as (m & Hrun & Hm).
  erewrite bind_ok; [|exact Hrun].
  assert (Hm' : ∀ kind, m !! kind =
            if bool_decide (kind ∈ worker_kinds) then last_command kind lines else None).
  { intros kind. rewrite Hm, lookup_empty. case_bool_decide; [|done].
    by destruct (last_command kind lines). }
  clear Hm.
  assert (Hempty : m = ∅ ↔ ∀ kind, kind ∈ worker_kinds → last_command kind lines = None).
  { split.
    - intros -> kind Hk. specialize (Hm' kind).
      rewrite lookup_empty, bool_decide_eq_true_2 in Hm'; done.
    - intros H. apply map_eq. intros kind. rewrite Hm', lookup_empty.
      case_bool_decide; [by apply H|done]. }
  assert (Hres : (∀ kind, resolved lines kind = None)
                 ↔ ∀ kind, kind ∈ worker_kinds → last_command kind lines = None).
  { split.
    - intros H kind Hk. specialize (H kind) as H1. unfold resolved in H1.
      rewrite bool_decide_eq_true_2 in H1 by done.
      case_bool_decide as Hw; [|done].
      destruct Hw as [-> [c Hc]].
      specialize (H "wsgi"). unfold resolved in H.
      rewrite bool_decide_eq_true_2 in H by in_list.
      rewrite bool_decide_eq_false_2 in H by (by intros [? _]). congruence.
    - intros H kind. unfold resolved. case_bool_decide; [|done].
      case_bool_decide; [done|by apply H]. }
  case_bool_decide as Hsz.
  - apply map_size_empty_iff in Hsz.
    eexists. split; [reflexivity|]. rewrite Hres. by rewrite <- Hempty.
  - assert (m ≠ ∅) by (by intros ->).
    assert (Hwsgi : is_Some (m !! "wsgi") ↔ is_Some (last_command "wsgi" lines)).
    { rewrite Hm'. by rewrite bool_decide_eq_true_2 by in_list. }
    case_bool_decide as H1; [case_bool_decide as H2|].
    + eexists. split; [reflexivity|]. rewrite Hres, <- Hempty.
      split; [split; [done|by intros ?]|]. split; [split; [done|by intros ?]|].
      intros ? [= <-] kind. unfold resolved.
      destruct (decide (kind = "web")) as [->|Hne].
      * rewrite lookup_delete_eq.
        rewrite bool_decide_eq_true_2 by in_list.
        rewrite bool_decide_eq_true_2; [done|]. split; [done|by apply Hwsgi].
      * rewrite lookup_delete_ne by done. rewrite Hm'.
        case_bool_decide; [|done].
        rewrite bool_decide_eq_false_2; [done|]. by intros [? _].
    + eexists. split; [reflexivity|]. rewrite Hres, <- Hempty.
      split; [split; [done|by intros ?]|]. split; [split; [done|by intros ?]|].
      intros ? [= <-] kind. unfold resolved. rewrite Hm'.
      case_bool_decide; [|done].
      case_bool_decide as Hw; [|done]. destruct Hw as [-> _].
      destruct (m !! "web") eqn:E; [by destruct H2|].
      rewrite Hm' in E. by rewrite bool_decide_eq_true_2 in E.
    + eexists. split; [reflexivity|]. rewrite Hres, <- Hempty.
      split; [split; [done|by intros ?]|]. split; [split; [done|by intros ?]|].
      intros ? [= <-] kind. unfold resolved. rewrite Hm'.
      case_bool_decide; [|done].
      rewrite bool_decide_eq_false_2; [done|]. intros [_ ?]. by apply H1, Hwsgi.
Qed.

Lemma last_command_declared kind lines :
  is_Some (last_command kind lines)
  ↔ ∃ line, line ∈ lines ∧ declares kind line.
Proof.
  induction lines as [|line rest IH]; cbn [last_command].
  - split; [by intros [? ?]|]. intros (l & Hl & _). by apply elem_of_nil in Hl.
  - destruct (last_command kind rest) as [c|] eqn:E.
    + split; [|by eauto]. intros _.
      destruct (proj1 IH ltac:(by eauto)) as (l & Hl & Hd).
      exists l. split; [by right|done].
    + destruct (split_pair ":" line) as [[k c]|] eqn:Es.
      * destruct (decide (k = kind)) as [->|Hne].
        -- split; [|by eauto]. intros _. exists line.
           split; [by left|by exists c].
        -- split; [by intros [? ?]|]. intros (l & Hl & c' & Hd).
           apply elem_of_cons in Hl as [->|Hl]; [congruence|].
           destruct (proj2 IH) as [? ?]; [by exists l; split; [|exists c']|done].
      * split; [by intros [? ?]|]. intros (l & Hl & c' & Hd).
        apply elem_of_cons in Hl as [->|Hl]; [congruence|].
        destruct (proj2 IH) as [? ?]; [by exists l; split; [|exists c']|done].
Qed.

(** The command of a kind is that of the last line declaring it. *)
Lemma last_command_later kind pre line post command :
  split_pair ":" line = Some (kind, command) →
  (∀ l, l ∈ post → ¬ declares kind l) →
  last_command kind (pre ++ line :: post) = Some command.
Proof.
  intros Hline Hpost.
  assert (Hnone : last_command kind post = None).
  { apply eq_None_not_Some. intros (l & Hl & Hd)%last_command_declared.
    by apply (Hpost l). }
  assert (Hhere : last_command kind (line :: post) = Some command).
  { cbn [last_command]. rewrite Hnone, Hline. by rewrite decide_True. }
  induction pre as [|x pre IH]; [done|].
  rewrite <- app_comm_cons. cbn [last_command]. by rewrite IH.
Qed.

(** C5: for a manifest that is there, [parse_procfile] returns a map as
    soon as one line declares [web], [worker] or [wsgi]; the map has one
    command for a kind, the command of the last line that declares the
    kind, and no key besides the three kinds; and when both [web] and
    [wsgi] are declared the map has [wsgi] and has no [web]. *)
Theorem parse_procfile_one_per_kind w filename lines
    (Hfile : files w !! norm filename = Some (File lines)) :
  ∃ r w', parse_procfile filename w = (Ok r, w') ∧
    (∀ kind, kind ∈ worker_kinds →
       (∃ line, line ∈ lines ∧ declares kind line) →
       ∃ m, r = Some m
          ∧ (∀ k, k ∈ worker_kinds →
                  k ≠ "web" ∨ last_command "wsgi" lines = None →
                  m !! k = last_command k lines)
          ∧ (∀ k, k ∉ worker_kinds → m !! k = None)
          ∧ (is_Some (last_command "wsgi" lines) →
             m !! "web" = None ∧ m !! "wsgi" = last_command "wsgi" lines)) ∧
    (∀ pre line post kind command,
       lines = (pre ++ line :: post)%list →
       kind ∈ worker_kinds →
       split_pair ":" line = Some (kind, command) →
       (∀ l, l ∈ post → ¬ declares kind l) →
       kind ≠ "web" ∨ (∀ l, l ∈ lines → ¬ declares "wsgi" l) →
       ∃ m, r = Some m ∧ m !! kind = Some command) ∧
    ((∃ line, line ∈ lines ∧ declares "web" line) →
     (∃ line, line ∈ lines ∧ declares "wsgi" line) →
     ∃ m, r = Some m ∧ m !! "wsgi" = last_command "wsgi" lines
          ∧ "wsgi" ∈ dom m ∧ "web" ∉ dom m).
Proof.
  destruct (parse_procfile_run filename w lines Hfile)
    as (r & Hrun & _ & Hnone & Hsome).
  exists r, (after w (files w) (procfile_warnings lines)).
  split; [done|].
  assert (Hmap : ∀ kind, kind ∈ worker_kinds →
            is_Some (last_command kind lines) →
            ∃ m, r = Some m ∧ ∀ k, m !! k = resolved lines k).
  { intros kind Hk [c Hc]. destruct r as [m|].
    - exists m. split; [done|]. by apply Hsome.
    - destruct Hnone as [Hnone _].
      rewrite (Hnone eq_refl kind Hk) in Hc. discriminate. }
  split; [|split].
  - intros kind Hk Hd%last_command_declared.
    destruct (Hmap kind Hk Hd) as (m & -> & Hm).
    exists m. split; [done|]. split; [|split].
    + intros k Hkk Hweb. rewrite Hm. unfold resolved.
      rewrite bool_decide_eq_true_2 by done.
      case_bool_decide as Hw; [|done].
      destruct Hw as [-> [c Hc]]. destruct Hweb; congruence.
    + intros k Hkk. rewrite Hm. unfold resolved.
      by rewrite bool_decide_eq_false_2.
    + intros Hwsgi. split.
      * rewrite Hm. unfold resolved.
        rewrite bool_decide_eq_true_2 by in_list.
        by rewrite bool_decide_eq_true_2.
      * rewrite Hm. unfold resolved.
        rewrite bool_decide_eq_true_2 by in_list.
        by rewrite bool_decide_eq_false_2 by (by intros [? _]).
  - intros pre line post kind command -> Hk Hline Hpost Hweb.
    pose proof (last_command_later kind pre line post command Hline Hpost)
      as Hlast.
    destruct (Hmap kind Hk ltac:(by eauto)) as (m & -> & Hm).
    exists m. split; [done|]. rewrite Hm. unfold resolved.
    rewrite bool_decide_eq_true_2 by done.
    rewrite bool_decide_eq_false_2; [done|].
    intros [-> Hw%last_command_declared].
    destruct Hweb as [?|Hweb]; [done|].
    destruct Hw as (l & Hl & Hd). by apply (Hweb l).
  - intros Hweb%last_command_declared Hwsgi%last_command_declared.
    destruct (Hmap "wsgi" ltac:(in_list) Hwsgi) as (m & -> & Hm).
    destruct Hwsgi as [c Hc].
    assert (Hw : m !! "wsgi" = Some c).
    { rewrite Hm. unfold resolved.
      rewrite bool_decide_eq_true_2 by in_list.
      by rewrite bool_decide_eq_false_2 by (by intros [? _]). }
    exists m. split; [done|]. split; [congruence|]. split.
    + apply elem_of_dom. by rewrite Hw.
    + apply not_elem_of_dom. rewrite Hm. unfold resolved.
      rewrite bool_decide_eq_true_2 by in_list.
      by rewrite bool_decide_eq_true_2 by (by rewrite Hc).
Qed.

Lemma parse_procfile_one_per_kind_witness :
  ∃ m w', parse_procfile (join APP_ROOT ["foo"; "Procfile"])
            (Sample.manifest Sample.web_and_wsgi) = (Ok (Some m), w')
          ∧ m !! "wsgi" = Some "app:app" ∧ "web" ∉ dom m.
Proof.
  destruct (parse_procfile_one_per_kind (Sample.manifest Sample.web_and_wsgi)
              (join APP_ROOT ["foo"; "Procfile"]) Sample.web_and_wsgi)
    as (r & w' & Hrun & _ & Hlater & Hboth).
  { vm_compute. reflexivity. }
  destruct Hboth as (m & -> & _ & _ & Hweb).
  { eexists. split; [by left|]. eexists. vm_compute. reflexivity. }
  { eexists. split; [right; by left|]. eexists. vm_compute. reflexivity. }
  destruct (Hlater ["web: gunicorn app:app
"; "wsgi: old:app
"] "wsgi: app:app
" [] "wsgi" "app:app") as (m' & [= <-] & Hlast).
  { reflexivity. }
  { in_list. }
  { vm_compute. reflexivity. }
  { intros l Hl. inversion Hl. }
  { left. discriminate. }
  exists m, w'. split; [exact Hrun|]. split; [exact Hlast|exact Hweb].
Defined.

Lemma procfile_warnings_spec lines :
  procfile_warnings lines
  = procfile_warning
      <$> filter (λ line, split_pair ":" line = None) lines.
Proof.
  unfold procfile_warnings. induction lines as [|line rest IH]; [done|].
  rewrite filter_cons. cbn [omap list_omap].
  destruct (split_pair ":" line) as [[k c]|] eqn:E.
  - by rewrite decide_False by done.
  - rewrite decide_True by done. rewrite fmap_cons. by f_equal.
Qed.

Lemma last_command_recognised kind lines :
  kind ∈ worker_kinds →
  last_command kind (filter (λ l, recognised l = true) lines)
  = last_command kind lines.
Proof.
  intros Hk. induction lines as [|line rest IH]; [done|].
  rewrite filter_cons.
  destruct (decide (recognised line = true)) as [Hd|Hd].
  - simpl. by rewrite IH.
  - rewrite IH. simpl. destruct (last_command kind rest); [done|].
    unfold recognised in Hd.
    destruct (split_pair ":" line) as [[k c]|]; [|done].
    destruct (decide (k = kind)) as [->|]; [|done].
    by rewrite bool_decide_eq_true_2 in Hd.
Qed.

Lemma procfile_warnings_recognised lines :
  procfile_warnings (filter (λ l, recognised l = true) lines) = [].
Proof.
  unfold procfile_warnings. induction lines as [|line rest IH]; [done|].
  rewrite filter_cons.
  destruct (decide (recognised line = true)) as [Hd|Hd]; [|done].
  cbn [omap list_omap]. unfold recognised in Hd.
  by destruct (split_pair ":" line) as [[k c]|].
Qed.

Lemma resolved_recognised lines kind :
  resolved (filter (λ l, recognised l = true) lines) kind = resolved lines kind.
Proof.
  unfold resolved. case_bool_decide as Hk; [|done].
  rewrite !last_command_recognised by (done || in_list).
  done.
Qed.

Lemma no_recognised_iff lines :
  (∀ kind, kind ∈ worker_kinds → last_command kind lines = None)
  ↔ ∀ line, line ∈ lines → recognised line = false.
Proof.
  split.
  - intros H line Hin. unfold recognised.
    destruct (split_pair ":" line) as [[k c]|] eqn:E; [|done].
    apply bool_decide_eq_false. intros Hk. specialize (H k Hk).
    induction lines as [|l rest IH]; [by apply elem_of_nil in Hin|].
    simpl in H. destruct (last_command k rest) eqn:E2; [done|].
    apply elem_of_cons in Hin as [->|Hin]; [|by apply IH].
    rewrite E in H. by rewrite decide_True in H.
  - intros H kind Hk. induction lines as [|l rest IH]; [done|].
    simpl. rewrite IH by (intros; apply H; by right).
    specialize (H l ltac:(by left)). unfold recognised in H.
    destruct (split_pair ":" l) as [[k c]|]; [|done].
    destruct (decide (k = kind)) as [->|]; [|done].
    by rewrite bool_decide_eq_true_2 in H.
Qed.

(** C6, as the code has it: a missing manifest gives no result; in a
    manifest that is there a line without colon is answered with a warning
    and a line with a colon and another kind with nothing, the result is
    the one of the manifest without such lines, and it is no result exactly
    when no line sets a worker. *)
Theorem parse_procfile_bad_lines w filename content
    (Hfile : files w !! norm filename = File <$> content) :
  match content with
  | None => parse_procfile filename w = (Ok None, w)
  | Some lines =>
      ∃ r, parse_procfile filename w
             = (Ok r,
                after w (files w)
                  (procfile_warning
                     <$> filter (λ line, split_pair ":" line = None) lines))
         ∧ (∀ w2, files w2 !! norm filename
                    = Some (File (filter (λ l, recognised l = true) lines)) →
                  parse_procfile filename w2 = (Ok r, w2))
         ∧ (r = None ↔ ∀ line, line ∈ lines → recognised line = false)
  end.
Proof.
  destruct content as [lines|]; simpl in Hfile.
  - destruct (parse_procfile_run filename w lines Hfile)
      as (r & Hrun & Hres & Hnone & Hsome).
    exists r. rewrite <- procfile_warnings_spec. split; [done|]. split.
    + intros w2 H2.
      destruct (parse_procfile_run filename w2 _ H2)
        as (r2 & Hrun2 & Hres2 & _ & Hsome2).
      rewrite Hrun2, procfile_warnings_recognised, after_nil.
      f_equal. f_equal. destruct r as [m|], r2 as [m2|].
      * f_equal. apply map_eq. intros kind.
        rewrite (Hsome2 m2 eq_refl), (Hsome m eq_refl).
        apply resolved_recognised.
      * destruct Hres2 as [Hres2 _]. destruct Hres as [_ Hres].
        discriminate Hres. intros kind. rewrite <- resolved_recognised.
        by apply Hres2.
      * destruct Hres2 as [_ Hres2]. destruct Hres as [Hres _].
        discriminate Hres2. intros kind. rewrite resolved_recognised.
        by apply Hres.
      * done.
    + rewrite Hnone. apply no_recognised_iff.
  - apply parse_procfile_missing. by apply path_exists_none.
Qed.

Lemma parse_procfile_bad_lines_witness :
  let w := Sample.manifest ["web: a
"; "garbage
"; "cron: x
"] in
  ∃ r, parse_procfile (join APP_ROOT ["foo"; "Procfile"]) w
       = (Ok r, after w (files w) [procfile_warning "garbage
"]).
Proof.
  intros w.
  destruct (parse_procfile_bad_lines w (join APP_ROOT ["foo"; "Procfile"])
              (Some ["web: a
"; "garbage
"; "cron: x
"])) as (r & Hrun & _).
  { vm_compute. reflexivity. }
  exists r. exact Hrun.
Defined.

(** C6, as it is worded, fails: a line with a colon and a kind outside
    the list is dropped without any warning. *)
Lemma parse_procfile_unknown_kind_silent :
  let w := Sample.manifest ["cron: x
"] in
  split_pair ":" "cron: x
" = Some ("cron", "x")
  ∧ ("cron" ∉ worker_kinds)
  ∧ ∃ w', parse_procfile (join APP_ROOT ["foo"; "Procfile"]) w = (Ok None, w')
          ∧ trace w' = [].
Proof.
  split; [reflexivity|]. split.
  - unfold worker_kinds. rewrite !not_elem_of_cons.
    repeat split; [discriminate..|apply not_elem_of_nil].
  - eexists. split; [vm_compute; reflexivity|reflexivity].
Qed.

(** *** Environment layers *)

Lemma scan_settings_run lines : ∀ env w,
  ∃ m, scan_settings lines env w
         = (Ok m, after w (files w) (settings_warnings lines))
     ∧ ∀ k, m !! k = match last_value k lines with
                     | Some v => Some v
                     | None => env !! k
                     end.
Proof.
  induction lines as [|line rest IH]; intros env w.
  - exists env. split; [by rewrite after_nil|done].
  - simpl. unfold settings_warnings. cbn [omap list_omap].
    destruct (split_pair "=" line) as [[k v]|] eqn:E.
    + destruct (IH (<[k:=v]> env) w) as (m & Hrun & Hm).
      exists m. split; [done|]. intros key. rewrite Hm.
      destruct (last_value key rest); [done|].
      destruct (decide (k = key)) as [->|];
        [by rewrite lookup_insert_eq|by rewrite lookup_insert_ne].
    + destruct (IH env (after w (files w)
                  [Echo ("Warning: malformed setting '" ++ line ++ "'") "yellow"]))
        as (m & Hrun & Hm).
      exists m. split.
      * erewrite bind_ok; [|apply emit_run]. rewrite Hrun. by rewrite after_after.
      * intros key. rewrite Hm. by destruct (last_value key rest).
Qed.

Lemma parse_settings_run file w lines :
  files w !! norm file = Some (File lines) →
  ∃ m, parse_settings file w
         = (Ok (Some m), after w (files w) (settings_warnings lines))
     ∧ ∀ k, m !! k = last_value k lines.
Proof.
  intros Hf. unfold parse_settings.
  erewrite bind_ok; [|apply exists_run].
  rewrite (path_exists_file _ _ _ Hf). simpl.
  erewrite bind_ok; [|by apply read_lines_run].
  destruct (scan_settings_run lines ∅ w) as (m & Hrun & Hm).
  erewrite bind_ok; [|exact Hrun].
  exists m. split; [done|]. intros k. rewrite Hm, lookup_empty.
  by destruct (last_value k lines).
Qed.

Lemma update_from_run file env w content :
  files w !! norm file = File <$> content →
  ∃ env', update_from file env w
            = (Ok env', after w (files w) (settings_trace content))
        ∧ ∀ k, env' !! k = match setting content k with
                           | Some v => Some v
                           | None => env !! k
                           end.
Proof.
  intros Hf. unfold update_from.
  erewrite bind_ok; [|apply exists_run].
  destruct content as [lines|]; simpl in Hf.
  - rewrite (path_exists_file _ _ _ Hf).
    destruct (parse_settings_run file w lines Hf) as (m & Hrun & Hm).
    erewrite bind_ok; [|exact Hrun].
    simpl. eexists. split; [reflexivity|].
    intros k. rewrite lookup_union, Hm.
    destruct (last_value k lines); by destruct (env !! k).
  - rewrite (path_exists_none _ _ Hf). exists env.
    split; [by rewrite after_nil|done].
Qed.

Lemma read_lines_dir p w :
  files w !! norm p = Some Dir → read_lines p w = (Raise IOError, w).
Proof.
  intros H. unfold read_lines, mbind, M_bind, get_files. simpl. by rewrite H.
Qed.

Lemma path_exists_some f p x : f !! norm p = Some x → path_exists f p = true.
Proof. intros H. unfold path_exists. apply bool_decide_eq_true. by rewrite H. Qed.

Lemma parse_procfile_some filename w lines :
  files w !! norm filename = Some (File lines) →
  (∃ kind, kind ∈ worker_kinds ∧ is_Some (last_command kind lines)) →
  ∃ m, parse_procfile filename w
       = (Ok (Some m), after w (files w) (procfile_warnings lines))
     ∧ size m ≠ 0.
Proof.
  intros Hf (kind & Hk & [c Hc]).
  destruct (parse_procfile_run filename w lines Hf)
    as (r & Hrun & Hres & Hnone & Hsome).
  destruct r as [m|].
  - exists m. split; [done|]. intros ->%map_size_empty_iff.
    destruct Hres as [_ Hres]. discriminate Hres. intros k.
    by rewrite <- (Hsome ∅ eq_refl k), lookup_empty.
  - destruct Hnone as [Hnone _]. rewrite (Hnone eq_refl kind Hk) in Hc.
    discriminate.
Qed.

Section DeployProps.

Variable subprocess : string → path → fs → fs.
Variable environ_PATH : string.
Variable ephemeral : nat → nat.
Variable create_worker :
  string → string → string → gmap string string → nat → M unit.

(** *** Deploys that stop early *)

Lemma call_run cmd cwd w :
  is_dir (files w) cwd = true →
  call subprocess cmd cwd w
  = (Ok tt, after w (subprocess cmd cwd (files w)) [Call cmd cwd]).
Proof.
  intros H. unfold call, mbind, M_bind, get_files. simpl. by rewrite H.
Qed.

Lemma is_dir_exists f p : is_dir f p = true → path_exists f p = true.
Proof.
  unfold is_dir, path_exists. intros H%bool_decide_eq_true.
  apply bool_decide_eq_true. by rewrite H.
Qed.

(** C8: without a checkout [deploy] prints that the application was not
    found and does nothing else; with a checkout whose manifest, once git
    has refreshed it, is missing or sets no worker, it prints that the
    Procfile was not found after the two git commands and the parser's
    warnings, and nothing is built or generated: when git keeps to the
    checkout, every available and enabled unit is as before. *)
Theorem deploy_app_stops_early app w :
  let name := sanitize_app_name app in
  let app_path := join APP_ROOT [name] in
  (path_exists (files w) app_path = false →
   deploy_app subprocess environ_PATH ephemeral create_worker app w
   = (Ok tt, after w (files w)
               [Echo ("Error: app '" ++ name ++ "' not found.") "red"]))
  ∧ (∀ content,
       let f1 := subprocess "git pull --quiet" app_path (files w) in
       let f2 := subprocess "git checkout -f" app_path f1 in
       is_dir (files w) app_path = true →
       is_dir f1 app_path = true →
       f2 !! norm (join app_path ["Procfile"]) = File <$> content →
       (∀ lines, content = Some lines →
                 ∀ line, line ∈ lines → recognised line = false) →
       deploy_app subprocess environ_PATH ephemeral create_worker app w
       = (Ok tt,
          after w f2
            ([Echo ("-----> Deploying app '" ++ name ++ "'") "green";
              Call "git pull --quiet" app_path;
              Call "git checkout -f" app_path]
             ++ manifest_trace content
             ++ [Echo ("Error: Procfile not found for app '" ++ name ++ "'.")
                      "red"]))
       ∧ ((∀ cmd f q,
             UWSGI_AVAILABLE `prefix_of` q ∨ UWSGI_ENABLED `prefix_of` q →
             subprocess cmd app_path f !! q = f !! q) →
          ∀ q, UWSGI_AVAILABLE `prefix_of` q ∨ UWSGI_ENABLED `prefix_of` q →
               f2 !! q = files w !! q)).
Proof.
  intros name app_path. split.
  - intros Hno. unfold deploy_app, do_deploy. fold name. fold app_path.
    erewrite bind_ok; [|apply exists_run]. by rewrite Hno.
  - intros content f1 f2 Hd Hd1 Hfile Hnone. split.
    + unfold deploy_app, do_deploy. fold name. fold app_path.
      erewrite bind_ok; [|apply exists_run].
      rewrite (is_dir_exists _ _ Hd).
      erewrite bind_ok; [|apply emit_run].
      erewrite bind_ok; [|by apply call_run].
      erewrite bind_ok; [|by apply call_run].
      simpl files. fold f1. fold f2. rewrite !after_after.
      set (w2 := after w f2 _).
      assert (Hp : parse_procfile (join app_path ["Procfile"]) w2
                   = (Ok None, after w2 f2 (manifest_trace content))).
      { destruct content as [lines|]; simpl in Hfile.
        - destruct (parse_procfile_run (join app_path ["Procfile"]) w2 lines
                      Hfile) as (r & Hrun & _ & Hr & _).
          rewrite Hrun. destruct Hr as [_ Hr]. rewrite Hr; [done|].
          apply no_recognised_iff. by apply Hnone.
        - rewrite parse_procfile_missing by (by apply path_exists_none).
          simpl. f_equal. unfold w2, after. simpl. by rewrite app_nil_r. }
      erewrite bind_ok; [|exact Hp].
      unfold w2. rewrite echo_run, !after_after. reflexivity.
    + intros Hgit q Hq. unfold f2, f1. by rewrite !Hgit.
Qed.

(** C7: the environment of [create_workers] is never built.  Its
    literal reads the name [env_path], which nothing binds, so
    [create_workers] fails with [NameError] on every input, before a socket
    is bound or a settings file is read; [deploy_python], its one caller,
    fails the same way at its first line.  A deploy that finds a worker in
    the manifest and a [requirements.txt] therefore ends in [NameError]
    right after it has announced the Python application: no port is
    allocated and no layer is merged. *)
Theorem create_workers_name_error app workers w :
  resolve_env environ_PATH ephemeral app w = (Raise NameError, w)
  ∧ create_workers environ_PATH ephemeral create_worker app workers w
    = (Raise NameError, w)
  ∧ deploy_python subprocess environ_PATH ephemeral create_worker app workers w
    = (Raise NameError, w)
  ∧ ∀ lines,
      let name := sanitize_app_name app in
      let app_path := join APP_ROOT [name] in
      let f1 := subprocess "git pull --quiet" app_path (files w) in
      let f2 := subprocess "git checkout -f" app_path f1 in
      is_dir (files w) app_path = true →
      is_dir f1 app_path = true →
      f2 !! norm (join app_path ["Procfile"]) = Some (File lines) →
      (∃ kind, kind ∈ worker_kinds ∧ is_Some (last_command kind lines)) →
      path_exists f2 (join app_path ["requirements.txt"]) = true →
      deploy_app subprocess environ_PATH ephemeral create_worker app w
      = (Raise NameError,
         after w f2
           ([Echo ("-----> Deploying app '" ++ name ++ "'") "green";
             Call "git pull --quiet" app_path;
             Call "git checkout -f" app_path]
            ++ procfile_warnings lines
            ++ [Echo "-----> Python app detected." "green"])).
Proof.
  split; [reflexivity|]. split; [reflexivity|]. split; [reflexivity|].
  intros lines name app_path f1 f2 Hd Hd1 Hfile Hdecl Hreq.
  unfold deploy_app, do_deploy. fold name. fold app_path.
  erewrite bind_ok; [|apply exists_run].
  rewrite (is_dir_exists _ _ Hd).
  erewrite bind_ok; [|apply emit_run].
  erewrite bind_ok; [|by apply call_run].
  erewrite bind_ok; [|by apply call_run].
  simpl files. fold f1. fold f2. rewrite !after_after.
  set (w2 := after w f2 _).
  destruct (parse_procfile_some (join app_path ["Procfile"]) w2 lines Hfile Hdecl)
    as (m & Hrun & Hsize).
  erewrite bind_ok; [|exact Hrun]. cbv iota beta.
  rewrite bool_decide_eq_false_2 by done.
  erewrite bind_ok; [|apply exists_run].
  rewrite files_after. change (files w2) with f2. rewrite Hreq.
  erewrite bind_ok; [|apply echo_run].
  unfold w2. rewrite !after_after. reflexivity.
Qed.

End DeployProps.

Lemma create_workers_name_error_witness :
  deploy_app (λ _ _ f, f) "/usr/bin" (λ n, 4000 + n) single_worker "foo"
    Sample.first_deploy
  = (Raise NameError,
     after Sample.first_deploy (files Sample.first_deploy)
       [Echo "-----> Deploying app 'foo'" "green";
        Call "git pull --quiet" ["apps"; "foo"];
        Call "git checkout -f" ["apps"; "foo"];
        Echo "-----> Python app detected." "green"]).
Proof.
  refine (proj2 (proj2 (proj2
            (create_workers_name_error (λ _ _ f, f) "/usr/bin" (λ n, 4000 + n)
               single_worker "foo" ∅ Sample.first_deploy)))
            ["web: gunicorn app:app
"] _ _ _ _ _).
  - vm_compute. reflexivity.
  - vm_compute. reflexivity.
  - vm_compute. reflexivity.
  - exists "web". split; [in_list|]. vm_compute. eauto.
  - vm_compute. reflexivity.
Defined.

(** The second layer could not be read either: the override file is
    looked for at [join(ENV_ROOT, app)], the path of the virtualenv
    directory, and [open] on a directory fails. *)
Lemma update_from_directory file env w :
  files w !! norm file = Some Dir →
  update_from file env w = (Raise IOError, w).
Proof.
  intros Hd. unfold update_from.
  erewrite bind_ok; [|apply exists_run].
  rewrite (path_exists_some _ _ _ Hd).
  apply bind_raise. unfold parse_settings.
  erewrite bind_ok; [|apply exists_run].
  rewrite (path_exists_some _ _ _ Hd). cbv iota beta.
  apply bind_raise. by apply read_lines_dir.
Qed.

(** *** Listings and patterns *)

Lemma child_name_Some q k n : child_name q k = Some n ↔ k = join q [n].
Proof.
  revert k. induction q as [|a q IH]; intros k; simpl.
  - destruct k as [|b [|c k]]; split; intros H; simplify_eq; done.
  - destruct k as [|b k]; [split; intros H; simplify_eq|].
    case_decide as E.
    + subst. rewrite IH. split; intros H; by simplify_eq.
    + split; intros H; simplify_eq.
Qed.

Lemma elem_of_listdir f d n :
  n ∈ listdir f d ↔ is_Some (f !! join (norm d) [n]).
Proof.
  unfold listdir. rewrite list_elem_of_omap. split.
  - intros ([k x] & Hin & Hc). simpl in Hc.
    apply child_name_Some in Hc as ->.
    apply elem_of_map_to_list in Hin. by rewrite Hin.
  - intros [x Hx]. exists (join (norm d) [n], x). split.
    + by apply elem_of_map_to_list.
    + by apply child_name_Some.
Qed.

Lemma NoDup_omap_inj {A B} (g : A → option B) (l : list A) :
  NoDup l →
  (∀ x y z, x ∈ l → y ∈ l → g x = Some z → g y = Some z → x = y) →
  NoDup (omap g l).
Proof.
  induction 1 as [|x l Hx Hl IH]; intros Hinj; simpl; [constructor|].
  destruct (g x) as [z|] eqn:E.
  - constructor.
    + rewrite list_elem_of_omap. intros (y & Hy & Hgy).
      assert (x = y) as <-; [|done].
      apply (Hinj x y z); [by left|by right|done|done].
    + apply IH. intros a b c Ha Hb. apply Hinj; by right.
  - apply IH. intros a b c Ha Hb. apply Hinj; by right.
Qed.

Lemma NoDup_listdir f d : NoDup (listdir f d).
Proof.
  unfold listdir. apply NoDup_omap_inj; [apply NoDup_map_to_list|].
  intros [k1 x1] [k2 x2] n H1 H2 E1 E2. simpl in *.
  apply child_name_Some in E1, E2. subst.
  apply elem_of_map_to_list in H1, H2. congruence.
Qed.

Lemma elem_of_units f d app n :
  n ∈ units f d app ↔ n ∈ listdir f d ∧ selects app n = true.
Proof.
  unfold units, glob1_ini, selects.
  destruct (Py.startswith "." (app ++ "*.ini")); simpl.
  - rewrite list_elem_of_filter, andb_true_r.
    rewrite Is_true_true. tauto.
  - rewrite !list_elem_of_filter, !Is_true_true, andb_true_iff. tauto.
Qed.

Lemma NoDup_units f d app : NoDup (units f d app).
Proof.
  unfold units, glob1_ini.
  destruct (Py.startswith "." (app ++ "*.ini"));
    repeat apply NoDup_filter; apply NoDup_listdir.
Qed.

Lemma glob_run d app w :
  glob d app w = (Ok ((λ n, join d [n]) <$> units (files w) d app), w).
Proof. reflexivity. Qed.

(** String facts behind the patterns. *)

Lemma startswith_app p s : Py.startswith p (p ++ s) = true.
Proof. induction p as [|c p IH]; simpl; [done|]. by rewrite Ascii.eqb_refl. Qed.

Lemma startswith_inv p s : Py.startswith p s = true → ∃ r, s = p ++ r.
Proof.
  revert s. induction p as [|c p IH]; intros s H; simpl in *; [by exists s|].
  destruct s as [|c' s]; [done|].
  apply andb_true_iff in H as [E H]. apply Ascii.eqb_eq in E as ->.
  destruct (IH s H) as [r ->]. by exists r.
Qed.

Lemma string_app_cons x (a b : string) : String x a ++ b = String x (a ++ b).
Proof. reflexivity. Qed.

Lemma string_app_assoc (a b c : string) : (a ++ b) ++ c = a ++ (b ++ c).
Proof.
  induction a as [|x a IH]; [done|]. rewrite !string_app_cons. by f_equal.
Qed.

Lemma string_app_length (a b : string) :
  String.length (a ++ b) = String.length a + String.length b.
Proof.
  induction a as [|x a IH]; [done|]. rewrite string_app_cons. simpl.
  by f_equal.
Qed.

Lemma drop_app (a b : string) : Py.drop (String.length a) (a ++ b) = b.
Proof. induction a as [|x a IH]; simpl; [done|]. done. Qed.

Lemma endswith_cons q c s :
  Py.endswith q s = true → Py.endswith q (String c s) = true.
Proof.
  unfold Py.endswith. intros H. apply andb_true_iff in H as [H1 H2].
  apply Nat.leb_le in H2. apply andb_true_iff. split.
  - simpl String.length.
    replace (S (String.length s) - String.length q)
      with (S (String.length s - String.length q)) by lia.
    done.
  - apply Nat.leb_le. simpl. lia.
Qed.

Lemma endswith_app q a s :
  Py.endswith q s = true → Py.endswith q (a ++ s) = true.
Proof.
  intros H. induction a as [|c a IH]; [done|].
  rewrite string_app_cons. by apply endswith_cons.
Qed.

Lemma fnmatch_ini_prefix a b n :
  Py.startswith a b = true → fnmatch_ini b n = true → fnmatch_ini a n = true.
Proof.
  unfold fnmatch_ini. intros Hab H.
  apply andb_true_iff in H as [Hbn He].
  apply startswith_inv in Hab as [r ->].
  apply startswith_inv in Hbn as [t ->].
  rewrite drop_app in He. rewrite string_app_assoc.
  rewrite startswith_app, drop_app. simpl. by apply endswith_app.
Qed.

Lemma startswith_dot_cons c a s :
  Py.startswith "." (String c a ++ s) = Ascii.eqb "." c.
Proof. rewrite string_app_cons. simpl. apply andb_true_r. Qed.

Lemma hidden_cons c n : hidden (String c n) = Ascii.eqb "." c.
Proof. unfold hidden. simpl. apply andb_true_r. Qed.

Lemma selects_prefix a b n :
  Py.startswith a b = true →
  (a = "" → hidden b = false) →
  selects b n = true → selects a n = true.
Proof.
  unfold selects. intros Hab Hdot H.
  apply andb_true_iff in H as [Hm Hh].
  apply andb_true_iff. split; [by eapply fnmatch_ini_prefix|].
  destruct a as [|c a].
  - specialize (Hdot eq_refl).
    apply orb_true_iff in Hh as [Hh|Hh]; [|by apply orb_true_iff; right].
    destruct b as [|c b]; [done|].
    rewrite startswith_dot_cons in Hh. rewrite hidden_cons in Hdot. congruence.
  - rewrite startswith_dot_cons.
    unfold fnmatch_ini in Hm. apply andb_true_iff in Hm as [Hm _].
    destruct b as [|c' b]; [done|]. simpl in Hab.
    apply andb_true_iff in Hab as [E _]. apply Ascii.eqb_eq in E as ->.
    destruct n as [|c'' n]; [done|]. simpl in Hm.
    apply andb_true_iff in Hm as [E _]. apply Ascii.eqb_eq in E as ->.
    rewrite hidden_cons. by destruct (Ascii.eqb "." c'').
Qed.

Lemma units_prefix f d a b n :
  Py.startswith a b = true →
  (a = "" → hidden b = false) →
  n ∈ units f d b → n ∈ units f d a.
Proof.
  intros Hab Hdot. rewrite !elem_of_units.
  intros [? ?]. split; [done|]. by eapply selects_prefix.
Qed.

(** *** Paths *)

Lemma norm_app p q : norm (p ++ q) = foldl norm_step (norm p) q.
Proof. unfold norm. apply foldl_app. Qed.

Lemma norm_join_plain d n : plain n → norm (join d [n]) = join (norm d) [n].
Proof.
  intros (H1 & H2 & H3). unfold join. rewrite norm_app. simpl.
  unfold norm_step. rewrite decide_False by (intros [?|?]; done).
  by rewrite decide_False by done.
Qed.

Lemma norm_join_empty d : norm (join d [""]) = norm d.
Proof. unfold join. rewrite norm_app. reflexivity. Qed.

Lemma drop_length k s : (String.length (Py.drop k s) ≤ String.length s)%nat.
Proof.
  revert s. induction k as [|k IH]; intros s; simpl; [done|].
  destruct s as [|c s]; simpl; [done|]. specialize (IH s). lia.
Qed.

Lemma fnmatch_ini_length app n :
  fnmatch_ini app n = true → (4 ≤ String.length n)%nat.
Proof.
  unfold fnmatch_ini, Py.endswith. intros H.
  apply andb_true_iff in H as [_ H]. apply andb_true_iff in H as [_ H].
  apply Nat.leb_le in H. simpl in H.
  pose proof (drop_length (String.length app) n). lia.
Qed.

Lemma selects_plain app n : selects app n = true → plain n.
Proof.
  unfold selects. intros H. apply andb_true_iff in H as [H _].
  apply fnmatch_ini_length in H.
  repeat split; intros ->; simpl in H; lia.
Qed.

Lemma units_plain f d app n : n ∈ units f d app → plain n.
Proof. rewrite elem_of_units. intros [_ H]. by eapply selects_plain. Qed.

(** *** Loops that remove *)

Lemma os_remove_run p w ls :
  files w !! norm p = Some (File ls) →
  os_remove p w = (Ok tt, after w (delete (norm p) (files w)) [Removed p]).
Proof.
  intros H. unfold os_remove, mbind, M_bind, get_files. simpl.
  by rewrite H.
Qed.

Lemma is_file_Some f q : is_file f q = true ↔ ∃ ls, f !! q = Some (File ls).
Proof.
  unfold is_file. destruct (f !! q) as [[ls|]|]; split; try done.
  - by exists ls.
  - by intros [? ?].
  - by intros [? ?].
Qed.

Lemma remove_all_lookup l f q :
  remove_all l f !! q = if decide (q ∈ norm <$> l) then None else f !! q.
Proof.
  unfold remove_all. revert f. induction l as [|p l IH]; intros f.
  - destruct (decide (q ∈ norm <$> [])) as [H|H]; [|done].
    rewrite fmap_nil in H. by apply elem_of_nil in H.
  - cbn [foldl]. rewrite IH. rewrite fmap_cons.
    destruct (decide (q ∈ norm <$> l)) as [Hin|Hin].
    + rewrite decide_True; [done|]. by right.
    + destruct (decide (q = norm p)) as [->|Hne].
      * rewrite lookup_delete_eq. rewrite decide_True; [done|]. by left.
      * rewrite lookup_delete_ne by done. rewrite decide_False; [done|].
        intros [?|?]%elem_of_cons; done.
Qed.

Lemma for_each_remove (pre : path → list event) (body : path → M unit) l :
  (∀ p w, is_file (files w) (norm p) = true →
          body p w = (Ok tt, after w (delete (norm p) (files w))
                               (pre p ++ [Removed p]))) →
  ∀ w, NoDup (norm <$> l) →
       (∀ p, p ∈ l → is_file (files w) (norm p) = true) →
       for_each l body w
       = (Ok tt, after w (remove_all l (files w))
                   (l ≫= λ p, (pre p ++ [Removed p])%list)).
Proof.
  intros Hbody. induction l as [|p l IH]; intros w Hnd Hfiles.
  - simpl. by rewrite after_nil.
  - simpl. apply NoDup_cons in Hnd as [Hp Hnd].
    erewrite bind_ok; [|apply Hbody, Hfiles; by left].
    rewrite IH; [|done|].
    + rewrite after_after. done.
    + intros p' Hp'. simpl. apply is_file_Some.
      destruct (proj1 (is_file_Some _ _) (Hfiles p' ltac:(by right))) as [ls Hls].
      exists ls. rewrite lookup_delete_ne; [done|].
      intros E. apply Hp. rewrite E. by apply list_elem_of_fmap_2.
Qed.

Lemma os_remove_body p w :
  is_file (files w) (norm p) = true →
  os_remove p w
  = (Ok tt, after w (delete (norm p) (files w)) ([] ++ [Removed p])).
Proof. intros [ls H]%is_file_Some. by eapply os_remove_run. Qed.

Lemma NoDup_unit_paths f d app :
  NoDup (norm <$> ((λ n, join d [n]) <$> units f d app)).
Proof.
  rewrite <- list_fmap_compose.
  apply NoDup_fmap_2_strong; [|apply NoDup_units].
  intros n1 n2 H1 H2. simpl.
  rewrite !norm_join_plain by (by eapply units_plain).
  unfold join. intros E. by apply app_inj_1 in E as [_ [= ->]].
Qed.

Lemma unit_paths_elem f d app p :
  p ∈ (λ n, join d [n]) <$> units f d app ↔
  ∃ n, p = join d [n] ∧ n ∈ units f d app.
Proof. apply list_elem_of_fmap. Qed.

Lemma truthy_fmap {A B} (g : A → B) (l : list A) : truthy (g <$> l) = truthy l.
Proof. by destruct l. Qed.

Lemma truthy_false {A} (l : list A) : truthy l = false ↔ l = [].
Proof. by destruct l. Qed.

Lemma bind_removed (l : list path) :
  (l ≫= λ p, ([] ++ [Removed p])%list) = Removed <$> l.
Proof. induction l as [|p l IH]; [done|]. simpl. by f_equal. Qed.

Lemma unit_paths_files f d app :
  norm d = d → flat f d →
  ∀ p, p ∈ (λ n, join d [n]) <$> units f d app → is_file f (norm p) = true.
Proof.
  intros Hd Hflat p (n & -> & Hn)%unit_paths_elem.
  rewrite norm_join_plain by (by eapply units_plain). rewrite Hd.
  apply elem_of_units in Hn as [Hn _].
  apply elem_of_listdir in Hn as [x Hx]. rewrite Hd in Hx.
  destruct (Hflat n x Hx) as [ls ->]. apply is_file_Some. by exists ls.
Qed.

(** [disable]: the units its pattern picks are removed one by one; without
    any it prints the error. *)
Lemma disable_app_run app w :
  flat (files w) UWSGI_ENABLED →
  let name := sanitize_app_name app in
  let config := (λ n, join UWSGI_ENABLED [n])
                  <$> units (files w) UWSGI_ENABLED name in
  disable_app app w
  = if truthy config
    then (Ok tt, after w (remove_all config (files w))
                   (Echo ("Disabling app '" ++ name ++ "'...") "yellow"
                    :: (Removed <$> config)))
    else (Ok tt, after w (files w)
                   [Echo ("Error: app '" ++ name ++ "' not deployed!") "red"]).
Proof.
  intros Hflat name config. unfold disable_app. fold name.
  erewrite bind_ok; [|apply glob_run]. fold config.
  destruct (truthy config) eqn:E; [|done].
  erewrite bind_ok; [|apply echo_run].
  rewrite (for_each_remove (λ _, []) os_remove config os_remove_body).
  - rewrite after_after, bind_removed. done.
  - apply NoDup_unit_paths.
  - by apply unit_paths_files.
Qed.

Lemma grows_bind {A B} (m : M A) (k : A → M B) :
  grows m → (∀ a, grows (k a)) → grows (m ≫= k).
Proof.
  intros Hm Hk w. unfold mbind, M_bind. destruct (Hm w) as [e1 H1].
  destruct (m w) as [[a|e] w1]; simpl in *.
  - destruct (Hk a w1) as [e2 H2]. exists (e1 ++ e2)%list.
    by rewrite H2, H1, app_assoc.
  - by exists e1.
Qed.

Lemma grows_ret {A} (a : A) : grows (mret a).
Proof. intros w. exists []. by rewrite app_nil_r. Qed.

Lemma grows_raise {A} e : grows (@raise A e).
Proof. intros w. exists []. by rewrite app_nil_r. Qed.

Lemma grows_if {A} (b : bool) (m1 m2 : M A) :
  grows m1 → grows m2 → grows (if b then m1 else m2).
Proof. by destruct b. Qed.

Lemma grows_emit e : grows (emit e).
Proof. intros w. by exists [e]. Qed.

Lemma grows_get_files : grows get_files.
Proof. intros w. exists []. by rewrite app_nil_r. Qed.

Lemma grows_put_files f : grows (put_files f).
Proof. intros w. exists []. simpl. by rewrite app_nil_r. Qed.

Lemma grows_for_each {A} (l : list A) body :
  (∀ x, grows (body x)) → grows (for_each l body).
Proof.
  intros Hb. induction l as [|x l IH]; simpl.
  - apply grows_ret.
  - apply grows_bind; [apply Hb|]. intros _. apply IH.
Qed.

Lemma grows_read_lines p : grows (read_lines p).
Proof.
  unfold read_lines. apply grows_bind; [apply grows_get_files|].
  intros f. destruct (f !! norm p) as [[ls|]|];
    [apply grows_ret|apply grows_raise|apply grows_raise].
Qed.

Lemma grows_shutil_copyfile src dst : grows (shutil_copyfile src dst).
Proof.
  unfold shutil_copyfile. apply grows_bind; [apply grows_get_files|].
  intros f. destruct (_ && _); [apply grows_raise|].
  apply grows_bind; [apply grows_read_lines|]. intros ls.
  apply grows_bind; [apply grows_get_files|]. intros g.
  destruct (norm dst); [apply grows_raise|].
  destruct (_ && _); [|apply grows_raise].
  apply grows_bind; [apply grows_put_files|]. intros _. apply grows_emit.
Qed.

Lemma grows_shutil_copy src dst : grows (shutil_copy src dst).
Proof.
  unfold shutil_copy. apply grows_bind; [apply grows_get_files|].
  intros f. destruct (is_dir f dst); apply grows_shutil_copyfile.
Qed.

(** [restart]: with an enabled unit, every unit the pattern picks is
    removed, then comes the wait, then whatever the copies do. *)
Lemma restart_app_removes app w :
  flat (files w) UWSGI_ENABLED →
  let name := sanitize_app_name app in
  let enabled := (λ n, join UWSGI_ENABLED [n])
                   <$> units (files w) UWSGI_ENABLED name in
  truthy enabled = true →
  ∃ r w' evs,
    restart_app app w = (r, w')
    ∧ trace w' = (trace w
                  ++ Echo ("Restarting app '" ++ name ++ "'...") "yellow"
                     :: (Removed <$> enabled) ++ Sleep 5 :: evs)%list.
Proof.
  intros Hflat name enabled Ht. unfold restart_app. fold name.
  erewrite bind_ok; [|apply glob_run]. fold enabled.
  erewrite bind_ok; [|apply glob_run].
  rewrite Ht.
  erewrite bind_ok; [|apply echo_run].
  erewrite bind_ok.
  2: { apply (for_each_remove (λ _, []) os_unlink enabled os_remove_body).
       - apply NoDup_unit_paths.
       - by apply unit_paths_files. }
  erewrite bind_ok; [|apply emit_run].
  rewrite !after_after, bind_removed.
  match goal with |- context [?m (after w ?f ?e)] =>
    assert (Hg : grows m); [|destruct (Hg (after w f e)) as [evs Hevs];
                             destruct (m (after w f e)) as [r w'] eqn:E]
  end.
  { apply grows_if; [|apply grows_ret].
    apply grows_for_each. intros x. apply grows_shutil_copy. }
  exists r, w', evs. split; [done|]. simpl in Hevs. rewrite Hevs.
  rewrite <- !app_assoc. simpl. by rewrite <- app_assoc.
Qed.

(** *** Loops that copy *)

Lemma shutil_copyfile_run src dst w ls c q :
  files w !! norm src = Some (File ls) →
  norm src ≠ norm dst →
  norm dst = c :: q →
  files w !! removelast (c :: q) = Some Dir →
  files w !! (c :: q) ≠ Some Dir →
  shutil_copyfile src dst w
  = (Ok tt, after w (<[norm dst := File ls]> (files w)) [Copied src dst]).
Proof.
  intros Hsrc Hne Hq Hpar Hnd.
  unfold shutil_copyfile, mbind, M_bind, get_files. simpl.
  rewrite (bool_decide_eq_false_2 (norm src = norm dst)) by done.
  rewrite andb_false_r.
  rewrite (read_lines_run _ _ _ Hsrc). rewrite Hq.
  rewrite bool_decide_eq_true_2 by done.
  rewrite bool_decide_eq_false_2 by done. simpl.
  reflexivity.
Qed.

Lemma flat_not_dir f d n : flat f d → f !! join d [n] ≠ Some Dir.
Proof. intros Hflat H. by destruct (Hflat n Dir H). Qed.

Lemma flat_insert f d m ls :
  flat f d → flat (<[join d [m] := File ls]> f) d.
Proof.
  intros Hflat k x.
  destruct (decide (join d [m] = join d [k])) as [->|Hne].
  - rewrite lookup_insert_eq. intros [= <-]. by exists ls.
  - rewrite lookup_insert_ne by done. apply Hflat.
Qed.

Lemma enabled_copy_run app n w ls :
  app ≠ "." → app ≠ ".." → plain n →
  files w !! UWSGI_ENABLED = Some Dir →
  flat (files w) UWSGI_ENABLED →
  files w !! join UWSGI_AVAILABLE [n] = Some (File ls) →
  shutil_copy (join UWSGI_AVAILABLE [n]) (join UWSGI_ENABLED [app]) w
  = (Ok tt,
     after w (<[norm (copy_target app n) := File ls]> (files w))
       [Copied (join UWSGI_AVAILABLE [n]) (copy_target app n)])
  ∧ ∃ m, norm (copy_target app n) = join UWSGI_ENABLED [m].
Proof.
  intros Hd Hdd Hn Hen Hflat Hsrc.
  assert (Hns : norm (join UWSGI_AVAILABLE [n]) = join UWSGI_AVAILABLE [n])
    by (by rewrite norm_join_plain).
  unfold shutil_copy, copy_target.
  erewrite bind_ok; [|reflexivity].
  destruct (decide (app = "")) as [->|Hne].
  - assert (Hdir : is_dir (files w) (join UWSGI_ENABLED [""]) = true).
    { unfold is_dir. apply bool_decide_eq_true. by rewrite norm_join_empty. }
    rewrite Hdir.
    assert (Hb : basename (join UWSGI_AVAILABLE [n]) = n) by done.
    rewrite Hb.
    assert (Ht : norm (join (join UWSGI_ENABLED [""]) [n])
                 = join UWSGI_ENABLED [n]).
    { rewrite norm_join_plain by done. by rewrite norm_join_empty. }
    split; [|by exists n].
    change (join UWSGI_ENABLED [""; n])
      with (join (join UWSGI_ENABLED [""]) [n]).
    eapply shutil_copyfile_run.
    + by rewrite Hns.
    + rewrite Hns, Ht. done.
    + rewrite Ht. reflexivity.
    + exact Hen.
    + by apply (flat_not_dir _ UWSGI_ENABLED n).
  - assert (Hp : plain app) by done.
    assert (Ht : norm (join UWSGI_ENABLED [app]) = join UWSGI_ENABLED [app])
      by (by rewrite norm_join_plain).
    assert (Hdir : is_dir (files w) (join UWSGI_ENABLED [app]) = false).
    { unfold is_dir. apply bool_decide_eq_false. rewrite Ht.
      by apply flat_not_dir. }
    rewrite Hdir. split; [|by exists app].
    eapply shutil_copyfile_run.
    + by rewrite Hns.
    + rewrite Hns, Ht. done.
    + rewrite Ht. reflexivity.
    + exact Hen.
    + by apply (flat_not_dir _ UWSGI_ENABLED app).
Qed.

Lemma copy_loop app l : ∀ w,
  app ≠ "." → app ≠ ".." →
  files w !! UWSGI_ENABLED = Some Dir →
  flat (files w) UWSGI_ENABLED →
  (∀ n, n ∈ l → plain n
               ∧ is_file (files w) (join UWSGI_AVAILABLE [n]) = true) →
  ∃ w', for_each ((λ n, join UWSGI_AVAILABLE [n]) <$> l)
          (λ a, shutil_copy a (join UWSGI_ENABLED [app])) w
        = (Ok tt, w')
      ∧ trace w'
        = (trace w
           ++ ((λ n, Copied (join UWSGI_AVAILABLE [n]) (copy_target app n))
               <$> l))%list
      ∧ (∀ q, (∀ n, n ∈ l → q ≠ norm (copy_target app n)) →
              files w' !! q = files w !! q)
      ∧ (∀ q, ¬ UWSGI_ENABLED `prefix_of` q → files w' !! q = files w !! q).
Proof.
  induction l as [|n l IH]; intros w Hd Hdd Hen Hflat Hl.
  - exists w. simpl. by rewrite app_nil_r.
  - destruct (Hl n ltac:(by left)) as [Hn [ls Hls]%is_file_Some].
    destruct (enabled_copy_run app n w ls Hd Hdd Hn Hen Hflat Hls)
      as [Hrun [m Hm]].
    rewrite fmap_cons. simpl. erewrite bind_ok; [|exact Hrun].
    rewrite Hm.
    destruct (IH (after w (<[join UWSGI_ENABLED [m]:=File ls]> (files w))
                    [Copied (join UWSGI_AVAILABLE [n]) (copy_target app n)]))
      as (w' & Hrun' & Htrace & Hsame & Hout); [done|done|..].
    + simpl. by rewrite lookup_insert_ne.
    + by apply flat_insert.
    + intros k Hk. destruct (Hl k ltac:(by right)) as [Hpk Hfk].
      split; [done|]. simpl. apply is_file_Some.
      apply is_file_Some in Hfk as [ls' Hls']. exists ls'.
      by rewrite lookup_insert_ne.
    + exists w'. split; [done|]. split; [|split].
      * rewrite Htrace. simpl. by rewrite <- app_assoc.
      * intros q Hq. rewrite Hsame by (intros k Hk; apply Hq; by right).
        rewrite files_after. rewrite lookup_insert_ne; [done|]. rewrite <- Hm.
        intros E. by apply (Hq n ltac:(by left)).
      * intros q Hq. rewrite Hout by done. simpl.
        rewrite lookup_insert_ne; [done|]. intros <-. apply Hq.
        by exists [m].
Qed.

(** [enable], when it gets to its loop: every available unit the pattern
    picks is copied, and nothing outside the enabled directory changes. *)
Lemma enable_app_copies app w :
  let name := sanitize_app_name app in
  name ≠ "." → name ≠ ".." →
  files w !! UWSGI_ENABLED = Some Dir →
  flat (files w) UWSGI_ENABLED →
  flat (files w) UWSGI_AVAILABLE →
  path_exists (files w) (join APP_ROOT [name]) = true →
  units (files w) UWSGI_ENABLED name ≠ [] →
  units (files w) UWSGI_AVAILABLE name ≠ [] →
  ∃ w', enable_app app w = (Ok tt, w')
      ∧ trace w'
        = (trace w
           ++ Echo ("Enabling app '" ++ name ++ "'...") "yellow"
              :: ((λ n, Copied (join UWSGI_AVAILABLE [n]) (copy_target name n))
                  <$> units (files w) UWSGI_AVAILABLE name))%list
      ∧ ∀ q, ¬ UWSGI_ENABLED `prefix_of` q → files w' !! q = files w !! q.
Proof.
  intros name Hd Hdd Hen Hfe Hfa Hex Hne Hna. unfold enable_app. fold name.
  erewrite bind_ok; [|apply glob_run].
  erewrite bind_ok; [|apply glob_run].
  erewrite bind_ok; [|apply exists_run].
  rewrite Hex, !truthy_fmap.
  destruct (units (files w) UWSGI_ENABLED name) as [|e es] eqn:Ee; [done|].
  destruct (units (files w) UWSGI_AVAILABLE name) as [|a l] eqn:Ea; [done|].
  cbn [truthy]. erewrite bind_ok; [|apply echo_run].
  destruct (copy_loop name (a :: l)
              (after w (files w)
                 [Echo ("Enabling app '" ++ name ++ "'...") "yellow"]))
    as (w' & Hrun & Htr & _ & Hsame); [done..| |].
  - intros n Hn. rewrite <- Ea in Hn. split; [by eapply units_plain|].
    apply elem_of_units in Hn as [Hn _].
    apply elem_of_listdir in Hn as [x Hx].
    destruct (Hfa n x Hx) as [ls ->]. apply is_file_Some. by exists ls.
  - exists w'. split; [done|]. split; [|done].
    rewrite Htr. simpl. by rewrite <- app_assoc.
Qed.

(** *** [destroy] *)

Lemma prune_lookup r f q :
  prune r f !! q = if decide (r `prefix_of` q) then None else f !! q.
Proof.
  unfold prune. destruct (decide (r `prefix_of` q)) as [H|H].
  - apply map_lookup_filter_None. right. intros x _. simpl. by intros ?.
  - destruct (f !! q) as [x|] eqn:E.
    + by apply map_lookup_filter_Some.
    + apply map_lookup_filter_None. by left.
Qed.

Lemma clear_dir_lookup p f q :
  clear_dir p f !! q
  = if decide (f !! norm p = Some Dir ∧ norm p `prefix_of` q)
    then None else f !! q.
Proof.
  unfold clear_dir. case_bool_decide as Hd.
  - rewrite prune_lookup. destruct (decide (norm p `prefix_of` q)).
    + by rewrite decide_True.
    + rewrite decide_False; [done|]. by intros [_ ?].
  - rewrite decide_False; [done|]. by intros [? _].
Qed.

Lemma shutil_rmtree_run p w :
  basename p ≠ "." → basename p ≠ ".." →
  files w !! norm p = Some Dir →
  shutil_rmtree p w = (Ok tt, after w (prune (norm p) (files w)) [Rmtree p]).
Proof.
  intros H1 H2 Hd. unfold shutil_rmtree, mbind, M_bind, get_files. simpl.
  rewrite Hd. rewrite decide_False by done. by rewrite decide_False by done.
Qed.

Lemma clear_dir_run p w :
  basename p ≠ "." → basename p ≠ ".." →
  files w !! norm p = None ∨ files w !! norm p = Some Dir →
  (b ← exists_ p;
   if (b : bool) then
     echo ("Removing folder '" ++ path_str p ++ "'") "yellow" ;;
     shutil_rmtree p
   else mret tt) w
  = (Ok tt, after w (clear_dir p (files w)) (clear_dir_trace p (files w))).
Proof.
  intros H1 H2 Hd. erewrite bind_ok; [|apply exists_run].
  unfold clear_dir, clear_dir_trace. destruct Hd as [Hd|Hd].
  - rewrite (path_exists_none _ _ Hd).
    rewrite bool_decide_eq_false_2 by (by rewrite Hd).
    by rewrite after_nil.
  - rewrite bool_decide_eq_true_2 by done.
    assert (path_exists (files w) p = true) as ->.
    { unfold path_exists. apply bool_decide_eq_true. by rewrite Hd. }
    erewrite bind_ok; [|apply echo_run].
    rewrite shutil_rmtree_run by done. by rewrite after_after.
Qed.

Lemma remove_units_run d app w :
  norm d = d → flat (files w) d →
  (g ← glob d app;
   if truthy g then
     for_each g
       (λ f, echo ("Removing file '" ++ path_str f ++ "'") "yellow" ;;
             os_remove f)
   else mret tt) w
  = (Ok tt, after w (remove_all (unit_paths (files w) d app) (files w))
              (remove_trace (unit_paths (files w) d app))).
Proof.
  intros Hd Hflat. erewrite bind_ok; [|apply glob_run].
  fold (unit_paths (files w) d app).
  destruct (unit_paths (files w) d app) as [|p l] eqn:E.
  - simpl. by rewrite after_nil.
  - cbn [truthy]. rewrite <- E.
    apply (for_each_remove
             (λ p, [Echo ("Removing file '" ++ path_str p ++ "'") "yellow"])).
    + intros q w1 [ls Hq]%is_file_Some.
      erewrite bind_ok; [|apply echo_run].
      erewrite os_remove_run by exact Hq. by rewrite after_after.
    + apply NoDup_unit_paths.
    + by apply unit_paths_files.
Qed.

Lemma norm_join_root s name :
  plain s → name ≠ "." → name ≠ ".." →
  norm (join [s] [name]) = [s] ∨ norm (join [s] [name]) = [s; name].
Proof.
  intros Hs H1 H2.
  assert (Hn : norm [s] = [s]) by exact (norm_join_plain [] s Hs).
  destruct (decide (name = "")) as [->|Hne].
  - left. by rewrite norm_join_empty.
  - right. rewrite norm_join_plain by done. by rewrite Hn.
Qed.

Lemma prefix_head (s s' : string) (r r' : path) :
  (s :: r) `prefix_of` (s' :: r') → s = s'.
Proof. intros [k Hk]. simpl in Hk. by injection Hk. Qed.

Lemma basename_join d n : basename (join d [n]) = n.
Proof. unfold basename, join. apply last_last. Qed.

Lemma units_agree f g d app :
  (∀ n, g !! join (norm d) [n] = f !! join (norm d) [n]) →
  ∀ n, n ∈ units g d app ↔ n ∈ units f d app.
Proof.
  intros H n. rewrite !elem_of_units, !elem_of_listdir. by rewrite H.
Qed.

Lemma elem_of_norm_unit_paths f d app q :
  norm d = d →
  q ∈ norm <$> unit_paths f d app ↔ ∃ n, q = join d [n] ∧ n ∈ units f d app.
Proof.
  intros Hd. unfold unit_paths. rewrite <- list_fmap_compose.
  rewrite list_elem_of_fmap. split.
  - intros (n & -> & Hn). exists n. split; [|done]. simpl.
    rewrite norm_join_plain by (by eapply units_plain). by rewrite Hd.
  - intros (n & -> & Hn). exists n. split; [|done]. simpl.
    rewrite norm_join_plain by (by eapply units_plain). by rewrite Hd.
Qed.

(** [destroy] for a name other than [.] and [..], when none of the four
    paths is a file and the unit directories hold files only. *)
Lemma destroy_app_run app w :
  let name := sanitize_app_name app in
  name ≠ "." → name ≠ ".." →
  (∀ x, x ∈ app_dirs →
        files w !! norm (join x [name]) = None
        ∨ files w !! norm (join x [name]) = Some Dir) →
  flat (files w) UWSGI_AVAILABLE → flat (files w) UWSGI_ENABLED →
  (∃ evs, destroy_app app w
          = (Ok tt, after w (destroyed name (files w)) evs))
  ∧ (∀ x q, x ∈ app_dirs →
            files w !! norm (join x [name]) = Some Dir →
            norm (join x [name]) `prefix_of` q →
            destroyed name (files w) !! q = None)
  ∧ (∀ x n, x ∈ unit_dirs → n ∈ units (files w) x name →
            destroyed name (files w) !! join x [n] = None)
  ∧ (∀ q, (∀ x, x ∈ app_dirs → ¬ x `prefix_of` q) →
          (∀ x n, x ∈ unit_dirs → n ∈ units (files w) x name →
                  q ≠ join x [n]) →
          destroyed name (files w) !! q = files w !! q).
Proof.
  intros name H1 H2 Hdirs Hfa Hfe.
  set (f := files w) in *.
  set (p1 := join APP_ROOT [name]). set (p2 := join GIT_ROOT [name]).
  set (p3 := join ENV_ROOT [name]). set (p4 := join LOG_ROOT [name]).
  set (f1 := clear_dir p1 f). set (f2 := clear_dir p2 f1).
  set (f3 := clear_dir p3 f2). set (f4 := clear_dir p4 f3).
  set (f5 := remove_all (unit_paths f4 UWSGI_AVAILABLE name) f4).
  set (f6 := remove_all (unit_paths f5 UWSGI_ENABLED name) f5).
  assert (Hdes : destroyed name f = f6) by reflexivity.
  (* where the four paths resolve to *)
  assert (Hroot : ∀ s, plain s → ∃ r, norm (join [s] [name]) = s :: r).
  { intros s Hs. destruct (norm_join_root s name Hs H1 H2) as [->| ->]; eauto. }
  destruct (Hroot "apps" ltac:(done)) as [r1 E1].
  destruct (Hroot "repos" ltac:(done)) as [r2 E2].
  destruct (Hroot "envs" ltac:(done)) as [r3 E3].
  destruct (Hroot "logs" ltac:(done)) as [r4 E4].
  fold APP_ROOT in E1. fold GIT_ROOT in E2. fold ENV_ROOT in E3.
  fold LOG_ROOT in E4. fold p1 in E1. fold p2 in E2. fold p3 in E3.
  fold p4 in E4.
  (* a path with another first component is out of reach of a step *)
  assert (Hout : ∀ p s r g q h t, norm p = s :: r → q = h :: t → s ≠ h →
                   clear_dir p g !! q = g !! q).
  { intros p s r g q h t Ep -> Hne. rewrite clear_dir_lookup.
    rewrite decide_False; [done|]. rewrite Ep. intros [_ Hp].
    by apply prefix_head in Hp. }
  assert (Hd1 : f !! norm p1 = None ∨ f !! norm p1 = Some Dir).
  { apply Hdirs. in_list. }
  assert (Hd2 : f1 !! norm p2 = None ∨ f1 !! norm p2 = Some Dir).
  { unfold f1. rewrite (Hout p1 _ _ _ _ _ _ E1 E2) by done.
    apply Hdirs. in_list. }
  assert (Hd3 : f2 !! norm p3 = None ∨ f2 !! norm p3 = Some Dir).
  { unfold f2, f1. rewrite (Hout p2 _ _ _ _ _ _ E2 E3) by done.
    rewrite (Hout p1 _ _ _ _ _ _ E1 E3) by done.
    apply Hdirs. in_list. }
  assert (Hd4 : f3 !! norm p4 = None ∨ f3 !! norm p4 = Some Dir).
  { unfold f3, f2, f1. rewrite (Hout p3 _ _ _ _ _ _ E3 E4) by done.
    rewrite (Hout p2 _ _ _ _ _ _ E2 E4) by done.
    rewrite (Hout p1 _ _ _ _ _ _ E1 E4) by done.
    apply Hdirs. in_list. }
  (* the unit directories are untouched by the four steps *)
  assert (Hkeep : ∀ q h t, q = h :: t → h ≠ "apps" → h ≠ "repos" →
                    h ≠ "envs" → h ≠ "logs" → f4 !! q = f !! q).
  { intros q h t Eq ? ? ? ?. unfold f4, f3, f2, f1.
    rewrite (Hout p4 _ _ _ _ _ _ E4 Eq) by done.
    rewrite (Hout p3 _ _ _ _ _ _ E3 Eq) by done.
    rewrite (Hout p2 _ _ _ _ _ _ E2 Eq) by done.
    by rewrite (Hout p1 _ _ _ _ _ _ E1 Eq) by done. }
  assert (Hfa4 : flat f4 UWSGI_AVAILABLE).
  { intros n x. rewrite (Hkeep _ "uwsgi-available" [n]) by done. apply Hfa. }
  assert (Hav : ∀ n, n ∈ units f4 UWSGI_AVAILABLE name
                     ↔ n ∈ units f UWSGI_AVAILABLE name).
  { apply units_agree. intros n.
    by rewrite (Hkeep _ "uwsgi-available" [n]). }
  assert (H5e : ∀ n, f5 !! join UWSGI_ENABLED [n] = f !! join UWSGI_ENABLED [n]).
  { intros n. unfold f5. rewrite remove_all_lookup.
    rewrite decide_False.
    - by rewrite (Hkeep _ "uwsgi-enabled" [n]).
    - rewrite elem_of_norm_unit_paths by done. by intros (m & [=] & _). }
  assert (Hfe5 : flat f5 UWSGI_ENABLED).
  { intros n x. rewrite H5e. apply Hfe. }
  assert (Hen : ∀ n, n ∈ units f5 UWSGI_ENABLED name
                     ↔ n ∈ units f UWSGI_ENABLED name).
  { apply units_agree. intros n. apply H5e. }
  assert (Hb : ∀ x, basename (join x [name]) = name)
    by (intros; apply basename_join).
  split; [|split; [|split]].
  - unfold destroy_app. fold name. cbn [fmap list_fmap for_each].
    fold p1 p2 p3 p4.
    erewrite bind_ok.
    2: { erewrite bind_ok; [|apply clear_dir_run; rewrite ?Hb; done].
         erewrite bind_ok; [|apply clear_dir_run; rewrite ?Hb; done].
         erewrite bind_ok; [|apply clear_dir_run; rewrite ?Hb; done].
         erewrite bind_ok; [|apply clear_dir_run; rewrite ?Hb; done].
         reflexivity. }
    erewrite bind_ok; [|by apply remove_units_run].
    erewrite bind_ok; [|by apply remove_units_run].
    rewrite !after_after. eexists. rewrite Hdes. reflexivity.
  - intros x q Hx Hd Hp. rewrite Hdes. unfold f6, f5.
    rewrite !remove_all_lookup.
    destruct (decide _); [done|]. destruct (decide _); [done|].
    unfold app_dirs in Hx.
    apply elem_of_cons in Hx as [->|Hx]; [|apply elem_of_cons in Hx as [->|Hx];
      [|apply elem_of_cons in Hx as [->|Hx];
        [|apply list_elem_of_singleton in Hx as ->]]].
    + fold p1 in Hd, Hp. destruct q as [|h t]; [by rewrite E1 in Hp; destruct Hp as [? ?]|].
      assert (h = "apps") as -> by (rewrite E1 in Hp; by apply prefix_head in Hp).
      unfold f4, f3, f2.
      rewrite (Hout p4 _ _ _ _ _ _ E4 eq_refl) by done.
      rewrite (Hout p3 _ _ _ _ _ _ E3 eq_refl) by done.
      rewrite (Hout p2 _ _ _ _ _ _ E2 eq_refl) by done.
      unfold f1. rewrite clear_dir_lookup. by rewrite decide_True.
    + fold p2 in Hd, Hp. destruct q as [|h t]; [by rewrite E2 in Hp; destruct Hp as [? ?]|].
      assert (h = "repos") as -> by (rewrite E2 in Hp; by apply prefix_head in Hp).
      unfold f4, f3.
      rewrite (Hout p4 _ _ _ _ _ _ E4 eq_refl) by done.
      rewrite (Hout p3 _ _ _ _ _ _ E3 eq_refl) by done.
      unfold f2. rewrite clear_dir_lookup. rewrite decide_True; [done|].
      split; [|done]. unfold f1. by rewrite (Hout p1 _ _ _ _ _ _ E1 E2).
    + fold p3 in Hd, Hp. destruct q as [|h t]; [by rewrite E3 in Hp; destruct Hp as [? ?]|].
      assert (h = "envs") as -> by (rewrite E3 in Hp; by apply prefix_head in Hp).
      unfold f4.
      rewrite (Hout p4 _ _ _ _ _ _ E4 eq_refl) by done.
      unfold f3. rewrite clear_dir_lookup. rewrite decide_True; [done|].
      split; [|done]. unfold f2, f1.
      rewrite (Hout p2 _ _ _ _ _ _ E2 E3) by done.
      by rewrite (Hout p1 _ _ _ _ _ _ E1 E3).
    + fold p4 in Hd, Hp. destruct q as [|h t]; [by rewrite E4 in Hp; destruct Hp as [? ?]|].
      assert (h = "logs") as -> by (rewrite E4 in Hp; by apply prefix_head in Hp).
      unfold f4. rewrite clear_dir_lookup. rewrite decide_True; [done|].
      split; [|done]. unfold f3, f2, f1.
      rewrite (Hout p3 _ _ _ _ _ _ E3 E4) by done.
      rewrite (Hout p2 _ _ _ _ _ _ E2 E4) by done.
      by rewrite (Hout p1 _ _ _ _ _ _ E1 E4).
  - intros x n Hx Hn. rewrite Hdes. unfold f6. rewrite remove_all_lookup.
    unfold unit_dirs in Hx.
    apply elem_of_cons in Hx as [->|Hx];
      [|apply list_elem_of_singleton in Hx as ->].
    + destruct (decide _); [done|]. unfold f5. rewrite remove_all_lookup.
      rewrite decide_True; [done|].
      rewrite elem_of_norm_unit_paths by done. exists n. by rewrite Hav.
    + rewrite decide_True; [done|].
      rewrite elem_of_norm_unit_paths by done. exists n. by rewrite Hen.
  - intros q Hq Hu. rewrite Hdes. unfold f6, f5. rewrite !remove_all_lookup.
    rewrite decide_False.
    2: { rewrite elem_of_norm_unit_paths by done. intros (n & -> & Hn).
         apply (Hu UWSGI_ENABLED n); [in_list|by apply Hen|done]. }
    rewrite decide_False.
    2: { rewrite elem_of_norm_unit_paths by done. intros (n & -> & Hn).
         apply (Hu UWSGI_AVAILABLE n); [in_list|by apply Hav|done]. }
    destruct q as [|h t].
    + unfold f4, f3, f2, f1. rewrite !clear_dir_lookup.
      rewrite E1, E2, E3, E4.
      repeat (rewrite decide_False; [|intros [_ [? ?]]; done]). done.
    + apply (Hkeep _ h t eq_refl).
      * intros ->. apply (Hq APP_ROOT); [in_list|by exists t].
      * intros ->. apply (Hq GIT_ROOT); [in_list|by exists t].
      * intros ->. apply (Hq ENV_ROOT); [in_list|by exists t].
      * intros ->. apply (Hq LOG_ROOT); [in_list|by exists t].
Qed.

(** *** The lifecycle commands against their claims *)

(** C1: where the claim has [enable] copy the available units, the code
    does nothing: for every application with a checkout and no enabled
    unit, whatever it has available, [enable] prints the warning about an
    application that is enabled already and leaves the files alone. *)
Theorem enable_app_skips_disabled app w
    (Hcheckout : path_exists (files w)
                   (join APP_ROOT [sanitize_app_name app]) = true)
    (Hdisabled : units (files w) UWSGI_ENABLED (sanitize_app_name app) = []) :
  enable_app app w
  = (Ok tt,
     after w (files w)
       [Echo "Warning: app '%s' is already enabled, skipping." "yellow"]).
Proof.
  unfold enable_app.
  erewrite bind_ok; [|apply glob_run].
  erewrite bind_ok; [|apply glob_run].
  erewrite bind_ok; [|apply exists_run].
  by rewrite Hcheckout, Hdisabled.
Qed.

Lemma enable_app_skips_disabled_witness :
  units (files Sample.configured_disabled) UWSGI_AVAILABLE "foo"
  = ["foo_web_1.ini"]
  ∧ enable_app "foo" Sample.configured_disabled
    = (Ok tt,
       after Sample.configured_disabled (files Sample.configured_disabled)
         [Echo "Warning: app '%s' is already enabled, skipping." "yellow"]).
Proof.
  split; [vm_compute; reflexivity|].
  apply (enable_app_skips_disabled "foo" Sample.configured_disabled).
  - vm_compute. reflexivity.
  - vm_compute. reflexivity.
Defined.

(** The other half of C1: on an application that is enabled, [enable]
    prints no warning and writes a file named after the application into
    the enabled directory. *)
Lemma enable_app_enabled_writes :
  ∃ w', enable_app "foo" Sample.two_workers = (Ok tt, w')
      ∧ trace w'
        = [Echo "Enabling app 'foo'..." "yellow";
           Copied ["uwsgi-available"; "foo_worker_2.ini"] ["uwsgi-enabled"; "foo"];
           Copied ["uwsgi-available"; "foo_web_1.ini"] ["uwsgi-enabled"; "foo"]]
      ∧ files Sample.two_workers !! ["uwsgi-enabled"; "foo"] = None
      ∧ files w' !! ["uwsgi-enabled"; "foo"] = Some (File Sample.unit_a).
Proof.
  eexists. split; [vm_compute; reflexivity|].
  split; [reflexivity|]. split; vm_compute; reflexivity.
Qed.

Lemma drop_all s : Py.drop (String.length s) s = "".
Proof. induction s as [|c s IH]; [done|]. done. Qed.

Lemma selects_self app : selects app app = false.
Proof.
  unfold selects, fnmatch_ini. rewrite drop_all.
  by rewrite andb_false_r.
Qed.

(** C2: where the claim has [restart] restore the units, the code copies
    them all onto one file named after the application: for every
    application of a plain name with an enabled unit, no enabled unit is
    left after [restart], and nothing outside the enabled directory
    changes. *)
Theorem restart_app_restores_nothing app w
    (Hname : plain (sanitize_app_name app))
    (Hdir : files w !! UWSGI_ENABLED = Some Dir)
    (Hfe : flat (files w) UWSGI_ENABLED)
    (Hfa : flat (files w) UWSGI_AVAILABLE)
    (Henabled : units (files w) UWSGI_ENABLED (sanitize_app_name app) ≠ []) :
  ∃ w', restart_app app w = (Ok tt, w')
      ∧ units (files w') UWSGI_ENABLED (sanitize_app_name app) = []
      ∧ (∀ q, ¬ UWSGI_ENABLED `prefix_of` q → files w' !! q = files w !! q)
      ∧ ∃ evs, trace w'
               = (trace w
                  ++ Echo ("Restarting app '" ++ sanitize_app_name app ++ "'...")
                          "yellow"
                     :: (Removed <$> unit_paths (files w) UWSGI_ENABLED
                                       (sanitize_app_name app))
                     ++ Sleep 5 :: evs)%list
             ∧ ∀ e, e ∈ evs →
                    ∃ n, e = Copied (join UWSGI_AVAILABLE [n])
                               (join UWSGI_ENABLED [sanitize_app_name app]).
Proof.
  set (name := sanitize_app_name app) in *.
  destruct Hname as (Hn0 & Hn1 & Hn2).
  set (enabled := unit_paths (files w) UWSGI_ENABLED name).
  unfold restart_app. fold name.
  erewrite bind_ok; [|apply glob_run]. fold (unit_paths (files w) UWSGI_ENABLED name).
  fold enabled.
  erewrite bind_ok; [|apply glob_run].
  assert (Ht : truthy enabled = true).
  { unfold enabled, unit_paths. rewrite truthy_fmap.
    by destruct (units (files w) UWSGI_ENABLED name). }
  rewrite Ht.
  erewrite bind_ok; [|apply echo_run].
  erewrite bind_ok.
  2: { apply (for_each_remove (λ _, []) os_unlink enabled os_remove_body).
       - apply NoDup_unit_paths.
       - by apply unit_paths_files. }
  erewrite bind_ok; [|apply emit_run].
  rewrite !after_after, bind_removed. simpl files.
  set (f1 := remove_all enabled (files w)).
  set (w1 := after w f1 _).
  assert (Hf1 : ∀ q, f1 !! q
            = if decide (q ∈ norm <$> enabled) then None else files w !! q)
    by (intros q; apply remove_all_lookup).
  assert (Hin : ∀ q, q ∈ norm <$> enabled
                     ↔ ∃ n, q = join UWSGI_ENABLED [n]
                            ∧ n ∈ units (files w) UWSGI_ENABLED name)
    by (intros q; by apply elem_of_norm_unit_paths).
  assert (Hdir1 : files w1 !! UWSGI_ENABLED = Some Dir).
  { change (files w1) with f1. rewrite Hf1. rewrite decide_False; [done|].
    rewrite Hin. by intros (n & [=] & _). }
  assert (Hfe1 : flat (files w1) UWSGI_ENABLED).
  { intros n x. change (files w1) with f1. rewrite Hf1.
    case_decide; [done|]. apply Hfe. }
  assert (Hav1 : ∀ n, files w1 !! join UWSGI_AVAILABLE [n]
                      = files w !! join UWSGI_AVAILABLE [n]).
  { intros n. change (files w1) with f1. rewrite Hf1.
    rewrite decide_False; [done|]. rewrite Hin. by intros (m & [=] & _). }
  destruct (copy_loop name (units (files w) UWSGI_AVAILABLE name) w1)
    as (w' & Hrun & Htr & Hsame & Hout); [done..| |].
  { intros n Hn. split; [by eapply units_plain|].
    apply elem_of_units in Hn as [Hn _].
    apply elem_of_listdir in Hn as [x Hx].
    destruct (Hfa n x Hx) as [ls ->]. apply is_file_Some. exists ls.
    by rewrite Hav1. }
  assert (Hrest : (if truthy ((λ n, join UWSGI_AVAILABLE [n])
                              <$> units (files w) UWSGI_AVAILABLE name)
                   then for_each ((λ n, join UWSGI_AVAILABLE [n])
                                  <$> units (files w) UWSGI_AVAILABLE name)
                          (λ a, shutil_copy a (join UWSGI_ENABLED [name]))
                   else mret tt) w1 = (Ok tt, w')).
  { destruct (units (files w) UWSGI_AVAILABLE name); [|done].
    simpl in Hrun. by injection Hrun as <-. }
  rewrite Hrest. exists w'. split; [done|].
  assert (Htarget : ∀ n, norm (copy_target name n) = join UWSGI_ENABLED [name]).
  { intros n. unfold copy_target. rewrite decide_False by done.
    by rewrite norm_join_plain. }
  split; [|split].
  - apply elem_of_nil_inv. intros n Hn.
    apply elem_of_units in Hn as [Hl Hs].
    apply elem_of_listdir in Hl as [x Hx].
    assert (Hne : n ≠ name) by (intros ->; by rewrite selects_self in Hs).
    rewrite Hsame in Hx.
    + change (files w1) with f1 in Hx. rewrite Hf1 in Hx.
      destruct (decide _) as [|Hno] in Hx; [done|]. apply Hno, Hin.
      exists n. split; [done|]. apply elem_of_units. split; [|done].
      apply elem_of_listdir. by exists x.
    + intros k _. rewrite Htarget. unfold join. simpl. by intros [= ->].
  - intros q Hq. rewrite Hout by done. change (files w1) with f1.
    rewrite Hf1.
    rewrite decide_False; [done|]. rewrite Hin. intros (n & -> & _).
    apply Hq. by exists [n].
  - eexists. split.
    + rewrite Htr. unfold w1, after. simpl. rewrite <- !app_assoc. simpl.
      rewrite <- app_assoc. reflexivity.
    + intros e (n & -> & _)%list_elem_of_fmap. exists n.
      unfold copy_target. by rewrite decide_False.
Qed.

Lemma flatb_flat f d : norm d = d → flatb f d = true → flat f d.
Proof.
  intros Hd H n x Hx. unfold flatb in H. rewrite forallb_forall in H.
  assert (Hn : n ∈ listdir f d).
  { apply elem_of_listdir. rewrite Hd. by exists x. }
  apply list_elem_of_In, H, is_file_Some in Hn as [ls Hls].
  exists ls. congruence.
Qed.

Lemma withinb_within f : withinb f = true → enabled_within_available f.
Proof.
  intros H app n. unfold withinb in H. rewrite forallb_forall in H.
  rewrite !elem_of_units. intros [Hn Hs]. split; [|done].
  apply list_elem_of_In, H in Hn. by apply bool_decide_eq_true in Hn.
Qed.

Lemma restart_app_restores_nothing_witness :
  units (files Sample.two_workers) UWSGI_ENABLED "foo"
  = ["foo_worker_2.ini"; "foo_web_1.ini"]
  ∧ ∃ w', restart_app "foo" Sample.two_workers = (Ok tt, w')
        ∧ units (files w') UWSGI_ENABLED "foo" = [].
Proof.
  split; [vm_compute; reflexivity|].
  destruct (restart_app_restores_nothing "foo" Sample.two_workers)
    as (w' & Hrun & Hu & _).
  - vm_compute. repeat split; discriminate.
  - vm_compute. reflexivity.
  - apply flatb_flat; vm_compute; reflexivity.
  - apply flatb_flat; vm_compute; reflexivity.
  - vm_compute. discriminate.
  - exists w'. split; [exact Hrun|exact Hu].
Defined.

Lemma write_lines_run p ls w c q :
  norm p = c :: q →
  files w !! removelast (c :: q) = Some Dir →
  files w !! (c :: q) ≠ Some Dir →
  write_lines p ls w
  = (Ok tt, after w (<[norm p := File ls]> (files w)) [Wrote p]).
Proof.
  intros Hq Hd Hnd. unfold write_lines, mbind, M_bind, get_files. simpl.
  rewrite Hq. rewrite (bool_decide_eq_true_2 _ Hd).
  by rewrite (bool_decide_eq_false_2 _ Hnd).
Qed.

(** The last lines of [single_worker] on a unit that was never enabled:
    the available unit is written and [os.unlink] fails on the enabled
    one, which is not copied. *)
Lemma write_and_enable_first_deploy app kind ordinal settings w :
  let available := join UWSGI_AVAILABLE [unit_name app kind ordinal] in
  let enabled := join UWSGI_ENABLED [unit_name app kind ordinal] in
  plain (unit_name app kind ordinal) →
  files w !! UWSGI_AVAILABLE = Some Dir →
  files w !! available ≠ Some Dir →
  files w !! enabled = None →
  ∃ evs, write_and_enable app kind ordinal available enabled settings w
         = (Raise OSError,
            after w (<[available := File (unit_text settings)]> (files w)) evs)
       ∧ ∀ src dst, Copied src dst ∉ evs.
Proof.
  intros available enabled Hp Hd Hnd Hnone.
  assert (Ha : norm available = available) by (by apply norm_join_plain).
  assert (He : norm enabled = enabled) by (by apply norm_join_plain).
  unfold write_and_enable.
  erewrite bind_ok.
  2: { eapply (write_lines_run available); [by rewrite Ha|exact Hd|exact Hnd]. }
  erewrite bind_ok; [|apply echo_run].
  erewrite bind_raise.
  2: { unfold os_unlink, os_remove, mbind, M_bind, get_files. simpl.
       rewrite He, Ha. rewrite lookup_insert_ne by (by intros [=]).
       rewrite Hnone. reflexivity. }
  rewrite after_after. rewrite ?Ha. eexists. split; [reflexivity|].
  intros src dst Hin. simpl in Hin.
  repeat (apply elem_of_cons in Hin as [Hin|Hin]; [done|]).
  by apply elem_of_nil in Hin.
Qed.

(** C3: where the claim has every deploy end with the unit written and
    enabled, [single_worker] fails on every input while it builds its
    settings, before it touches a file; and its last lines, run on their
    own at a first deploy, write the available unit and fail at the
    removal of an enabled unit that is not there, so that no copy is
    made. *)
Theorem single_worker_enables_nothing :
  (∀ app kind command env ordinal w,
     single_worker app kind command env ordinal w = (Raise TypeError, w))
  ∧ ∃ w', write_and_enable "foo" "web" 1
            (join UWSGI_AVAILABLE [unit_name "foo" "web" 1])
            (join UWSGI_ENABLED [unit_name "foo" "web" 1])
            [("attach-daemon", "gunicorn app:app")] Sample.first_deploy
          = (Raise OSError, w')
        ∧ units (files Sample.first_deploy) UWSGI_ENABLED "foo" = []
        ∧ units (files w') UWSGI_AVAILABLE "foo" = ["foo_web_1.ini"]
        ∧ units (files w') UWSGI_ENABLED "foo" = []
        ∧ trace w' = [Wrote ["uwsgi-available"; "foo_web_1.ini"];
                      Echo "-----> Enabling 'foo:web_1'" "green"].
Proof.
  split; [reflexivity|].
  eexists. split; [vm_compute; reflexivity|].
  repeat split; vm_compute; reflexivity.
Qed.

(** C4: the invariant holds of a state, [restart] runs to its end on it,
    and afterwards the enabled directory has a unit, picked by the pattern
    of an application, that the available directory does not have. *)
Theorem restart_app_breaks_invariant :
  enabled_within_available (files Sample.dotted)
  ∧ ∃ w', restart_app "b.ini" Sample.dotted = (Ok tt, w')
        ∧ "b.ini" ∈ units (files w') UWSGI_ENABLED "b"
        ∧ ("b.ini" ∉ units (files w') UWSGI_AVAILABLE "b")
        ∧ ¬ enabled_within_available (files w').
Proof.
  split; [apply withinb_within; vm_compute; reflexivity|].
  eexists. split; [vm_compute; reflexivity|].
  assert (H1 : "b.ini" ∈ units (files (restart_app "b.ini" Sample.dotted).2)
                           UWSGI_ENABLED "b").
  { apply elem_of_units. split; [|reflexivity].
    apply elem_of_listdir. vm_compute. eexists. reflexivity. }
  assert (H2 : "b.ini" ∉ units (files (restart_app "b.ini" Sample.dotted).2)
                           UWSGI_AVAILABLE "b").
  { rewrite elem_of_units, elem_of_listdir. intros [[x Hx] _].
    vm_compute in Hx. discriminate. }
  split; [exact H1|]. split; [exact H2|].
  intros Hinv. apply H2. by apply Hinv.
Qed.

Lemma deploy_app_stops_early_witness :
  deploy_app (λ _ _ f, f) "/usr/bin" (λ n, n) single_worker
    "foo" (Sample.world_of [])
  = (Ok tt, after (Sample.world_of []) (files (Sample.world_of []))
              [Echo "Error: app 'foo' not found." "red"])
  ∧ ∃ w', deploy_app (λ _ _ f, f) "/usr/bin" (λ n, n)
            single_worker "foo" (Sample.manifest ["cron: x
"; "junk
"])
          = (Ok tt, w')
        ∧ files w' = files (Sample.manifest ["cron: x
"; "junk
"]).
Proof.
  split.
  - apply (deploy_app_stops_early (λ _ _ f, f) "/usr/bin" (λ n, n)
             single_worker "foo" (Sample.world_of [])).
    vm_compute. reflexivity.
  - destruct (deploy_app_stops_early (λ _ _ f, f) "/usr/bin" (λ n, n)
                single_worker "foo"
                (Sample.manifest ["cron: x
"; "junk
"])) as [_ H].
    destruct (H (Some ["cron: x
"; "junk
"])) as [Hrun _].
    + vm_compute. reflexivity.
    + vm_compute. reflexivity.
    + vm_compute. reflexivity.
    + intros lines [= <-]. apply Forall_forall. repeat constructor.
    + eexists. split; [exact Hrun|reflexivity].
Defined.

(** *** The empty name and names that are prefixes *)

Lemma keep_none f s :
  Py.all_chars (λ c, negb (f c)) s = true → Py.keep f s = "".
Proof.
  induction s as [|c s IH]; simpl; [done|].
  intros [Hc Hs]%andb_true_iff. apply negb_true_iff in Hc. rewrite Hc.
  by apply IH.
Qed.

Lemma selects_empty n :
  selects "" n = Py.endswith ".ini" n && negb (hidden n).
Proof. unfold selects, fnmatch_ini. by destruct n. Qed.

Lemma unit_dir_cases x :
  x ∈ unit_dirs → x = UWSGI_AVAILABLE ∨ x = UWSGI_ENABLED.
Proof. unfold unit_dirs. rewrite !elem_of_cons, elem_of_nil. tauto. Qed.

Lemma app_dir_cases x :
  x ∈ app_dirs → x = APP_ROOT ∨ x = GIT_ROOT ∨ x = ENV_ROOT ∨ x = LOG_ROOT.
Proof. unfold app_dirs. rewrite !elem_of_cons, elem_of_nil. tauto. Qed.

Lemma unit_dir_not_app_dir x y n :
  x ∈ unit_dirs → y ∈ app_dirs → ¬ y `prefix_of` join x [n].
Proof.
  intros [-> | ->]%unit_dir_cases [-> | [-> | [-> | ->]]]%app_dir_cases H;
    by apply prefix_head in H.
Qed.

Lemma unit_path_inj x y n m :
  x ∈ unit_dirs → y ∈ unit_dirs → join x [n] = join y [m] → x = y ∧ n = m.
Proof.
  intros [-> | ->]%unit_dir_cases [-> | ->]%unit_dir_cases [=]; by subst.
Qed.

Lemma unit_dir_norm x : x ∈ unit_dirs → norm x = x.
Proof. by intros [-> | ->]%unit_dir_cases. Qed.

(** A unit that [destroy] does not pick stays as it is. *)
Lemma destroyed_keeps name f x n :
  x ∈ unit_dirs → n ∉ units f x name →
  (∀ q, (∀ y, y ∈ app_dirs → ¬ y `prefix_of` q) →
        (∀ y m, y ∈ unit_dirs → m ∈ units f y name → q ≠ join y [m]) →
        destroyed name f !! q = f !! q) →
  destroyed name f !! join x [n] = f !! join x [n].
Proof.
  intros Hx Hn Hkeep. apply Hkeep.
  - intros y Hy. by apply unit_dir_not_app_dir.
  - intros y m Hy Hm E. apply unit_path_inj in E as [-> ->]; done.
Qed.

(** C9, as the code has it: a name without any letter, digit, dot or
    underscore is sanitized to the empty name, and [destroy] on it, with
    the four directories in place, removes them with all they hold and
    removes from the two unit directories every [.ini] file whose name does
    not begin with a dot; the files whose names begin with a dot stay. *)
Theorem destroy_app_empty_name app w
    (Hchars : Py.all_chars (λ c, negb (sanitize_char c)) app = true)
    (Hdirs : ∀ x, x ∈ app_dirs → files w !! x = Some Dir)
    (Hfa : flat (files w) UWSGI_AVAILABLE)
    (Hfe : flat (files w) UWSGI_ENABLED) :
  sanitize_app_name app = ""
  ∧ ∃ w', destroy_app app w = (Ok tt, w')
      ∧ (∀ x q, x ∈ app_dirs → x `prefix_of` q → files w' !! q = None)
      ∧ (∀ x n, x ∈ unit_dirs → Py.endswith ".ini" n = true →
                hidden n = false → files w' !! join x [n] = None)
      ∧ (∀ x n, x ∈ unit_dirs → hidden n = true →
                files w' !! join x [n] = files w !! join x [n]).
Proof.
  assert (Hname : sanitize_app_name app = "").
  { unfold sanitize_app_name. by rewrite keep_none. }
  split; [done|].
  assert (Hnorm : ∀ x, x ∈ app_dirs → norm (join x [""]) = x).
  { intros x Hx. rewrite norm_join_empty.
    by destruct (app_dir_cases x Hx) as [-> | [-> | [-> | ->]]]. }
  destruct (destroy_app_run app w) as ([evs Hrun] & Hgone & Hunits & Hkeep).
  - by rewrite Hname.
  - by rewrite Hname.
  - intros x Hx. rewrite Hname, Hnorm by done. right. by apply Hdirs.
  - done.
  - done.
  - rewrite Hname in *. eexists. split; [exact Hrun|].
    rewrite files_after. split; [|split].
    + intros x q Hx Hq. apply (Hgone x q Hx); rewrite Hnorm by done;
        [by apply Hdirs|done].
    + intros x n Hx Hini Hhid.
      destruct (decide (n ∈ units (files w) x "")) as [Hin|Hin];
        [by apply Hunits|].
      rewrite (destroyed_keeps "" (files w) x n Hx Hin Hkeep).
      destruct (files w !! join x [n]) as [y|] eqn:E; [|done].
      destruct Hin. apply elem_of_units. split.
      * apply elem_of_listdir. rewrite (unit_dir_norm x Hx). by exists y.
      * by rewrite selects_empty, Hini, Hhid.
    + intros x n Hx Hhid.
      apply (destroyed_keeps "" (files w) x n Hx); [|done].
      rewrite elem_of_units, selects_empty, Hhid, andb_false_r.
      by intros [_ ?].
Qed.

Lemma destroy_app_empty_name_witness :
  sanitize_app_name "-- --" = ""
  ∧ ∃ w', destroy_app "-- --" Sample.foo_and_foobar = (Ok tt, w')
        ∧ files w' !! ["apps"; "foo"] = None
        ∧ files w' !! ["uwsgi-enabled"; "foobar_web_1.ini"] = None.
Proof.
  destruct (destroy_app_empty_name "-- --" Sample.foo_and_foobar)
    as (Hname & w' & Hrun & Hgone & Hunits & _).
  - vm_compute. reflexivity.
  - intros x [-> | [-> | [-> | ->]]]%app_dir_cases; vm_compute; reflexivity.
  - apply flatb_flat; vm_compute; reflexivity.
  - apply flatb_flat; vm_compute; reflexivity.
  - split; [exact Hname|]. exists w'. split; [exact Hrun|]. split.
    + apply (Hgone APP_ROOT); [by left|by exists ["foo"]].
    + apply (Hunits UWSGI_ENABLED "foobar_web_1.ini");
        [right; by left|reflexivity|reflexivity].
Defined.

(** C9, as it is worded, fails: the unit of an application whose name
    begins with a dot is a dot file, which the pattern [*.ini] does not
    pick, and it is there after [destroy] on the empty name. *)
Lemma destroy_app_keeps_hidden_units :
  sanitize_app_name "--" = ""
  ∧ sanitize_app_name ".x" = ".x"
  ∧ units (files Sample.hidden_app) UWSGI_AVAILABLE ".x" = [".x_web_1.ini"]
  ∧ units (files Sample.hidden_app) UWSGI_ENABLED ".x" = [".x_web_1.ini"]
  ∧ ∃ w', destroy_app "--" Sample.hidden_app = (Ok tt, w')
        ∧ files w' !! ["apps"] = None
        ∧ files w' !! ["uwsgi-available"; ".x_web_1.ini"]
          = Some (File Sample.unit_a)
        ∧ files w' !! ["uwsgi-enabled"; ".x_web_1.ini"]
          = Some (File Sample.unit_a).
Proof.
  repeat split; try (vm_compute; reflexivity).
  eexists. split; [vm_compute; reflexivity|].
  repeat split; vm_compute; reflexivity.
Qed.

(** A copy that returns has left its event, with the source it was
    given. *)
Lemma shutil_copyfile_ok src dst w w' :
  shutil_copyfile src dst w = (Ok tt, w') →
  trace w' = (trace w ++ [Copied src dst])%list.
Proof.
  unfold shutil_copyfile, read_lines, mbind, M_bind, get_files. simpl.
  destruct (_ && _); [discriminate|].
  destruct (files w !! norm src) as [[ls|]|]; simpl; try discriminate.
  destruct (norm dst) as [|c q]; [discriminate|].
  destruct (_ && _); [|discriminate].
  intros [= <-]. reflexivity.
Qed.

Lemma shutil_copy_ok src dst w w' :
  shutil_copy src dst w = (Ok tt, w') →
  ∃ d, trace w' = (trace w ++ [Copied src d])%list.
Proof.
  unfold shutil_copy. intros H.
  erewrite bind_ok in H; [|reflexivity].
  destruct (is_dir (files w) dst); apply shutil_copyfile_ok in H; eauto.
Qed.

Lemma copy_loop_sources dst l : ∀ w w',
  for_each l (λ a, shutil_copy a dst) w = (Ok tt, w') →
  ∃ evs, trace w' = (trace w ++ evs)%list
       ∧ ∀ x, x ∈ l → ∃ d, Copied x d ∈ evs.
Proof.
  induction l as [|x l IH]; intros w w' H.
  - injection H as <-. exists []. split; [by rewrite app_nil_r|].
    intros y Hy. by apply elem_of_nil in Hy.
  - cbn [for_each] in H. unfold mbind, M_bind in H.
    destruct (shutil_copy x dst w) as [[[]|e] w1] eqn:E; [|discriminate].
    apply shutil_copy_ok in E as [d Hd].
    apply IH in H as (evs & Htr & Hall).
    exists (Copied x d :: evs). split.
    + rewrite Htr, Hd, <- app_assoc. reflexivity.
    + intros y [->|Hy]%elem_of_cons.
      * exists d. by left.
      * destruct (Hall y Hy) as [d' Hd']. exists d'. by right.
Qed.

(** C10, as the code has it: let [a] be a sanitized name and a prefix of
    [b], and when [a] is empty let [b] not begin with a dot.  Then a unit
    of [b] is a unit of [a] for every command.  With files only in the
    enabled directory, [disable] and [restart] on [a] remove it from
    there.  With files only in both unit directories, [a] neither [.] nor
    [..] and none of the four paths of [a] a file, [destroy] on [a] removes
    it from both.  And whenever [enable] on [a] returns having copied a
    unit, it has copied from the unit of [b] as well. *)
Theorem prefix_name_commands a b n w
    (Ha : sanitize_app_name a = a)
    (Hpre : Py.startswith a b = true)
    (Hhid : a = "" → hidden b = false) :
  (flat (files w) UWSGI_ENABLED →
   n ∈ units (files w) UWSGI_ENABLED b →
     (∃ w' evs, disable_app a w = (Ok tt, w')
                ∧ trace w' = (trace w ++ evs)%list
                ∧ Removed (join UWSGI_ENABLED [n]) ∈ evs
                ∧ files w' !! join UWSGI_ENABLED [n] = None)
     ∧ (∃ r w' evs, restart_app a w = (r, w')
                    ∧ trace w' = (trace w ++ evs)%list
                    ∧ Removed (join UWSGI_ENABLED [n]) ∈ evs))
  ∧ (a ≠ "." → a ≠ ".." →
     flat (files w) UWSGI_ENABLED →
     flat (files w) UWSGI_AVAILABLE →
     (∀ y, y ∈ app_dirs →
           files w !! norm (join y [a]) = None
           ∨ files w !! norm (join y [a]) = Some Dir) →
     ∀ x, x ∈ unit_dirs → n ∈ units (files w) x b →
          ∃ w', destroy_app a w = (Ok tt, w')
                ∧ files w' !! join x [n] = None)
  ∧ (n ∈ units (files w) UWSGI_AVAILABLE b →
     ∀ w', enable_app a w = (Ok tt, w') →
       ∃ evs, trace w' = (trace w ++ evs)%list
            ∧ ((∃ src dst, Copied src dst ∈ evs) →
               ∃ dst, Copied (join UWSGI_AVAILABLE [n]) dst ∈ evs)).
Proof.
  assert (Hpick : ∀ x, n ∈ units (files w) x b → n ∈ units (files w) x a)
    by (intros x; by apply units_prefix).
  split; [|split].
  - intros Hfe Hn%Hpick. split.
    + pose proof (disable_app_run a w Hfe) as Hrun.
      rewrite Ha in Hrun. cbv zeta in Hrun.
      fold (unit_paths (files w) UWSGI_ENABLED a) in Hrun.
      assert (Hp : join UWSGI_ENABLED [n] ∈ unit_paths (files w) UWSGI_ENABLED a).
      { apply unit_paths_elem. by exists n. }
      destruct (unit_paths (files w) UWSGI_ENABLED a) as [|p l] eqn:E;
        [by apply elem_of_nil in Hp|].
      cbn [truthy] in Hrun. eexists _, _. split; [exact Hrun|].
      split; [reflexivity|]. split.
      * right. by apply (list_elem_of_fmap_2 Removed).
      * rewrite files_after, remove_all_lookup. rewrite decide_True; [done|].
        rewrite <- E. apply elem_of_norm_unit_paths; [done|]. by exists n.
    + destruct (restart_app_removes a w Hfe) as (r & w' & evs & Hrun & Htr).
      * rewrite Ha, truthy_fmap.
        by destruct (units (files w) UWSGI_ENABLED a);
          [apply elem_of_nil in Hn|].
      * exists r, w'. eexists. split; [done|]. split; [exact Htr|].
        rewrite Ha. rewrite elem_of_cons, elem_of_app.
        right. left.
        apply (list_elem_of_fmap_2 Removed), unit_paths_elem. by exists n.
  - intros Hd Hdd Hfe Hfa Hdirs x Hx Hn%Hpick.
    destruct (destroy_app_run a w) as ([evs Hrun] & _ & Hunits & _);
      rewrite ?Ha; try done.
    rewrite Ha in Hrun, Hunits.
    eexists. split; [exact Hrun|]. rewrite files_after. by apply Hunits.
  - intros Hn%Hpick w' Hrun. unfold enable_app in Hrun. rewrite Ha in Hrun.
    erewrite bind_ok in Hrun; [|apply glob_run].
    erewrite bind_ok in Hrun; [|apply glob_run].
    erewrite bind_ok in Hrun; [|apply exists_run].
    assert (Hecho : ∀ msg fg, echo msg fg w = (Ok tt, w') →
              ∃ evs, trace w' = (trace w ++ evs)%list
                   ∧ ((∃ src dst, Copied src dst ∈ evs) →
                      ∃ dst, Copied (join UWSGI_AVAILABLE [n]) dst ∈ evs)).
    { intros msg fg [= <-]. exists [Echo msg fg]. split; [reflexivity|].
      intros (src & dst & Hin). apply list_elem_of_singleton in Hin.
      discriminate. }
    destruct (path_exists (files w) (join APP_ROOT [a])); [|by eapply Hecho].
    destruct (truthy _); [|by eapply Hecho].
    destruct (truthy _); [|by eapply Hecho].
    erewrite bind_ok in Hrun; [|apply echo_run].
    apply copy_loop_sources in Hrun as (evs & Htr & Hall).
    exists (Echo ("Enabling app '" ++ a ++ "'...") "yellow" :: evs).
    split.
    + rewrite Htr. unfold after. cbn [trace]. by rewrite <- app_assoc.
    + intros _. destruct (Hall (join UWSGI_AVAILABLE [n])) as [d Hd].
      * apply (list_elem_of_fmap_2 (λ n, join UWSGI_AVAILABLE [n])), Hn.
      * exists d. by right.
Qed.

Lemma prefix_name_commands_witness :
  "foobar_web_1.ini" ∈ units (files Sample.foo_and_foobar) UWSGI_ENABLED "foobar"
  ∧ (∃ w', disable_app "foo" Sample.foo_and_foobar = (Ok tt, w')
           ∧ files w' !! ["uwsgi-enabled"; "foobar_web_1.ini"] = None)
  ∧ (∃ w', destroy_app "foo" Sample.foo_and_foobar = (Ok tt, w')
           ∧ files w' !! ["uwsgi-available"; "foobar_web_1.ini"] = None)
  ∧ (∃ w' dst, enable_app "foo" Sample.foo_and_foobar = (Ok tt, w')
             ∧ Copied ["uwsgi-available"; "foobar_web_1.ini"] dst ∈ trace w').
Proof.
  assert (Hen : "foobar_web_1.ini"
                ∈ units (files Sample.foo_and_foobar) UWSGI_ENABLED "foobar").
  { vm_compute. left. }
  assert (Hav : "foobar_web_1.ini"
                ∈ units (files Sample.foo_and_foobar) UWSGI_AVAILABLE "foobar").
  { vm_compute. left. }
  destruct (prefix_name_commands "foo" "foobar" "foobar_web_1.ini"
              Sample.foo_and_foobar)
    as (Hremove & Hdestroy & Henable).
  - reflexivity.
  - reflexivity.
  - discriminate.
  - split; [exact Hen|]. split; [|split].
    + destruct Hremove as [(w' & evs & Hrun & _ & _ & Hgone) _].
      * apply flatb_flat; vm_compute; reflexivity.
      * exact Hen.
      * exists w'. split; [exact Hrun|exact Hgone].
    + destruct (Hdestroy ltac:(discriminate) ltac:(discriminate))
        with (x := UWSGI_AVAILABLE) as (w' & Hrun & Hgone).
      * apply flatb_flat; vm_compute; reflexivity.
      * apply flatb_flat; vm_compute; reflexivity.
      * intros y [-> | [-> | [-> | ->]]]%app_dir_cases;
          vm_compute; auto.
      * left.
      * exact Hav.
      * exists w'. split; [exact Hrun|exact Hgone].
    + pose (w0 := (enable_app "foo" Sample.foo_and_foobar).2).
      assert (Hrun : enable_app "foo" Sample.foo_and_foobar = (Ok tt, w0))
        by (vm_compute; reflexivity).
      destruct (Henable Hav w0 Hrun) as (evs & Htr & Hcopy).
      change (trace w0 = evs) in Htr.
      destruct Hcopy as [dst Hdst].
      * exists ["uwsgi-available"; "foobar_web_1.ini"], ["uwsgi-enabled"; "foo"].
        rewrite <- Htr. vm_compute. repeat constructor.
      * exists w0, dst. split; [exact Hrun|]. by rewrite Htr.
Defined.

(** C10, as it is worded, fails for the empty name: it is a prefix of
    every name, and its pattern does not pick the units of a name that
    begins with a dot; [disable] on it finds nothing and the enabled unit
    of the other application stays. *)
Lemma disable_app_misses_hidden_units :
  sanitize_app_name "" = ""
  ∧ sanitize_app_name ".x" = ".x"
  ∧ "" ≠ ".x"
  ∧ Py.startswith "" ".x" = true
  ∧ units (files Sample.hidden_app) UWSGI_ENABLED ".x" = [".x_web_1.ini"]
  ∧ ∃ w', disable_app "" Sample.hidden_app = (Ok tt, w')
        ∧ trace w' = [Echo "Error: app '' not deployed!" "red"]
        ∧ files w' !! ["uwsgi-enabled"; ".x_web_1.ini"]
          = Some (File Sample.unit_a).
Proof.
  repeat split; try (vm_compute; reflexivity); try discriminate.
  eexists. split; [vm_compute; reflexivity|].
  split; vm_compute; reflexivity.
Qed.

(** The name [.] is a prefix of [.x] as well, and [destroy] on it stops in
    [shutil.rmtree]: the application directory is emptied, the walk fails
    when it removes the spelling [apps/.], and the units of either name are
    not reached. *)
Lemma destroy_app_dot_stops :
  sanitize_app_name "." = "."
  ∧ Py.startswith "." ".x" = true
  ∧ ∃ w', destroy_app "." Sample.hidden_app = (Raise OSError, w')
        ∧ files w' !! ["apps"] = Some Dir
        ∧ files w' !! ["apps"; ".x"] = None
        ∧ files w' !! ["uwsgi-available"; ".x_web_1.ini"]
          = Some (File Sample.unit_a)
        ∧ files w' !! ["uwsgi-enabled"; ".x_web_1.ini"]
          = Some (File Sample.unit_a).
Proof.
  repeat split; try (vm_compute; reflexivity).
  eexists. split; [vm_compute; reflexivity|].
  repeat split; vm_compute; reflexivity.
Qed.

(** * Further properties *)

(** *** Names *)

Lemma keep_all_chars f s : Py.all_chars f (Py.keep f s) = true.
Proof.
  induction s as [|c s IH]; [done|]. simpl.
  destruct (f c) eqn:E; [|done]. simpl. by rewrite E.
Qed.

Lemma keep_id f s : Py.all_chars f s = true → Py.keep f s = s.
Proof.
  induction s as [|c s IH]; [done|]. simpl.
  intros [Hc Hs]%andb_true_iff. rewrite Hc. by rewrite IH.
Qed.

Lemma sanitize_char_not_space c : sanitize_char c = true → Py.isspace c = false.
Proof.
  destruct c as [[] [] [] [] [] [] [] []]; vm_compute; congruence.
Qed.

Lemma rstrip_id s :
  Py.all_chars (λ c, negb (Py.isspace c)) s = true → Py.rstrip s = s.
Proof.
  induction s as [|c s IH]; [done|]. simpl.
  intros [Hc Hs]%andb_true_iff. apply negb_true_iff in Hc.
  rewrite (IH Hs), Hc. by destruct s.
Qed.

Lemma all_chars_impl (f g : ascii → bool) s :
  (∀ c, f c = true → g c = true) →
  Py.all_chars f s = true → Py.all_chars g s = true.
Proof.
  intros Hfg. induction s as [|c s IH]; [done|]. simpl.
  intros [Hc Hs]%andb_true_iff. by rewrite (Hfg c Hc), IH.
Qed.

Lemma sanitize_is_keep s : sanitize_app_name s = Py.keep sanitize_char s.
Proof.
  unfold sanitize_app_name. apply rstrip_id.
  apply (all_chars_impl sanitize_char); [|apply keep_all_chars].
  intros c Hc. by rewrite (sanitize_char_not_space c Hc).
Qed.

(** X1: [sanitize_app_name] is the filter alone, the strip after it
    never removes anything; the result holds letters, digits, dots and
    underscores only, so no slash and no white space. *)
Theorem sanitize_app_name_allowed s :
  sanitize_app_name s = Py.keep sanitize_char s
  ∧ Py.all_chars sanitize_char (sanitize_app_name s) = true
  ∧ Py.all_chars (λ c, negb (Ascii.eqb c "/") && negb (Py.isspace c))
      (sanitize_app_name s) = true.
Proof.
  split; [apply sanitize_is_keep|]. rewrite sanitize_is_keep.
  split; [apply keep_all_chars|].
  apply (all_chars_impl sanitize_char); [|apply keep_all_chars].
  intros c Hc. rewrite (sanitize_char_not_space c Hc).
  destruct (Ascii.eqb c "/") eqn:E; [|done].
  apply Ascii.eqb_eq in E as ->. done.
Qed.

(** X2: a sanitized name is a fixed point: sanitizing twice is sanitizing
    once, and a name of allowed characters is returned as it is. *)
Theorem sanitize_app_name_idempotent s :
  sanitize_app_name (sanitize_app_name s) = sanitize_app_name s
  ∧ (Py.all_chars sanitize_char s = true → sanitize_app_name s = s).
Proof.
  split.
  - rewrite !sanitize_is_keep. apply keep_id, keep_all_chars.
  - intros H. rewrite sanitize_is_keep. by apply keep_id.
Qed.

Lemma sanitize_app_name_idempotent_witness :
  sanitize_app_name "my_app.v2" = "my_app.v2".
Proof.
  apply (sanitize_app_name_idempotent "my_app.v2"). reflexivity.
Defined.

(** *** Lines *)

Lemma split1_at sep a b :
  Py.all_chars (λ c, negb (Ascii.eqb c sep)) a = true →
  Py.split1 sep (a ++ String sep b) = (a, Some b)
  ∧ Py.split1 sep a = (a, None).
Proof.
  induction a as [|c a IH]; intros H.
  - simpl. by rewrite Ascii.eqb_refl.
  - simpl in H. apply andb_true_iff in H as [Hc Ha].
    apply negb_true_iff in Hc. destruct (IH Ha) as [IH1 IH2].
    rewrite string_app_cons. simpl. by rewrite Hc, IH1, IH2.
Qed.

(** X3: a line is cut at its first separator and nowhere else: with no
    separator in [a], the line [a sep b] gives the pair of the stripped [a]
    and the stripped [b], whatever separators [b] holds, and [a] alone
    gives nothing. *)
Theorem split_pair_first sep a b
    (Hsep : Py.all_chars (λ c, negb (Ascii.eqb c sep)) a = true) :
  split_pair sep (a ++ String sep b) = Some (Py.strip a, Py.strip b)
  ∧ split_pair sep a = None.
Proof.
  unfold split_pair. destruct (split1_at sep a b Hsep) as [-> ->]. done.
Qed.

Lemma split_pair_first_witness :
  split_pair "=" "FOO =bar=baz
" = Some ("FOO", "bar=baz")
  ∧ split_pair "=" "FOO " = None.
Proof.
  apply (split_pair_first "=" "FOO " "bar=baz
"). reflexivity.
Defined.

Lemma settings_warnings_spec lines :
  settings_warnings lines
  = (λ line, Echo ("Warning: malformed setting '" ++ line ++ "'") "yellow")
      <$> filter (λ line, split_pair "=" line = None) lines.
Proof.
  unfold settings_warnings. induction lines as [|line rest IH]; [done|].
  rewrite filter_cons. cbn [omap list_omap].
  destruct (split_pair "=" line) as [[k c]|] eqn:E.
  - by rewrite decide_False by done.
  - rewrite decide_True by done. rewrite fmap_cons. by f_equal.
Qed.

(** X4: [parse_settings] by what is at the path.  Nothing there: no
    result.  A directory: [IOError].  A file: always a map, empty when no
    line sets anything, in which a key has the value of the last line that
    sets it; each line without [=] is answered with one warning, and no
    file is changed. *)
Theorem parse_settings_result w filename :
  match files w !! norm filename with
  | None => parse_settings filename w = (Ok None, w)
  | Some Dir => parse_settings filename w = (Raise IOError, w)
  | Some (File lines) =>
      ∃ m, parse_settings filename w
           = (Ok (Some m),
              after w (files w)
                ((λ line, Echo ("Warning: malformed setting '" ++ line ++ "'")
                               "yellow")
                 <$> filter (λ line, split_pair "=" line = None) lines))
         ∧ ∀ k, m !! k = last_value k lines
  end.
Proof.
  destruct (files w !! norm filename) as [[lines|]|] eqn:E.
  - rewrite <- settings_warnings_spec. by apply parse_settings_run.
  - unfold parse_settings. erewrite bind_ok; [|apply exists_run].
    rewrite (path_exists_some _ _ _ E). simpl.
    erewrite bind_raise; [done|]. by apply read_lines_dir.
  - unfold parse_settings. erewrite bind_ok; [|apply exists_run].
    by rewrite (path_exists_none _ _ E).
Qed.

(** X5: [parse_procfile] by what is at the path.  A directory:
    [IOError].  Otherwise it returns without changing a file, and what it
    returns is nothing or a map that is not empty and has no key besides
    [web], [worker] and [wsgi]. *)
Theorem parse_procfile_result w filename :
  match files w !! norm filename with
  | Some Dir => parse_procfile filename w = (Raise IOError, w)
  | _ =>
      ∃ r w', parse_procfile filename w = (Ok r, w')
            ∧ files w' = files w
            ∧ ∀ m, r = Some m →
                   m ≠ ∅ ∧ ∀ kind, kind ∈ dom m → kind ∈ worker_kinds
  end.
Proof.
  destruct (files w !! norm filename) as [[lines|]|] eqn:E.
  - destruct (parse_procfile_run filename w lines E)
      as (r & Hrun & Hres & _ & Hsome).
    exists r, (after w (files w) (procfile_warnings lines)).
    split; [done|]. split; [done|]. intros m ->. split.
    + intros ->. destruct Hres as [_ Hres].
      discriminate Hres. intros kind.
      by rewrite <- (Hsome ∅ eq_refl kind), lookup_empty.
    + intros kind [c Hc]%elem_of_dom. rewrite (Hsome m eq_refl) in Hc.
      unfold resolved in Hc. by case_bool_decide.
  - unfold parse_procfile. erewrite bind_ok; [|apply exists_run].
    rewrite (path_exists_some _ _ _ E). simpl.
    erewrite bind_raise; [done|]. by apply read_lines_dir.
  - exists None, w. split; [|done].
    apply parse_procfile_missing. by apply path_exists_none.
Qed.

(** *** A deploy without a runtime *)

Section MoreDeployProps.

Variable subprocess : string → path → fs → fs.
Variable environ_PATH : string.
Variable ephemeral : nat → nat.
Variable create_worker :
  string → string → string → gmap string string → nat → M unit.

(** X6: a checkout whose manifest, once git has refreshed it, sets a
    worker, and that has no [requirements.txt]: [deploy] prints that it
    could not detect the runtime and stops; no environment is built, no
    worker is made, and the files are as git left them. *)
Theorem deploy_app_no_runtime app w lines :
  let name := sanitize_app_name app in
  let app_path := join APP_ROOT [name] in
  let f1 := subprocess "git pull --quiet" app_path (files w) in
  let f2 := subprocess "git checkout -f" app_path f1 in
  is_dir (files w) app_path = true →
  is_dir f1 app_path = true →
  f2 !! norm (join app_path ["Procfile"]) = Some (File lines) →
  (∃ kind, kind ∈ worker_kinds ∧ is_Some (last_command kind lines)) →
  path_exists f2 (join app_path ["requirements.txt"]) = false →
  deploy_app subprocess environ_PATH ephemeral create_worker app w
  = (Ok tt,
     after w f2
       ([Echo ("-----> Deploying app '" ++ name ++ "'") "green";
         Call "git pull --quiet" app_path;
         Call "git checkout -f" app_path]
        ++ procfile_warnings lines
        ++ [Echo "-----> Could not detect runtime!" "red"])).
Proof.
  intros name app_path f1 f2 Hd Hd1 Hfile Hdecl Hreq.
  unfold deploy_app, do_deploy. fold name. fold app_path.
  erewrite bind_ok; [|apply exists_run].
  rewrite (is_dir_exists _ _ Hd).
  erewrite bind_ok; [|apply emit_run].
  erewrite bind_ok; [|by apply call_run].
  erewrite bind_ok; [|by apply call_run].
  simpl files. fold f1. fold f2. rewrite !after_after.
  set (w2 := after w f2 _).
  destruct (parse_procfile_some (join app_path ["Procfile"]) w2 lines Hfile Hdecl)
    as (m & Hrun & Hsize).
  erewrite bind_ok; [|exact Hrun]. cbv iota beta.
  rewrite bool_decide_eq_false_2 by done.
  erewrite bind_ok; [|apply exists_run].
  rewrite files_after. change (files w2) with f2. rewrite Hreq.
  unfold w2. rewrite echo_run, !after_after. reflexivity.
Qed.

End MoreDeployProps.

Lemma deploy_app_no_runtime_witness :
  deploy_app (λ _ _ f, f) "/usr/bin" (λ n, n) single_worker
    "foo" Sample2.no_runtime
  = (Ok tt,
     after Sample2.no_runtime (files Sample2.no_runtime)
       [Echo "-----> Deploying app 'foo'" "green";
        Call "git pull --quiet" ["apps"; "foo"];
        Call "git checkout -f" ["apps"; "foo"];
        procfile_warning "junk
";
        Echo "-----> Could not detect runtime!" "red"]).
Proof.
  apply (deploy_app_no_runtime (λ _ _ f, f) "/usr/bin" (λ n, n)
           single_worker "foo" Sample2.no_runtime
           ["web: gunicorn app:app
"; "junk
"]).
  - vm_compute. reflexivity.
  - vm_compute. reflexivity.
  - vm_compute. reflexivity.
  - exists "web". split; [in_list|]. vm_compute. eexists. reflexivity.
  - vm_compute. reflexivity.
Defined.

(** *** [disable] *)

Lemma units_nil_of_gone f d app :
  (∀ n, n ∈ units f d app → f !! join (norm d) [n] = None) →
  units f d app = [].
Proof.
  intros H. apply elem_of_nil_inv. intros n Hn.
  pose proof (H n Hn) as Hx.
  apply elem_of_units in Hn as [Hl _].
  apply elem_of_listdir in Hl as [x Hl]. congruence.
Qed.

Lemma units_mono f g d app n :
  (∀ m, is_Some (g !! join (norm d) [m]) → is_Some (f !! join (norm d) [m])) →
  n ∈ units g d app → n ∈ units f d app.
Proof.
  intros H. rewrite !elem_of_units, !elem_of_listdir.
  intros [? ?]. split; [by apply H|done].
Qed.

(** The files after [disable]. *)
Lemma disable_app_files app w :
  flat (files w) UWSGI_ENABLED →
  let name := sanitize_app_name app in
  ∃ evs, disable_app app w
         = (Ok tt, after w (remove_all (unit_paths (files w) UWSGI_ENABLED name)
                              (files w)) evs).
Proof.
  intros Hflat name. rewrite (disable_app_run app w Hflat). fold name.
  fold (unit_paths (files w) UWSGI_ENABLED name).
  destruct (unit_paths (files w) UWSGI_ENABLED name); cbn [truthy];
    eexists; reflexivity.
Qed.

Lemma removed_units_lookup f name q :
  remove_all (unit_paths f UWSGI_ENABLED name) f !! q
  = if decide (q ∈ norm <$> unit_paths f UWSGI_ENABLED name)
    then None else f !! q.
Proof. apply remove_all_lookup. Qed.

(** X7: [disable], the enabled directory holding files only, removes the
    enabled units of the application and nothing else: afterwards the
    pattern picks nothing in the enabled directory, and every path that is
    not one of those units is as before; the available units in
    particular. *)
Theorem disable_app_effect app w
    (Hflat : flat (files w) UWSGI_ENABLED) :
  let name := sanitize_app_name app in
  ∃ w', disable_app app w = (Ok tt, w')
      ∧ units (files w') UWSGI_ENABLED name = []
      ∧ (∀ n, n ∈ units (files w) UWSGI_ENABLED name →
              files w' !! join UWSGI_ENABLED [n] = None)
      ∧ (∀ q, (∀ n, n ∈ units (files w) UWSGI_ENABLED name →
                    q ≠ join UWSGI_ENABLED [n]) →
              files w' !! q = files w !! q)
      ∧ ∀ n, files w' !! join UWSGI_AVAILABLE [n]
             = files w !! join UWSGI_AVAILABLE [n].
Proof.
  intros name. destruct (disable_app_files app w Hflat) as [evs Hrun].
  fold name in Hrun. eexists. split; [exact Hrun|].
  rewrite files_after.
  assert (Hin : ∀ q, q ∈ norm <$> unit_paths (files w) UWSGI_ENABLED name
                     ↔ ∃ n, q = join UWSGI_ENABLED [n]
                            ∧ n ∈ units (files w) UWSGI_ENABLED name)
    by (intros q; by apply elem_of_norm_unit_paths).
  assert (Hgone : ∀ n, n ∈ units (files w) UWSGI_ENABLED name →
            remove_all (unit_paths (files w) UWSGI_ENABLED name) (files w)
              !! join UWSGI_ENABLED [n] = None).
  { intros n Hn. rewrite removed_units_lookup, decide_True; [done|].
    apply Hin. by exists n. }
  assert (Hkeep : ∀ q, (∀ n, n ∈ units (files w) UWSGI_ENABLED name →
                             q ≠ join UWSGI_ENABLED [n]) →
            remove_all (unit_paths (files w) UWSGI_ENABLED name) (files w) !! q
            = files w !! q).
  { intros q Hq. rewrite removed_units_lookup, decide_False; [done|].
    rewrite Hin. intros (n & -> & Hn). by apply (Hq n). }
  split; [|split; [done|split; [done|]]].
  - apply units_nil_of_gone. intros n Hn. apply Hgone.
    revert Hn. apply units_mono. intros m [x Hx].
    rewrite removed_units_lookup in Hx. case_decide; [done|by exists x].
  - intros n. apply Hkeep. by intros m _ [=].
Qed.

Lemma disable_app_effect_witness :
  ∃ w', disable_app "foo" Sample.foo_and_foobar = (Ok tt, w')
      ∧ units (files w') UWSGI_ENABLED "foo" = []
      ∧ files w' !! ["uwsgi-available"; "foo_web_1.ini"]
        = Some (File Sample.unit_a).
Proof.
  destruct (disable_app_effect "foo" Sample.foo_and_foobar)
    as (w' & Hrun & Hnone & _ & _ & Hav).
  - apply flatb_flat; vm_compute; reflexivity.
  - exists w'. split; [exact Hrun|]. split; [exact Hnone|].
    etransitivity; [apply (Hav "foo_web_1.ini")|]. vm_compute. reflexivity.
Defined.

(** X8: [disable] twice: the second run finds nothing, prints that the
    application is not deployed and leaves the files as the first run left
    them. *)
Theorem disable_app_twice app w
    (Hflat : flat (files w) UWSGI_ENABLED) :
  ∃ w1, disable_app app w = (Ok tt, w1)
      ∧ disable_app app w1
        = (Ok tt,
           after w1 (files w1)
             [Echo ("Error: app '" ++ sanitize_app_name app ++ "' not deployed!")
                   "red"]).
Proof.
  set (name := sanitize_app_name app).
  destruct (disable_app_files app w Hflat) as [evs Hrun]. fold name in Hrun.
  eexists. split; [exact Hrun|].
  unfold disable_app. fold name. erewrite bind_ok; [|apply glob_run].
  rewrite files_after.
  assert (units (remove_all (unit_paths (files w) UWSGI_ENABLED name) (files w))
            UWSGI_ENABLED name = []) as ->; [|done].
  apply units_nil_of_gone. intros n Hn.
  rewrite removed_units_lookup. rewrite decide_True; [done|].
  apply elem_of_norm_unit_paths; [done|]. exists n. split; [done|].
  revert Hn. apply units_mono. intros m [x Hx].
  rewrite removed_units_lookup in Hx. case_decide; [done|by exists x].
Qed.

Lemma disable_app_twice_witness :
  ∃ w1, disable_app "foo" Sample.two_workers = (Ok tt, w1)
      ∧ disable_app "foo" w1
        = (Ok tt, after w1 (files w1)
                    [Echo "Error: app 'foo' not deployed!" "red"]).
Proof.
  apply (disable_app_twice "foo" Sample.two_workers).
  apply flatb_flat; vm_compute; reflexivity.
Defined.

(** X9: [disable] keeps the invariant of the two unit directories: when
    every enabled unit is available before, it is so afterwards, for the
    pattern of every application. *)
Theorem disable_app_keeps_invariant app w
    (Hflat : flat (files w) UWSGI_ENABLED)
    (Hinv : enabled_within_available (files w)) :
  ∃ w', disable_app app w = (Ok tt, w')
      ∧ enabled_within_available (files w').
Proof.
  set (name := sanitize_app_name app).
  destruct (disable_app_files app w Hflat) as [evs Hrun]. fold name in Hrun.
  eexists. split; [exact Hrun|]. rewrite files_after.
  intros other n Hn.
  assert (Hbefore : n ∈ units (files w) UWSGI_ENABLED other).
  { revert Hn. apply units_mono. intros m [x Hx].
    rewrite removed_units_lookup in Hx. case_decide; [done|by exists x]. }
  apply Hinv in Hbefore. revert Hbefore. apply units_mono.
  intros m [x Hx]. rewrite removed_units_lookup.
  rewrite decide_False; [by exists x|].
  rewrite elem_of_norm_unit_paths by done. by intros (k & [=] & _).
Qed.

Lemma disable_app_keeps_invariant_witness :
  ∃ w', disable_app "foo" Sample.foo_and_foobar = (Ok tt, w')
      ∧ enabled_within_available (files w').
Proof.
  apply (disable_app_keeps_invariant "foo" Sample.foo_and_foobar).
  - apply flatb_flat; vm_compute; reflexivity.
  - apply withinb_within. vm_compute. reflexivity.
Defined.

(** *** What the lifecycle commands leave alone *)

Lemma touches_weaken {A} (P Q : path → Prop) (m : M A) :
  (∀ q, P q → Q q) → touches_only P m → touches_only Q m.
Proof. intros HPQ Hm w q Hq. apply Hm. by intros ?%HPQ. Qed.

Lemma touches_ret {A} P (a : A) : touches_only P (mret a).
Proof. by intros w q _. Qed.

Lemma touches_raise {A} P e : touches_only P (@raise A e).
Proof. by intros w q _. Qed.

Lemma touches_emit P e : touches_only P (emit e).
Proof. by intros w q _. Qed.

Lemma touches_get_files P : touches_only P get_files.
Proof. by intros w q _. Qed.

Lemma touches_bind {A B} P (m : M A) (k : A → M B) :
  touches_only P m → (∀ a, touches_only P (k a)) → touches_only P (m ≫= k).
Proof.
  intros Hm Hk w q Hq. unfold mbind, M_bind. specialize (Hm w q Hq).
  destruct (m w) as [[a|e] w1]; simpl in *; [|done].
  by rewrite (Hk a w1 q Hq).
Qed.

Lemma touches_if {A} P (b : bool) (m1 m2 : M A) :
  touches_only P m1 → touches_only P m2 →
  touches_only P (if b then m1 else m2).
Proof. by destruct b. Qed.

Lemma touches_for_each {A} P (l : list A) body :
  (∀ x, x ∈ l → touches_only P (body x)) → touches_only P (for_each l body).
Proof.
  induction l as [|x l IH]; intros Hb; simpl; [apply touches_ret|].
  apply touches_bind; [apply Hb; by left|]. intros _. apply IH.
  intros y Hy. apply Hb. by right.
Qed.

Lemma touches_os_remove p : touches_only (λ q, q = norm p) (os_remove p).
Proof.
  intros w q Hq. unfold os_remove, mbind, M_bind, get_files. simpl.
  destruct (files w !! norm p) as [[ls|]|]; simpl; [|done..].
  by rewrite lookup_delete_ne by (by intros <-).
Qed.

Lemma touches_shutil_copyfile src dst :
  touches_only (λ q, q = norm dst) (shutil_copyfile src dst).
Proof.
  intros w q Hq.
  unfold shutil_copyfile, read_lines, mbind, M_bind, get_files. simpl.
  destruct (_ && _); [done|].
  destruct (files w !! norm src) as [[ls|]|]; simpl; [|done..].
  destruct (norm dst) as [|c r] eqn:E; [done|].
  destruct (_ && _); simpl; [|done].
  by rewrite lookup_insert_ne by (by intros <-).
Qed.

Lemma touches_shutil_copy src dst :
  touches_only (λ q, q = norm dst ∨ q = norm (join dst [basename src]))
    (shutil_copy src dst).
Proof.
  unfold shutil_copy. apply touches_bind; [apply touches_get_files|].
  intros f. apply touches_if.
  - eapply touches_weaken; [|apply touches_shutil_copyfile]. by right.
  - eapply touches_weaken; [|apply touches_shutil_copyfile]. by left.
Qed.

Lemma norm_enabled_prefix name :
  name ≠ ".." → UWSGI_ENABLED `prefix_of` norm (join UWSGI_ENABLED [name]).
Proof.
  intros Hdd. destruct (decide (name = "")) as [->|H0]; [by exists []|].
  destruct (decide (name = ".")) as [->|H1]; [by exists []|].
  rewrite norm_join_plain by done. by exists [name].
Qed.

Lemma touches_unit_removals f name :
  touches_only (λ q, UWSGI_ENABLED `prefix_of` q)
    (for_each (unit_paths f UWSGI_ENABLED name) os_remove).
Proof.
  apply touches_for_each. intros p (n & -> & Hn)%unit_paths_elem.
  eapply touches_weaken; [|apply touches_os_remove].
  intros q ->. rewrite norm_join_plain by (by eapply units_plain).
  by exists [n].
Qed.

Lemma touches_unit_copies f name :
  name ≠ ".." →
  touches_only (λ q, UWSGI_ENABLED `prefix_of` q)
    (for_each (unit_paths f UWSGI_AVAILABLE name)
       (λ a, shutil_copy a (join UWSGI_ENABLED [name]))).
Proof.
  intros Hdd. apply touches_for_each. intros p (n & -> & Hn)%unit_paths_elem.
  eapply touches_weaken; [|apply touches_shutil_copy].
  intros q [-> | ->]; [by apply norm_enabled_prefix|].
  rewrite basename_join, norm_join_plain by (by eapply units_plain).
  destruct (norm_enabled_prefix name Hdd) as [k ->].
  exists (k ++ [n])%list. unfold join. by rewrite <- app_assoc.
Qed.

Lemma touches_echo P msg fg : touches_only P (echo msg fg).
Proof. apply touches_emit. Qed.

Lemma touches_disable_rest f name :
  touches_only (λ q, UWSGI_ENABLED `prefix_of` q)
    (if truthy (unit_paths f UWSGI_ENABLED name)
     then echo ("Disabling app '" ++ name ++ "'...") "yellow" ;;
          for_each (unit_paths f UWSGI_ENABLED name) os_remove
     else echo ("Error: app '" ++ name ++ "' not deployed!") "red").
Proof.
  apply touches_if; [|apply touches_echo].
  apply touches_bind; [apply touches_echo|]. intros _.
  apply touches_unit_removals.
Qed.

Lemma touches_enable_rest f name (b : bool) :
  name ≠ ".." →
  touches_only (λ q, UWSGI_ENABLED `prefix_of` q)
    (if b then
       if truthy (unit_paths f UWSGI_ENABLED name) then
         if truthy (unit_paths f UWSGI_AVAILABLE name) then
           echo ("Enabling app '" ++ name ++ "'...") "yellow" ;;
           for_each (unit_paths f UWSGI_AVAILABLE name)
             (λ a, shutil_copy a (join UWSGI_ENABLED [name]))
         else echo "Error: app '%s' is not configured." "red"
       else echo "Warning: app '%s' is already enabled, skipping." "yellow"
     else echo "Error: app '%s' does not exist." "red").
Proof.
  intros Hdd. repeat (apply touches_if; [|apply touches_echo]).
  apply touches_bind; [apply touches_echo|]. intros _.
  by apply touches_unit_copies.
Qed.

Lemma touches_restart_rest f name :
  name ≠ ".." →
  touches_only (λ q, UWSGI_ENABLED `prefix_of` q)
    (if truthy (unit_paths f UWSGI_ENABLED name) then
       echo ("Restarting app '" ++ name ++ "'...") "yellow" ;;
       for_each (unit_paths f UWSGI_ENABLED name) os_unlink ;;
       sleep 5 ;;
       if truthy (unit_paths f UWSGI_AVAILABLE name) then
         for_each (unit_paths f UWSGI_AVAILABLE name)
           (λ a, shutil_copy a (join UWSGI_ENABLED [name]))
       else mret tt
     else echo ("Error: app '" ++ name ++ "' not enabled!") "red").
Proof.
  intros Hdd. apply touches_if; [|apply touches_echo].
  apply touches_bind; [apply touches_echo|]. intros _.
  apply touches_bind; [apply touches_unit_removals|]. intros _.
  apply touches_bind; [apply touches_emit|]. intros _.
  apply touches_if; [|apply touches_ret].
  by apply touches_unit_copies.
Qed.

(** X10: [disable] never changes a path outside the enabled directory,
    whatever the state and whether it fails or not; the same holds of
    [enable] and [restart] for every name but [..]. *)
Theorem lifecycle_touches_enabled_only app w q
    (Hq : ¬ UWSGI_ENABLED `prefix_of` q) :
  files (disable_app app w).2 !! q = files w !! q
  ∧ (sanitize_app_name app ≠ ".." →
     files (enable_app app w).2 !! q = files w !! q
     ∧ files (restart_app app w).2 !! q = files w !! q).
Proof.
  set (name := sanitize_app_name app).
  split; [|intros Hdd; split].
  - unfold disable_app. fold name. erewrite bind_ok; [|apply glob_run].
    apply (touches_disable_rest (files w) name w q Hq).
  - unfold enable_app. fold name.
    erewrite bind_ok; [|apply glob_run].
    erewrite bind_ok; [|apply glob_run].
    erewrite bind_ok; [|apply exists_run].
    apply (touches_enable_rest (files w) name _ Hdd w q Hq).
  - unfold restart_app. fold name.
    erewrite bind_ok; [|apply glob_run].
    erewrite bind_ok; [|apply glob_run].
    apply (touches_restart_rest (files w) name Hdd w q Hq).
Qed.

Lemma lifecycle_touches_enabled_only_witness :
  files (restart_app "foo" Sample.two_workers).2
    !! ["uwsgi-available"; "foo_web_1.ini"]
  = Some (File Sample.unit_a).
Proof.
  destruct (lifecycle_touches_enabled_only "foo" Sample.two_workers
              ["uwsgi-available"; "foo_web_1.ini"]) as [_ H].
  - intros [k Hk]. discriminate Hk.
  - destruct H as [_ H]; [discriminate|].
    etransitivity; [exact H|]. vm_compute. reflexivity.
Defined.

(** *** [destroy], once and twice *)

Lemma clear_dir_sub p g q :
  clear_dir p g !! q = None ∨ clear_dir p g !! q = g !! q.
Proof. rewrite clear_dir_lookup. case_decide; auto. Qed.

Lemma fold_clear_sub name dirs : ∀ g q,
  foldl (λ g x, clear_dir (join x [name]) g) g dirs !! q = None
  ∨ foldl (λ g x, clear_dir (join x [name]) g) g dirs !! q = g !! q.
Proof.
  induction dirs as [|x dirs IH]; intros g q; [by right|].
  cbn [foldl]. destruct (IH (clear_dir (join x [name]) g) q) as [H|H];
    [by left|].
  rewrite H. apply clear_dir_sub.
Qed.

Lemma fold_clear_none name dirs g q :
  g !! q = None →
  foldl (λ g x, clear_dir (join x [name]) g) g dirs !! q = None.
Proof. intros H. destruct (fold_clear_sub name dirs g q); congruence. Qed.

Lemma fold_clear_keep name dirs : ∀ g q,
  (∀ x, x ∈ dirs → ¬ norm (join x [name]) `prefix_of` q) →
  foldl (λ g x, clear_dir (join x [name]) g) g dirs !! q = g !! q.
Proof.
  induction dirs as [|x dirs IH]; intros g q H; [done|].
  cbn [foldl]. rewrite IH by (intros y Hy; apply H; by right).
  rewrite clear_dir_lookup. rewrite decide_False; [done|].
  intros [_ Hp]. by apply (H x ltac:(by left)).
Qed.

Lemma fold_clear_gone name dirs : ∀ g x q,
  x ∈ dirs →
  (∀ y, y ∈ dirs → y ≠ x →
        ¬ norm (join y [name]) `prefix_of` norm (join x [name])) →
  g !! norm (join x [name]) = Some Dir →
  norm (join x [name]) `prefix_of` q →
  foldl (λ g x, clear_dir (join x [name]) g) g dirs !! q = None.
Proof.
  induction dirs as [|y dirs IH]; intros g x q Hx Hapart Hd Hp;
    [by apply elem_of_nil in Hx|].
  cbn [foldl]. destruct (decide (y = x)) as [->|Hne].
  - apply fold_clear_none. rewrite clear_dir_lookup. by rewrite decide_True.
  - apply elem_of_cons in Hx as [->|Hx]; [done|].
    apply (IH _ x); [done| |  |done].
    + intros z Hz. apply Hapart. by right.
    + rewrite clear_dir_lookup. rewrite decide_False; [done|].
      intros [_ Hpre]. by apply (Hapart y ltac:(by left)).
Qed.

Lemma app_dir_head x name :
  name ≠ "." → name ≠ ".." → x ∈ app_dirs →
  ∃ s r, x = [s] ∧ norm (join x [name]) = s :: r.
Proof.
  intros H1 H2 Hx.
  assert (Hs : ∀ s, plain s → ∃ r, norm (join [s] [name]) = s :: r).
  { intros s Hs. destruct (norm_join_root s name Hs H1 H2) as [->| ->]; eauto. }
  destruct (app_dir_cases x Hx) as [-> | [-> | [-> | ->]]].
  - destruct (Hs "apps" ltac:(done)) as [r Hr]. by exists "apps", r.
  - destruct (Hs "repos" ltac:(done)) as [r Hr]. by exists "repos", r.
  - destruct (Hs "envs" ltac:(done)) as [r Hr]. by exists "envs", r.
  - destruct (Hs "logs" ltac:(done)) as [r Hr]. by exists "logs", r.
Qed.

Lemma app_dirs_apart name x y :
  name ≠ "." → name ≠ ".." → x ∈ app_dirs → y ∈ app_dirs → y ≠ x →
  ¬ norm (join y [name]) `prefix_of` norm (join x [name]).
Proof.
  intros H1 H2 Hx Hy Hne.
  destruct (app_dir_head x name H1 H2 Hx) as (s & r & -> & ->).
  destruct (app_dir_head y name H1 H2 Hy) as (s' & r' & -> & ->).
  intros Hp%prefix_head. by subst.
Qed.

Lemma app_dir_not_unit_path name x y n :
  name ≠ "." → name ≠ ".." → x ∈ app_dirs → y ∈ unit_dirs →
  ¬ norm (join x [name]) `prefix_of` join y [n].
Proof.
  intros H1 H2 Hx Hy.
  destruct (app_dir_head x name H1 H2 Hx) as (s & r & -> & ->).
  apply app_dir_cases in Hx.
  destruct (unit_dir_cases y Hy) as [-> | ->]; intros Hp%prefix_head;
    subst; destruct Hx as [? | [? | [? | ?]]]; discriminate.
Qed.

Lemma destroyed_sub name f q :
  destroyed name f !! q = None ∨ destroyed name f !! q = f !! q.
Proof.
  unfold destroyed, unit_dirs. cbn [foldl].
  rewrite !remove_all_lookup.
  destruct (decide _); [by left|]. destruct (decide _); [by left|].
  apply fold_clear_sub.
Qed.

Lemma destroyed_units_sub name f x other n :
  n ∈ units (destroyed name f) x other → n ∈ units f x other.
Proof.
  apply units_mono. intros m [y Hy].
  destruct (destroyed_sub name f (join (norm x) [m])) as [H|H];
    [congruence|]. rewrite <- H. by exists y.
Qed.

(** Where [destroy] changes nothing: outside the four paths of the name
    and away from the units its pattern picks. *)
Lemma destroyed_frame name f q :
  name ≠ "." → name ≠ ".." →
  (∀ x, x ∈ app_dirs → ¬ norm (join x [name]) `prefix_of` q) →
  (∀ x n, x ∈ unit_dirs → n ∈ units f x name → q ≠ join x [n]) →
  destroyed name f !! q = f !! q.
Proof.
  intros H1 H2 Hq Hu. unfold destroyed, unit_dirs. cbn [foldl].
  set (f4 := foldl _ f app_dirs).
  set (f5 := remove_all (unit_paths f4 UWSGI_AVAILABLE name) f4).
  assert (H4 : ∀ x m, m ∈ units f4 x name → m ∈ units f x name).
  { intros x m. apply units_mono. intros k [y Hy].
    destruct (fold_clear_sub name app_dirs f (join (norm x) [k])) as [H|H];
      fold f4 in H; [congruence|]. rewrite <- H. by exists y. }
  assert (H5 : ∀ x m, m ∈ units f5 x name → m ∈ units f x name).
  { intros x m Hm. apply H4. revert Hm. apply units_mono. intros k [y Hy].
    unfold f5 in Hy. rewrite remove_all_lookup in Hy.
    case_decide; [done|by exists y]. }
  rewrite remove_all_lookup.
  rewrite decide_False.
  2: { rewrite elem_of_norm_unit_paths by done. intros (m & -> & Hm).
       apply (Hu UWSGI_ENABLED m); [in_list|by apply H5|done]. }
  unfold f5. rewrite remove_all_lookup.
  rewrite decide_False.
  2: { rewrite elem_of_norm_unit_paths by done. intros (m & -> & Hm).
       apply (Hu UWSGI_AVAILABLE m); [in_list|by apply H4|done]. }
  by apply fold_clear_keep.
Qed.

Lemma destroyed_dirs_gone name f x :
  name ≠ "." → name ≠ ".." → x ∈ app_dirs →
  f !! norm (join x [name]) = None ∨ f !! norm (join x [name]) = Some Dir →
  destroyed name f !! norm (join x [name]) = None.
Proof.
  intros H1 H2 Hx Hd. unfold destroyed, unit_dirs. cbn [foldl].
  rewrite !remove_all_lookup.
  destruct (decide _); [done|]. destruct (decide _); [done|].
  destruct Hd as [Hd|Hd].
  - by apply fold_clear_none.
  - apply (fold_clear_gone name app_dirs f x); [done| |done|done].
    intros y Hy Hne. by apply app_dirs_apart.
Qed.

(** [destroy] on a state where there is nothing of the name. *)
Lemma destroy_app_nothing app w :
  let name := sanitize_app_name app in
  (∀ x, x ∈ app_dirs → files w !! norm (join x [name]) = None) →
  (∀ x, x ∈ unit_dirs → units (files w) x name = []) →
  destroy_app app w = (Ok tt, w).
Proof.
  intros name Hdirs Hunits. unfold destroy_app. fold name.
  cbn [fmap list_fmap for_each].
  assert (He : ∀ x, x ∈ app_dirs →
            (b ← exists_ (join x [name]);
             if (b : bool) then
               echo ("Removing folder '" ++ path_str (join x [name]) ++ "'")
                    "yellow" ;;
               shutil_rmtree (join x [name])
             else mret tt) w = (Ok tt, w)).
  { intros x Hx. erewrite bind_ok; [|apply exists_run].
    by rewrite (path_exists_none _ _ (Hdirs x Hx)). }
  assert (Hg : ∀ x, x ∈ unit_dirs →
            (g ← glob x name;
             if truthy g then
               for_each g
                 (λ f, echo ("Removing file '" ++ path_str f ++ "'") "yellow" ;;
                       os_remove f)
             else mret tt) w = (Ok tt, w)).
  { intros x Hx. erewrite bind_ok; [|apply glob_run].
    by rewrite (Hunits x Hx). }
  erewrite bind_ok.
  2: { erewrite bind_ok; [|apply He; in_list].
       erewrite bind_ok; [|apply He; in_list].
       erewrite bind_ok; [|apply He; in_list].
       erewrite bind_ok; [|apply He; in_list].
       reflexivity. }
  erewrite bind_ok; [|apply Hg; in_list].
  erewrite bind_ok; [|apply Hg; in_list].
  reflexivity.
Qed.

(** X11: [destroy] on a name other than [.] and [..], none of its four
    paths being a file and the unit directories holding files only: the
    four paths are gone, the pattern picks nothing in either unit
    directory, and every path that is neither under one of the four paths
    nor one of the units picked is as before; other checkouts and the
    units of other names in particular. *)
Theorem destroy_app_effect app w
    (Hdot : sanitize_app_name app ≠ "." ∧ sanitize_app_name app ≠ "..")
    (Hdirs : ∀ x, x ∈ app_dirs →
               files w !! norm (join x [sanitize_app_name app]) = None
               ∨ files w !! norm (join x [sanitize_app_name app]) = Some Dir)
    (Hfa : flat (files w) UWSGI_AVAILABLE)
    (Hfe : flat (files w) UWSGI_ENABLED) :
  let name := sanitize_app_name app in
  ∃ w', destroy_app app w = (Ok tt, w')
      ∧ (∀ x, x ∈ app_dirs → path_exists (files w') (join x [name]) = false)
      ∧ (∀ x, x ∈ unit_dirs → units (files w') x name = [])
      ∧ (∀ q, (∀ x, x ∈ app_dirs → ¬ norm (join x [name]) `prefix_of` q) →
              (∀ x n, x ∈ unit_dirs → n ∈ units (files w) x name →
                      q ≠ join x [n]) →
              files w' !! q = files w !! q).
Proof.
  intros name. destruct Hdot as [H1 H2]. fold name in H1, H2, Hdirs.
  destruct (destroy_app_run app w H1 H2 Hdirs Hfa Hfe)
    as ([evs Hrun] & _ & Hunits & _).
  fold name in Hrun, Hunits.
  eexists. split; [exact Hrun|]. rewrite files_after. split; [|split].
  - intros x Hx. apply path_exists_none.
    apply destroyed_dirs_gone; auto.
  - intros x Hx. apply units_nil_of_gone. intros n Hn.
    rewrite (unit_dir_norm x Hx). apply Hunits; [done|].
    by apply destroyed_units_sub in Hn.
  - intros q Hq Hu. by apply destroyed_frame.
Qed.

Lemma destroy_app_effect_witness :
  ∃ w', destroy_app "foobar" Sample.foo_and_foobar = (Ok tt, w')
      ∧ path_exists (files w') ["apps"; "foobar"] = false
      ∧ units (files w') UWSGI_ENABLED "foobar" = []
      ∧ files w' !! ["apps"; "foo"] = Some Dir
      ∧ files w' !! ["uwsgi-enabled"; "foo_web_1.ini"]
        = Some (File Sample.unit_a).
Proof.
  destruct (destroy_app_effect "foobar" Sample.foo_and_foobar)
    as (w' & Hrun & Hgone & Hunits & Hframe).
  - split; discriminate.
  - intros x [-> | [-> | [-> | ->]]]%app_dir_cases; vm_compute; auto.
  - apply flatb_flat; vm_compute; reflexivity.
  - apply flatb_flat; vm_compute; reflexivity.
  - exists w'. split; [exact Hrun|]. split; [|split; [|split]].
    + apply (Hgone APP_ROOT). in_list.
    + apply (Hunits UWSGI_ENABLED). in_list.
    + etransitivity; [apply Hframe|vm_compute; reflexivity].
      * intros x [-> | [-> | [-> | ->]]]%app_dir_cases [k Hk];
          vm_compute in Hk; discriminate.
      * intros x n [-> | ->]%unit_dir_cases _ [=].
    + etransitivity; [apply Hframe|vm_compute; reflexivity].
      * intros x [-> | [-> | [-> | ->]]]%app_dir_cases [k Hk];
          vm_compute in Hk; discriminate.
      * intros x n [-> | ->]%unit_dir_cases Hn E; [discriminate|].
        injection E as <-. vm_compute in Hn.
        apply list_elem_of_singleton in Hn. discriminate.
Defined.

(** X12: [destroy] twice, under the same conditions: the second run
    finds nothing to remove, prints nothing and changes nothing. *)
Theorem destroy_app_twice app w
    (Hdot : sanitize_app_name app ≠ "." ∧ sanitize_app_name app ≠ "..")
    (Hdirs : ∀ x, x ∈ app_dirs →
               files w !! norm (join x [sanitize_app_name app]) = None
               ∨ files w !! norm (join x [sanitize_app_name app]) = Some Dir)
    (Hfa : flat (files w) UWSGI_AVAILABLE)
    (Hfe : flat (files w) UWSGI_ENABLED) :
  ∃ w1, destroy_app app w = (Ok tt, w1)
      ∧ destroy_app app w1 = (Ok tt, w1).
Proof.
  set (name := sanitize_app_name app) in *. destruct Hdot as [H1 H2].
  destruct (destroy_app_run app w H1 H2 Hdirs Hfa Hfe)
    as ([evs Hrun] & _ & Hunits & _).
  fold name in Hrun, Hunits.
  eexists. split; [exact Hrun|].
  apply destroy_app_nothing; fold name; rewrite files_after.
  - intros x Hx. apply destroyed_dirs_gone; auto.
  - intros x Hx. apply units_nil_of_gone. intros n Hn.
    rewrite (unit_dir_norm x Hx). apply Hunits; [done|].
    by apply destroyed_units_sub in Hn.
Qed.

Lemma destroy_app_twice_witness :
  ∃ w1, destroy_app "foo" Sample.two_workers = (Ok tt, w1)
      ∧ destroy_app "foo" w1 = (Ok tt, w1).
Proof.
  apply (destroy_app_twice "foo" Sample.two_workers).
  - split; discriminate.
  - intros x [-> | [-> | [-> | ->]]]%app_dir_cases; vm_compute; auto.
  - apply flatb_flat; vm_compute; reflexivity.
  - apply flatb_flat; vm_compute; reflexivity.
Defined.

(** X13: [destroy], under the same conditions, keeps the invariant of
    the two unit directories: when every enabled unit is available before,
    it is so afterwards, for the pattern of every application. *)
Theorem destroy_app_keeps_invariant app w
    (Hdot : sanitize_app_name app ≠ "." ∧ sanitize_app_name app ≠ "..")
    (Hdirs : ∀ x, x ∈ app_dirs →
               files w !! norm (join x [sanitize_app_name app]) = None
               ∨ files w !! norm (join x [sanitize_app_name app]) = Some Dir)
    (Hfa : flat (files w) UWSGI_AVAILABLE)
    (Hfe : flat (files w) UWSGI_ENABLED)
    (Hinv : enabled_within_available (files w)) :
  ∃ w', destroy_app app w = (Ok tt, w')
      ∧ enabled_within_available (files w').
Proof.
  set (name := sanitize_app_name app) in *. destruct Hdot as [H1 H2].
  destruct (destroy_app_run app w H1 H2 Hdirs Hfa Hfe)
    as ([evs Hrun] & _ & Hunits & _).
  fold name in Hrun, Hunits.
  eexists. split; [exact Hrun|]. rewrite files_after.
  intros other n Hn.
  pose proof (destroyed_units_sub _ _ _ _ _ Hn) as Hbefore.
  pose proof (Hinv other n Hbefore) as Hav.
  (* the unit is still enabled, so the pattern of the name does not pick it *)
  assert (Hnot : selects name n = false).
  { destruct (selects name n) eqn:E; [|done].
    assert (Hin : n ∈ units (files w) UWSGI_ENABLED name).
    { apply elem_of_units. split; [|done].
      by apply elem_of_units in Hbefore as [? _]. }
    apply (Hunits UWSGI_ENABLED n ltac:(in_list)) in Hin.
    apply elem_of_units in Hn as [Hl _].
    apply elem_of_listdir in Hl as [x Hx].
    change (norm UWSGI_ENABLED) with UWSGI_ENABLED in Hx. congruence. }
  apply elem_of_units in Hav as [Hl Hsel].
  apply elem_of_units. split; [|done].
  apply elem_of_listdir in Hl. apply elem_of_listdir.
  change (norm UWSGI_AVAILABLE) with UWSGI_AVAILABLE in *.
  rewrite destroyed_frame; [done|done|done| |].
  - intros y Hy. by apply app_dir_not_unit_path; [..|in_list].
  - intros y k Hy Hk E.
    apply unit_path_inj in E as [<- <-]; [|in_list|done].
    apply elem_of_units in Hk as [_ Hk]. congruence.
Qed.

Lemma destroy_app_keeps_invariant_witness :
  ∃ w', destroy_app "foo" Sample.foo_and_foobar = (Ok tt, w')
      ∧ enabled_within_available (files w').
Proof.
  apply (destroy_app_keeps_invariant "foo" Sample.foo_and_foobar).
  - split; discriminate.
  - intros x [-> | [-> | [-> | ->]]]%app_dir_cases; vm_compute; auto.
  - apply flatb_flat; vm_compute; reflexivity.
  - apply flatb_flat; vm_compute; reflexivity.
  - apply withinb_within; vm_compute; reflexivity.
Defined.

(** *** The group callback *)

Lemma piku_dir_single p : p ∈ piku_dirs → ∃ s, norm p = [s] ∧ p = [s].
Proof.
  unfold piku_dirs. rewrite !elem_of_cons, elem_of_nil.
  intros [-> | [-> | [-> | [-> | [-> | [-> | [-> | []]]]]]]]; eauto.
Qed.

Lemma mkdir_all_single s f :
  mkdir_all [s] f = <[[] := Dir]> (<[[s] := Dir]> f).
Proof. reflexivity. Qed.

Lemma ensure_run p s w :
  norm p = [s] →
  files w !! [] = None ∨ files w !! [] = Some Dir →
  (b ← exists_ p; if negb b then os_makedirs p else mret tt) w
  = (Ok tt, after w (ensured (files w) p) (ensured_trace (files w) p)).
Proof.
  intros Hp Hroot. erewrite bind_ok; [|apply exists_run].
  unfold ensured, ensured_trace.
  destruct (path_exists (files w) p) eqn:E; cbn [negb].
  - by rewrite after_nil.
  - unfold os_makedirs. erewrite bind_ok; [|reflexivity]. rewrite E, Hp.
    assert (Hs : files w !! [s] = None).
    { unfold path_exists in E. apply bool_decide_eq_false in E.
      rewrite Hp in E. by apply eq_None_not_Some. }
    assert (Hf : existsb (is_file (files w)) (inits [s]) = false).
    { cbn. unfold is_file. rewrite Hs. by destruct Hroot as [-> | ->]. }
    rewrite Hf. reflexivity.
Qed.

Lemma ensured_lookup p s f q :
  norm p = [s] →
  ensured f p !! q
  = if path_exists f p then f !! q
    else if decide (q = [] ∨ q = [s]) then Some Dir else f !! q.
Proof.
  intros Hp. unfold ensured. destruct (path_exists f p); [done|].
  rewrite Hp, mkdir_all_single. destruct (decide (q = [] ∨ q = [s])) as [[->| ->]|Hn].
  - by rewrite lookup_insert_eq.
  - rewrite lookup_insert_ne by done. by rewrite lookup_insert_eq.
  - rewrite !lookup_insert_ne; [done|..]; intros <-; tauto.
Qed.

Lemma ensured_keeps p s f q :
  norm p = [s] →
  f !! [] = None ∨ f !! [] = Some Dir →
  is_Some (f !! q) → ensured f p !! q = f !! q.
Proof.
  intros Hp Hroot Hq. rewrite (ensured_lookup p s) by done.
  destruct (path_exists f p) eqn:E; [done|].
  destruct (decide _) as [[->| ->]|?]; [| |done].
  - destruct Hroot as [H|H]; rewrite H in *; [by destruct Hq|done].
  - apply bool_decide_eq_false in E. by rewrite Hp in E.
Qed.

Lemma ensured_root p s f :
  norm p = [s] →
  f !! [] = None ∨ f !! [] = Some Dir →
  ensured f p !! [] = None ∨ ensured f p !! [] = Some Dir.
Proof.
  intros Hp Hroot. rewrite (ensured_lookup p s) by done.
  destruct (path_exists f p); [done|]. rewrite decide_True; auto.
Qed.

Lemma ensured_made p s f :
  norm p = [s] →
  is_Some (ensured f p !! norm p)
  ∧ (f !! norm p = None → ensured f p !! norm p = Some Dir).
Proof.
  intros Hp. rewrite (ensured_lookup p s) by done.
  destruct (path_exists f p) eqn:E.
  - apply bool_decide_eq_true in E. split; [done|]. intros H.
    rewrite H in E. by destruct E.
  - rewrite Hp, decide_True by auto. by split.
Qed.

Lemma ensured_fresh p s f q :
  norm p = [s] → f !! q = None →
  ensured f p !! q = None ∨ ensured f p !! q = Some Dir.
Proof.
  intros Hp Hq. rewrite (ensured_lookup p s) by done.
  destruct (path_exists f p); [by left|]. destruct (decide _); auto.
Qed.

Lemma fold_ensured_keeps ps : ∀ f q,
  (∀ p, p ∈ ps → ∃ s, norm p = [s] ∧ p = [s]) →
  f !! [] = None ∨ f !! [] = Some Dir →
  is_Some (f !! q) → foldl ensured f ps !! q = f !! q.
Proof.
  induction ps as [|p ps IH]; intros f q Hps Hroot Hq; [done|].
  destruct (Hps p ltac:(by left)) as (s & Hp & _). cbn [foldl].
  rewrite IH.
  - by apply (ensured_keeps p s).
  - intros p' Hp'. apply Hps. by right.
  - by apply (ensured_root p s).
  - by rewrite (ensured_keeps p s).
Qed.

Lemma fold_ensured_root ps : ∀ f,
  (∀ p, p ∈ ps → ∃ s, norm p = [s] ∧ p = [s]) →
  f !! [] = None ∨ f !! [] = Some Dir →
  foldl ensured f ps !! [] = None ∨ foldl ensured f ps !! [] = Some Dir.
Proof.
  induction ps as [|p ps IH]; intros f Hps Hroot; [done|].
  destruct (Hps p ltac:(by left)) as (s & Hp & _). cbn [foldl].
  apply IH; [intros p' Hp'; apply Hps; by right|by apply (ensured_root p s)].
Qed.

Lemma fold_ensured_made ps : ∀ f p,
  (∀ p, p ∈ ps → ∃ s, norm p = [s] ∧ p = [s]) →
  f !! [] = None ∨ f !! [] = Some Dir →
  p ∈ ps →
  is_Some (foldl ensured f ps !! norm p)
  ∧ (f !! norm p = None → foldl ensured f ps !! norm p = Some Dir).
Proof.
  induction ps as [|p0 ps IH]; intros f p Hps Hroot Hin;
    [by apply elem_of_nil in Hin|].
  destruct (Hps p0 ltac:(by left)) as (s0 & Hp0 & _). cbn [foldl].
  assert (Hps' : ∀ p, p ∈ ps → ∃ s, norm p = [s] ∧ p = [s])
    by (intros p' Hp'; apply Hps; by right).
  pose proof (ensured_root p0 s0 f Hp0 Hroot) as Hroot'.
  destruct (ensured f p0 !! norm p) as [x|] eqn:E.
  - rewrite fold_ensured_keeps by (rewrite ?E; done). rewrite E.
    split; [done|]. intros Hnone.
    destruct (ensured_fresh p0 s0 f (norm p) Hp0 Hnone); congruence.
  - apply elem_of_cons in Hin as [->|Hin].
    + destruct (ensured_made p0 s0 f Hp0) as [Hs _]. rewrite E in Hs.
      by destruct Hs.
    + destruct (IH (ensured f p0) p Hps' Hroot' Hin) as [H1 H2].
      split; [done|]. intros _. by apply H2.
Qed.

Lemma fold_ensured_frame ps : ∀ f q,
  (∀ p, p ∈ ps → ∃ s, norm p = [s] ∧ p = [s]) →
  q ≠ [] → q ∉ ps → foldl ensured f ps !! q = f !! q.
Proof.
  induction ps as [|p ps IH]; intros f q Hps Hq Hnin; [done|].
  destruct (Hps p ltac:(by left)) as (s & Hp & Hps0). cbn [foldl].
  apply not_elem_of_cons in Hnin as [Hne Hnin].
  rewrite IH; [|intros p' Hp'; apply Hps; by right|done|done].
  rewrite (ensured_lookup p s) by done.
  destruct (path_exists f p); [done|].
  rewrite decide_False; [done|]. intros [?| ->]; [done|]. by subst.
Qed.

Lemma piku_loop_run ps : ∀ w,
  (∀ p, p ∈ ps → ∃ s, norm p = [s] ∧ p = [s]) →
  files w !! [] = None ∨ files w !! [] = Some Dir →
  ∃ evs,
    for_each ps (λ p, b ← exists_ p; if negb b then os_makedirs p else mret tt) w
    = (Ok tt, after w (foldl ensured (files w) ps) evs).
Proof.
  induction ps as [|p ps IH]; intros w Hps Hroot.
  - exists []. by rewrite after_nil.
  - destruct (Hps p ltac:(by left)) as (s & Hp & _). cbn [for_each foldl].
    erewrite bind_ok; [|by apply (ensure_run p s)].
    destruct (IH (after w (ensured (files w) p) (ensured_trace (files w) p)))
      as [evs Hrun].
    + intros p' Hp'. apply Hps. by right.
    + rewrite files_after. by apply (ensured_root p s).
    + rewrite Hrun, files_after, after_after. eauto.
Qed.

Lemma piku_loop_nothing ps : ∀ w,
  (∀ p, p ∈ ps → path_exists (files w) p = true) →
  for_each ps (λ p, b ← exists_ p; if negb b then os_makedirs p else mret tt) w
  = (Ok tt, w).
Proof.
  induction ps as [|p ps IH]; intros w H; [done|]. cbn [for_each].
  erewrite bind_ok.
  2: { erewrite bind_ok; [|apply exists_run].
       rewrite (H p ltac:(by left)). reflexivity. }
  apply IH. intros p' Hp'. apply H. by right.
Qed.

(** X14: the group callback, when [PIKU_ROOT] is not a file: it returns
    normally; afterwards each of the seven directories exists, those that
    were missing as directories; whatever was there before is as it was,
    and no path other than the seven and [PIKU_ROOT] is touched. *)
Theorem piku_makes_roots w
    (Hroot : files w !! [] = None ∨ files w !! [] = Some Dir) :
  ∃ w', piku w = (Ok tt, w')
      ∧ (∀ p, p ∈ piku_dirs →
           path_exists (files w') p = true
           ∧ (path_exists (files w) p = false → is_dir (files w') p = true))
      ∧ (∀ q, is_Some (files w !! q) → files w' !! q = files w !! q)
      ∧ (∀ q, q ≠ [] → q ∉ piku_dirs → files w' !! q = files w !! q).
Proof.
  destruct (piku_loop_run piku_dirs w piku_dir_single Hroot) as [evs Hrun].
  eexists. split; [exact Hrun|]. rewrite files_after.
  split; [|split].
  - intros p Hp.
    destruct (fold_ensured_made piku_dirs (files w) p piku_dir_single Hroot Hp)
      as [H1 H2].
    split.
    + by apply bool_decide_eq_true.
    + intros Hno. apply bool_decide_eq_true, H2.
      apply bool_decide_eq_false in Hno. by apply eq_None_not_Some.
  - intros q Hq. by apply fold_ensured_keeps; [apply piku_dir_single|..].
  - intros q Hq Hn. by apply fold_ensured_frame; [apply piku_dir_single|..].
Qed.

Lemma piku_makes_roots_witness :
  ∃ w', piku Sample2.bare = (Ok tt, w')
      ∧ is_dir (files w') UWSGI_ENABLED = true
      ∧ files w' !! ["apps"; "foo"] = None.
Proof.
  destruct (piku_makes_roots Sample2.bare) as (w' & Hrun & Hmade & _ & Hframe).
  - right. vm_compute. reflexivity.
  - exists w'. split; [exact Hrun|]. split.
    + apply (Hmade UWSGI_ENABLED); [unfold piku_dirs; repeat constructor|].
      vm_compute. reflexivity.
    + rewrite Hframe; [vm_compute; reflexivity|done|].
      unfold piku_dirs. rewrite !elem_of_cons, elem_of_nil.
      intros [?|[?|[?|[?|[?|[?|[?|[]]]]]]]]; discriminate.
Defined.

(** X15: the group callback run twice, [PIKU_ROOT] not being a file: the
    second run makes no directory, prints nothing and leaves the state as
    the first run left it. *)
Theorem piku_twice w
    (Hroot : files w !! [] = None ∨ files w !! [] = Some Dir) :
  ∃ w', piku w = (Ok tt, w') ∧ piku w' = (Ok tt, w').
Proof.
  destruct (piku_loop_run piku_dirs w piku_dir_single Hroot) as [evs Hrun].
  eexists. split; [exact Hrun|].
  apply (piku_loop_nothing piku_dirs). intros p Hp. rewrite files_after.
  apply bool_decide_eq_true.
  by apply (fold_ensured_made piku_dirs (files w) p piku_dir_single Hroot Hp).
Qed.

Lemma piku_twice_witness :
  ∃ w', piku Sample2.bare = (Ok tt, w') ∧ piku w' = (Ok tt, w').
Proof.
  apply (piku_twice Sample2.bare). right. vm_compute. reflexivity.
Defined.

(** *** The names of the units *)

Lemma all_chars_sep_false (c : ascii) (s t : string) :
  Py.all_chars (λ x, negb (Ascii.eqb x c)) (s ++ String c t) = false.
Proof.
  induction s as [|a s IH].
  - change ("" ++ String c t) with (String c t). simpl.
    by rewrite Ascii.eqb_refl.
  - rewrite string_app_cons. simpl. rewrite IH. apply andb_false_r.
Qed.

(** Cutting at the last [c]: what follows it holds no [c]. *)
Lemma cut_last_inj (c : ascii) (s1 t1 s2 t2 : string) :
  Py.all_chars (λ x, negb (Ascii.eqb x c)) t1 = true →
  Py.all_chars (λ x, negb (Ascii.eqb x c)) t2 = true →
  s1 ++ String c t1 = s2 ++ String c t2 → s1 = s2 ∧ t1 = t2.
Proof.
  intros H1 H2. revert s2. induction s1 as [|a s1 IH]; intros [|b s2].
  - intros [=]. by split.
  - change ("" ++ String c t1) with (String c t1). rewrite string_app_cons.
    intros [= <- ->]. by rewrite all_chars_sep_false in H1.
  - change ("" ++ String c t2) with (String c t2). rewrite string_app_cons.
    intros [= -> <-]. by rewrite all_chars_sep_false in H2.
  - rewrite !string_app_cons. intros [= -> E].
    destruct (IH _ E) as [-> ->]. by split.
Qed.

Lemma pretty_N_go_digits (c : ascii) x : ∀ s,
  Py.isalnum c = false →
  Py.all_chars (λ x, negb (Ascii.eqb x c)) s = true →
  Py.all_chars (λ x, negb (Ascii.eqb x c)) (pretty_N_go x s) = true.
Proof.
  induction (N.lt_wf_0 x) as [x _ IH]; intros s Hc Hs.
  assert (x = 0 ∨ 0 < x)%N as [->|?] by lia.
  - by rewrite pretty_N_go_0.
  - rewrite pretty_N_go_step by done. apply IH; [by apply N.div_lt|done|].
    simpl. rewrite Hs, andb_true_r. apply negb_true_iff.
    destruct (Ascii.eqb_spec (pretty_N_char (x `mod` 10)) c) as [<-|]; [|done].
    unfold pretty_N_char in Hc. by repeat case_match.
Qed.

Lemma str_digits (c : ascii) n :
  Py.isalnum c = false →
  Py.all_chars (λ x, negb (Ascii.eqb x c)) (Py.str n) = true.
Proof.
  intros Hc. unfold Py.str, pretty, pretty_nat, pretty, pretty_N.
  case_decide.
  - cbn [Py.all_chars]. rewrite andb_true_r. apply negb_true_iff.
    destruct (Ascii.eqb_spec "0" c) as [<-|]; [|done].
    vm_compute in Hc. discriminate.
  - by apply pretty_N_go_digits.
Qed.

Lemma all_chars_app f (s t : string) :
  Py.all_chars f (s ++ t) = Py.all_chars f s && Py.all_chars f t.
Proof.
  induction s as [|a s IH]; [done|].
  rewrite string_app_cons. simpl. by rewrite IH, andb_assoc.
Qed.

(** X16: the file name of a unit determines the application, the kind
    and the ordinal it was made for: two workers of kinds [web], [worker]
    or [wsgi] share a unit file only when they are the same worker of the
    same application, whatever underscores and dots the names hold. *)
Theorem unit_name_injective app1 kind1 n1 app2 kind2 n2
    (H1 : kind1 ∈ worker_kinds) (H2 : kind2 ∈ worker_kinds)
    (E : unit_name app1 kind1 n1 = unit_name app2 kind2 n2) :
  app1 = app2 ∧ kind1 = kind2 ∧ n1 = n2.
Proof.
  assert (Hk : ∀ k, k ∈ worker_kinds →
            Py.all_chars (λ x, negb (Ascii.eqb x "_")) k = true).
  { intros k. unfold worker_kinds. rewrite !elem_of_cons, elem_of_nil.
    intros [-> | [-> | [-> | []]]]; reflexivity. }
  assert (Ht : ∀ n, Py.all_chars (λ x, negb (Ascii.eqb x "_"))
                      (Py.str n ++ ".ini") = true).
  { intros n. rewrite all_chars_app, str_digits by done. reflexivity. }
  assert (Hshape : ∀ a k n,
            unit_name a k n = (a ++ String "_" k) ++ String "_" (Py.str n ++ ".ini")).
  { intros a k n. unfold unit_name, unit_stem.
    change ("_" ++ k ++ "_" ++ Py.str n) with (String "_" (k ++ "_" ++ Py.str n)).
    change ("_" ++ Py.str n) with (String "_" (Py.str n)).
    rewrite !string_app_assoc. f_equal.
    by rewrite !string_app_cons, !string_app_assoc. }
  rewrite !Hshape in E.
  apply cut_last_inj in E as [Es Et]; [|apply Ht..].
  apply cut_last_inj in Es as [-> ->]; [|by apply Hk..].
  split; [done|]. split; [done|].
  change (Py.str n1 ++ ".ini") with (Py.str n1 ++ String "." "ini") in Et.
  change (Py.str n2 ++ ".ini") with (Py.str n2 ++ String "." "ini") in Et.
  apply cut_last_inj in Et as [Et _]; [|reflexivity..].
  by apply (inj pretty) in Et.
Qed.

Lemma unit_name_injective_witness :
  "a_web" = "a_web" ∧ "web" = "web" ∧ 1 = 1.
Proof.
  apply (unit_name_injective "a_web" "web" 1 "a_web" "web" 1);
    [in_list|in_list|reflexivity].
Defined.

(** *** [ls] *)

(** X17: [ls] prints one green line for each entry of the applications
    directory, each entry once, directory or not (the shipped settings
    file [ENV] is listed like an application), and changes no file; when
    the directory is not there it fails. *)
Theorem list_apps_lists w :
  if is_dir (files w) APP_ROOT then
    ∃ names, list_apps w
             = (Ok tt, after w (files w) ((λ a, Echo a "green") <$> names))
           ∧ NoDup names
           ∧ ∀ n, n ∈ names ↔ is_Some (files w !! join APP_ROOT [n])
  else list_apps w = (Raise OSError, w).
Proof.
  unfold list_apps, os_listdir.
  destruct (is_dir (files w) APP_ROOT) eqn:E.
  - exists (listdir (files w) APP_ROOT). split; [|split].
    + erewrite bind_ok.
      2: { erewrite bind_ok; [|reflexivity]. rewrite E. reflexivity. }
      generalize (listdir (files w) APP_ROOT). intros l.
      assert (H : ∀ v, for_each l (λ a, echo a "green") v
                       = (Ok tt, after v (files v) ((λ a, Echo a "green") <$> l))).
      { induction l as [|a l IH]; intros v.
        - by rewrite after_nil.
        - cbn [for_each]. erewrite bind_ok; [|apply echo_run].
          rewrite IH, files_after, after_after. reflexivity. }
      apply H.
    + apply NoDup_listdir.
    + intros n. apply elem_of_listdir.
  - apply bind_raise. erewrite bind_ok; [|reflexivity]. by rewrite E.
Qed.

(** *** [git-hook] *)

Lemma bind_assoc {A B C} (m : M A) (k : A → M B) (k' : B → M C) w :
  ((m ≫= k) ≫= k') w = (m ≫= (λ a, k a ≫= k')) w.
Proof. unfold mbind, M_bind. by destruct (m w) as [[a|e] v]. Qed.

Section HookProps.

Variable subprocess : string → path → fs → fs.
Variable environ_PATH : string.
Variable ephemeral : nat → nat.
Variable create_worker :
  string → string → string → gmap string string → nat → M unit.

Abbreviation hook_lines :=
  (git_hook_lines subprocess environ_PATH ephemeral create_worker).
Abbreviation hook :=
  (git_hook subprocess environ_PATH ephemeral create_worker).

(** Lines for other branches are answered and passed over. *)
Lemma git_hook_lines_other app pre : ∀ rest w,
  Forall other_branch pre →
  hook_lines app (pre ++ rest) w
  = hook_lines app rest (after w (files w) (branch_events app pre)).
Proof.
  induction pre as [|line pre IH]; intros rest w Hpre.
  - by rewrite after_nil.
  - apply Forall_cons in Hpre as [(o & n & r & Hline & Hr) Hpre].
    rewrite <- app_comm_cons.
    cbn [git_hook_lines branch_events omap list_omap]. rewrite Hline.
    rewrite decide_False by done.
    erewrite bind_ok; [|apply emit_run].
    rewrite IH by done. by rewrite files_after, after_after.
Qed.

(** X18: pushes to branches other than master: [git-hook] deploys
    nothing and makes no checkout; it prints one [receive-branch] line for
    each line of its input and leaves the files as they are. *)
Theorem git_hook_other_branches app stdin w
    (Hlines : Forall other_branch stdin) :
  hook app stdin w
  = (Ok tt, after w (files w) (branch_events (sanitize_app_name app) stdin))
  ∧ length (branch_events (sanitize_app_name app) stdin) = length stdin.
Proof.
  split.
  - unfold git_hook.
    rewrite <- (app_nil_r stdin) at 1. by rewrite git_hook_lines_other.
  - induction Hlines as [|line l (o & n & r & Hline & _) _ IH]; [done|].
    cbn [branch_events omap list_omap]. rewrite Hline. cbn [length].
    f_equal. exact IH.
Qed.

(** X19: a line of input that does not hold three parts separated by
    single spaces (an empty line, say): [git-hook] fails on it with
    [ValueError]; the lines after it are not looked at, a push to master
    among them is not deployed. *)
Theorem git_hook_bad_line app pre bad rest w
    (Hpre : Forall other_branch pre)
    (Hbad : ref_update bad = None) :
  hook app (pre ++ bad :: rest) w
  = (Raise ValueError,
     after w (files w) (branch_events (sanitize_app_name app) pre)).
Proof.
  unfold git_hook. rewrite git_hook_lines_other by done.
  cbn [git_hook_lines]. by rewrite Hbad.
Qed.

(** X20: a push to master.  With the checkout in place it is a deploy
    and nothing else.  Without it, the name being a plain one, the
    applications directory in place and no file in the way, the checkout
    directory is made and the repository cloned into it from the
    applications directory, and the deploy runs on what the clone left. *)
Theorem git_hook_master app line oldrev newrev w
    (Hline : ref_update line = Some (oldrev, newrev, "refs/heads/master")) :
  let name := sanitize_app_name app in
  let app_path := join APP_ROOT [name] in
  let clone :=
    "git clone --quiet " ++ path_str (join GIT_ROOT [name]) ++ " " ++ name in
  let deploy :=
    do_deploy subprocess environ_PATH ephemeral create_worker name in
  (path_exists (files w) app_path = true → hook app [line] w = deploy w)
  ∧ (plain name →
     files w !! [] = Some Dir →
     is_dir (files w) APP_ROOT = true →
     path_exists (files w) app_path = false →
     hook app [line] w
     = deploy
         (after w
            (subprocess clone APP_ROOT (<[["apps"; name] := Dir]> (files w)))
            [Echo ("-----> Creating app '" ++ name ++ "'") "green";
             Makedirs app_path; Call clone APP_ROOT])).
Proof.
  intros name app_path clone deploy.
  assert (Htail : ∀ v, (deploy ;; hook_lines name []) v = deploy v).
  { intros v. unfold mbind, M_bind. cbn [git_hook_lines].
    destruct (deploy v) as [[[]|e] v']; reflexivity. }
  split.
  - intros Hex. unfold git_hook. fold name. cbn [git_hook_lines].
    rewrite Hline. rewrite decide_True by done.
    fold app_path. fold deploy.
    rewrite bind_assoc. erewrite bind_ok; [|apply exists_run].
    rewrite Hex. cbn [negb].
    rewrite bind_assoc. erewrite bind_ok; [|reflexivity].
    apply Htail.
  - intros Hplain Hroot Hdir Hno. unfold git_hook. fold name.
    cbn [git_hook_lines]. rewrite Hline. rewrite decide_True by done.
    fold app_path. fold deploy. fold clone.
    assert (Hnorm : norm app_path = ["apps"; name])
      by exact (norm_join_plain APP_ROOT name Hplain).
    assert (Happs : files w !! ["apps"] = Some Dir)
      by (by apply bool_decide_eq_true in Hdir).
    assert (Hnone : files w !! ["apps"; name] = None).
    { apply bool_decide_eq_false in Hno. rewrite Hnorm in Hno.
      by apply eq_None_not_Some. }
    assert (Hmk : mkdir_all ["apps"; name] (files w)
                  = <[["apps"; name] := Dir]> (files w)).
    { unfold mkdir_all. cbn.
      rewrite (insert_id (<[["apps"; name] := Dir]> (files w)) ["apps"] Dir)
        by (by rewrite lookup_insert_ne).
      apply insert_id. by rewrite lookup_insert_ne. }
    rewrite bind_assoc. erewrite bind_ok; [|apply exists_run].
    rewrite Hno. cbn [negb].
    rewrite bind_assoc. erewrite bind_ok.
    2: { erewrite bind_ok; [|apply echo_run].
         erewrite bind_ok.
         2: { unfold os_makedirs. erewrite bind_ok; [|reflexivity].
              rewrite files_after, Hno, Hnorm.
              assert (Hf : existsb (is_file (files w))
                             (inits ["apps"; name]) = false).
              { cbn. unfold is_file. by rewrite Hroot, Happs, Hnone. }
              rewrite Hf. cbn [orb]. rewrite Hmk. reflexivity. }
         apply (call_run subprocess).
         apply bool_decide_eq_true.
         change (norm APP_ROOT) with ["apps"].
         cbn [files]. by rewrite lookup_insert_ne. }
    rewrite Htail. f_equal.
    unfold after. cbn [files trace sockets]. by rewrite <- !app_assoc.
Qed.

End HookProps.

Lemma git_hook_other_branches_witness :
  git_hook (λ _ _ f, f) "" (λ n, n) (λ _ _ _ _ _, mret tt) "foo"
    ["0 1 refs/heads/dev
"; "1 2 refs/tags/v1
"] Sample2.bare
  = (Ok tt,
     after Sample2.bare (files Sample2.bare)
       [Echo "receive-branch 'foo': 1, refs/heads/dev" "";
        Echo "receive-branch 'foo': 2, refs/tags/v1" ""])
  ∧ length (branch_events "foo" ["0 1 refs/heads/dev
"; "1 2 refs/tags/v1
"]) = 2.
Proof.
  refine (git_hook_other_branches (λ _ _ f, f) "" (λ n, n)
            (λ _ _ _ _ _, mret tt) "foo"
            ["0 1 refs/heads/dev
"; "1 2 refs/tags/v1
"] Sample2.bare _).
  repeat constructor; eexists _, _, _; (split; [reflexivity|discriminate]).
Defined.

Lemma git_hook_bad_line_witness :
  git_hook (λ _ _ f, f) "" (λ n, n) (λ _ _ _ _ _, mret tt) "foo"
    (["0 1 refs/heads/dev
"] ++ "
" :: ["1 2 refs/heads/master
"]) Sample.first_deploy
  = (Raise ValueError,
     after Sample.first_deploy (files Sample.first_deploy)
       [Echo "receive-branch 'foo': 1, refs/heads/dev" ""]).
Proof.
  refine (git_hook_bad_line (λ _ _ f, f) "" (λ n, n)
            (λ _ _ _ _ _, mret tt) "foo"
            ["0 1 refs/heads/dev
"] "
" ["1 2 refs/heads/master
"] Sample.first_deploy _ _).
  - repeat constructor; eexists _, _, _; (split; [reflexivity|discriminate]).
  - reflexivity.
Defined.

Lemma git_hook_master_witness :
  git_hook (λ _ _ f, f) "" (λ n, n) (λ _ _ _ _ _, mret tt) "foo"
    ["0 1 refs/heads/master
"] Sample.first_deploy
  = do_deploy (λ _ _ f, f) "" (λ n, n) (λ _ _ _ _ _, mret tt) "foo"
      Sample.first_deploy
  ∧ git_hook (λ _ _ f, f) "" (λ n, n) (λ _ _ _ _ _, mret tt) "foo"
      ["0 1 refs/heads/master
"] (Sample.world_of [])
    = do_deploy (λ _ _ f, f) "" (λ n, n) (λ _ _ _ _ _, mret tt) "foo"
        (after (Sample.world_of [])
           (<[["apps"; "foo"] := Dir]> (files (Sample.world_of [])))
           [Echo "-----> Creating app 'foo'" "green";
            Makedirs ["apps"; "foo"];
            Call "git clone --quiet repos/foo foo" APP_ROOT]).
Proof.
  split.
  - refine (proj1 (git_hook_master (λ _ _ f, f) "" (λ n, n)
                     (λ _ _ _ _ _, mret tt) "foo" "0 1 refs/heads/master
" "0" "1" Sample.first_deploy _) _); reflexivity.
  - refine (proj2 (git_hook_master (λ _ _ f, f) "" (λ n, n)
                     (λ _ _ _ _ _, mret tt) "foo" "0 1 refs/heads/master
" "0" "1" (Sample.world_of []) _) _ _ _ _);
      [reflexivity|repeat split; discriminate|reflexivity..].
Defined.

(** *** [git-receive-pack] *)

Section ReceiveProps.

Variable subprocess : string → path → fs → fs.
Variable piku_root : string.
Variable argv : list string.

(** X21: [git-receive-pack] on a repository that was set up before.
    With the hook in place it is left as it is, whatever it holds, and the
    only thing done is the [git-shell] call.  With the hooks directory in
    place and no hook in it, the command fails with [OSError] in
    [os.makedirs] before anything is written or run: the hook is not put
    back and the push is not handled. *)
Theorem receive_later_pushes app w :
  let name := sanitize_app_name app in
  let hook_path := join GIT_ROOT [name; "hooks"; "post-receive"] in
  let shell :=
    "git-shell -c " ++ dquote ++ String.concat " " (tail argv) ++ dquote in
  (path_exists (files w) hook_path = true →
   is_dir (files w) GIT_ROOT = true →
   receive subprocess piku_root argv app w
   = (Ok tt, after w (subprocess shell GIT_ROOT (files w))
               [Call shell GIT_ROOT]))
  ∧ (path_exists (files w) hook_path = false →
     path_exists (files w) (join GIT_ROOT [name; "hooks"]) = true →
     receive subprocess piku_root argv app w = (Raise OSError, w)).
Proof.
  intros name hook_path shell. split.
  - intros Hex Hdir. unfold receive. fold name. fold hook_path. fold shell.
    erewrite bind_ok; [|apply exists_run]. rewrite Hex. cbn [negb].
    erewrite bind_ok; [|reflexivity].
    by apply (call_run subprocess).
  - intros Hno Hdir. unfold receive. fold name. fold hook_path.
    erewrite bind_ok; [|apply exists_run]. rewrite Hno. cbn [negb].
    apply bind_raise. apply bind_raise.
    unfold os_makedirs. erewrite bind_ok; [|reflexivity].
    change (dirname hook_path) with (join GIT_ROOT [name; "hooks"]).
    by rewrite Hdir.
Qed.

(** X22: the first [git-receive-pack] for a plain name, with the
    repositories directory in place and nothing of the repository there:
    the hooks directory is made, [git init --bare] is run from the
    repositories directory, the hook is written with the root and the
    sanitized name in its text, and [git-shell] is run last; this when
    [git init] leaves the repositories and hooks directories in place and
    makes no directory where the hook goes. *)
Theorem receive_first_push app w :
  let name := sanitize_app_name app in
  let hooks := ["repos"; name; "hooks"] in
  let hook_path := join GIT_ROOT [name; "hooks"; "post-receive"] in
  let init := "git init --quiet --bare " ++ name in
  let shell :=
    "git-shell -c " ++ dquote ++ String.concat " " (tail argv) ++ dquote in
  let f1 := <[["repos"; name] := Dir]> (<[hooks := Dir]> (files w)) in
  let f2 := subprocess init GIT_ROOT f1 in
  let f3 := <[hook_path := File (hook_text piku_root name)]> f2 in
  plain name →
  files w !! [] = Some Dir →
  files w !! ["repos"] = Some Dir →
  (∀ q, ["repos"; name] `prefix_of` q → files w !! q = None) →
  f2 !! ["repos"] = Some Dir →
  f2 !! hooks = Some Dir →
  f2 !! hook_path ≠ Some Dir →
  receive subprocess piku_root argv app w
  = (Ok tt,
     after w (subprocess shell GIT_ROOT f3)
       [Makedirs hooks; Call init GIT_ROOT; Wrote hook_path;
        Call shell GIT_ROOT])
  ∧ f3 !! hook_path = Some (File (hook_text piku_root name)).
Proof.
  intros name hooks hook_path init shell f1 f2 f3
    Hplain Hroot Hrepos Hnone Hgit Hhooks Hhook.
  destruct Hplain as (Hn1 & Hn2 & Hn3).
  assert (Hstep : ∀ acc, norm_step acc name = (acc ++ [name])%list).
  { intros acc. unfold norm_step.
    rewrite decide_False by (intros [?|?]; done).
    by rewrite decide_False. }
  assert (Hnh : norm hook_path = hook_path).
  { unfold hook_path, join, GIT_ROOT, norm. cbn [Datatypes.app foldl].
    change (norm_step [] "repos") with ["repos"]. rewrite Hstep.
    reflexivity. }
  assert (Hnd : norm (dirname hook_path) = hooks).
  { unfold hook_path, dirname, join, GIT_ROOT, norm.
    cbn [Datatypes.app removelast foldl].
    change (norm_step [] "repos") with ["repos"]. rewrite Hstep.
    reflexivity. }
  assert (Hex : path_exists (files w) hook_path = false).
  { apply path_exists_none. rewrite Hnh. apply Hnone.
    by exists ["hooks"; "post-receive"]. }
  assert (Hexd : path_exists (files w) (dirname hook_path) = false).
  { apply path_exists_none. rewrite Hnd. apply Hnone. by exists ["hooks"]. }
  assert (Hmk : mkdir_all hooks (files w) = f1).
  { unfold mkdir_all, f1, hooks. cbn.
    rewrite (insert_id _ ["repos"] Dir) by (by rewrite !lookup_insert_ne).
    apply insert_id. by rewrite !lookup_insert_ne. }
  split; [|by apply lookup_insert_eq].
  unfold receive. fold name. fold hook_path. fold init. fold shell.
  erewrite bind_ok; [|apply exists_run]. rewrite Hex. cbn [negb].
  erewrite bind_ok.
  2: { erewrite bind_ok.
       2: { unfold os_makedirs. erewrite bind_ok; [|reflexivity].
            rewrite Hexd, Hnd.
            assert (Hf : existsb (is_file (files w)) (inits hooks) = false).
            { cbn. unfold is_file. rewrite Hroot, Hrepos.
              rewrite (Hnone ["repos"; name]) by done.
              by rewrite (Hnone ["repos"; name; "hooks"])
                by (by exists ["hooks"]). }
            rewrite Hf. cbn [orb]. rewrite Hmk. reflexivity. }
       erewrite bind_ok.
       2: { apply (call_run subprocess). apply bool_decide_eq_true.
            change (norm GIT_ROOT) with ["repos"]. cbn [files].
            unfold f1. by rewrite !lookup_insert_ne. }
       erewrite bind_ok.
       2: { apply (write_lines_run _ _ _ "repos" [name; "hooks"; "post-receive"]).
            - exact Hnh.
            - exact Hhooks.
            - exact Hhook. }
       unfold os_chmod_exec. erewrite bind_ok; [|apply exists_run].
       rewrite files_after, Hnh.
       assert (Hw : path_exists f3 hook_path = true).
       { apply (path_exists_some _ _ (File (hook_text piku_root name))).
         rewrite Hnh. apply lookup_insert_eq. }
       unfold after. cbn [files trace sockets].
       fold f2. fold f3. rewrite Hw. reflexivity. }
  rewrite (call_run subprocess).
  - f_equal. unfold after. cbn [files trace sockets].
    by rewrite <- !app_assoc.
  - apply bool_decide_eq_true. change (norm GIT_ROOT) with ["repos"].
    cbn [files]. unfold f3. by rewrite lookup_insert_ne.
Qed.

End ReceiveProps.

Lemma receive_later_pushes_witness :
  receive (λ _ _ f, f) "/home/piku/.piku"
    ["piku.py"; "git-receive-pack"; "foo"] "foo" Sample2.hooked
  = (Ok tt,
     after Sample2.hooked (files Sample2.hooked)
       [Call ("git-shell -c " ++ dquote ++ "git-receive-pack foo" ++ dquote)
             GIT_ROOT])
  ∧ receive (λ _ _ f, f) "/home/piku/.piku"
      ["piku.py"; "git-receive-pack"; "foo"] "foo" Sample2.unhooked
    = (Raise OSError, Sample2.unhooked).
Proof.
  split.
  - refine (proj1 (receive_later_pushes (λ _ _ f, f) "/home/piku/.piku"
                     ["piku.py"; "git-receive-pack"; "foo"] "foo"
                     Sample2.hooked) _ _); vm_compute; reflexivity.
  - refine (proj2 (receive_later_pushes (λ _ _ f, f) "/home/piku/.piku"
                     ["piku.py"; "git-receive-pack"; "foo"] "foo"
                     Sample2.unhooked) _ _); vm_compute; reflexivity.
Defined.

Lemma receive_first_push_witness :
  ∃ w', receive (λ _ _ f, f) "/home/piku/.piku"
          ["piku.py"; "git-receive-pack"; "foo"] "foo" (Sample.world_of [])
        = (Ok tt, w')
      ∧ files w' !! ["repos"; "foo"; "hooks"; "post-receive"]
        = Some (File (hook_text "/home/piku/.piku" "foo"))
      ∧ is_dir (files w') ["repos"; "foo"; "hooks"] = true.
Proof.
  destruct (receive_first_push (λ _ _ f, f) "/home/piku/.piku"
              ["piku.py"; "git-receive-pack"; "foo"] "foo"
              (Sample.world_of [])) as [Hrun Hhook].
  - repeat split; discriminate.
  - vm_compute. reflexivity.
  - vm_compute. reflexivity.
  - intros q [k ->]. apply not_elem_of_list_to_map_1. cbn.
    rewrite !elem_of_cons, elem_of_nil.
    intros [?|[?|[?|[?|[?|[?|[?|[?|[]]]]]]]]]; discriminate.
  - vm_compute. reflexivity.
  - vm_compute. reflexivity.
  - vm_compute. discriminate.
  - eexists. split; [exact Hrun|]. split.
    + exact Hhook.
    + vm_compute. reflexivity.
Defined.
